(** * Property-search export utilities (utils/export_utils.py)

    A shallow embedding of the export module: [export_to_json],
    [export_to_csv], [export_to_excel], [export_to_pdf_report] and
    [get_export_summary]; of the helper functions of the pages that call
    it; and of the rows the application writes for a search.

    Conventions of the embedding.
    - Python values are the JSON-shaped values the upstream API and the
      datastore hand to the module: [None], booleans, integers, strings,
      lists and string-keyed dictionaries.  Floating-point numbers are outside
      the embedding.  A dictionary is an association list in insertion order
      (the order Python keeps and [json.dumps] and pandas observe).
    - A [str] is a [string] whose characters are the code points U+0000 to
      U+00FF.
    - A raising computation returns [Raise e]; [str(e)] is [exn_str e].
    - [datetime.now()] is an explicit argument of every function that reads
      the clock.
    - The artifacts are modelled up to the point where the code hands them to
      pandas, openpyxl and reportlab: a CSV payload is the [DataFrame] that
      [to_csv] serialises, a workbook is the list of named sheets written, a
      report is the list of flowables given to [doc.build].  What openpyxl and
      reportlab refuse while they write the file (a control character in a
      cell of a sheet, a list in a cell of a report table) is outside the
      embedding: a function of the model returns where the Python code of the
      module runs to its end. *)

From Stdlib Require Import String Ascii ZArith NArith List Bool Arith Lia ZifyNat
  Sorted.
Import ListNotations.
Local Open Scope list_scope.
Local Open Scope string_scope.

(** ** Python values *)

Unset Elimination Schemes.
Inductive PyVal : Type :=
| PyNone
| PyBool (b : bool)
| PyInt (n : Z)
| PyStr (s : string)
| PyList (l : list PyVal)
| PyDict (d : list (string * PyVal)).
Set Elimination Schemes.

(** Induction over values, with the hypothesis available for every element
    of a list and every value of a dictionary. *)
Section PyVal_induction.
Variable P : PyVal -> Prop.
Hypothesis HNone : P PyNone.
Hypothesis HBool : forall b, P (PyBool b).
Hypothesis HInt : forall n, P (PyInt n).
Hypothesis HStr : forall s, P (PyStr s).
Hypothesis HList : forall l, Forall P l -> P (PyList l).
Hypothesis HDict : forall d, Forall (fun kv => P (snd kv)) d -> P (PyDict d).

Fixpoint PyVal_ind (o : PyVal) : P o :=
  match o with
  | PyNone => HNone
  | PyBool b => HBool b
  | PyInt n => HInt n
  | PyStr s => HStr s
  | PyList l =>
      HList l
        ((fix all (l : list PyVal) : Forall P l :=
            match l with
            | [] => Forall_nil _
            | x :: t => Forall_cons x (PyVal_ind x) (all t)
            end) l)
  | PyDict d =>
      HDict d
        ((fix all (d : list (string * PyVal)) : Forall (fun kv => P (snd kv)) d :=
            match d with
            | [] => Forall_nil _
            | kv :: t => Forall_cons kv (PyVal_ind (snd kv)) (all t)
            end) d)
  end.
End PyVal_induction.

Definition PyDictItems : Type := list (string * PyVal).

(** [type(o).__name__] *)
Definition type_name (o : PyVal) : string :=
  match o with
  | PyNone => "NoneType"
  | PyBool _ => "bool"
  | PyInt _ => "int"
  | PyStr _ => "str"
  | PyList _ => "list"
  | PyDict _ => "dict"
  end.

(** [bool(o)] *)
Definition truthy (o : PyVal) : bool :=
  match o with
  | PyNone => false
  | PyBool b => b
  | PyInt n => negb (n =? 0)%Z
  | PyStr s => negb (s =? "")
  | PyList l => match l with [] => false | _ => true end
  | PyDict d => match d with [] => false | _ => true end
  end.

(** [a or b] *)
Definition py_or (a b : PyVal) : PyVal := if truthy a then a else b.

(** ** Exceptions and the error monad *)

Inductive exn : Type :=
| AttributeError (msg : string)
| TypeError (msg : string)
| ValueError (msg : string)
| KeyError (key_repr : string)
| Exception (msg : string).

(** [IndexError], a subclass of [Exception]; no handler of the repository
    tells the two apart. *)
Definition IndexError (msg : string) : exn := Exception msg.

(** [str(e)] *)
Definition exn_str (e : exn) : string :=
  match e with
  | AttributeError m | TypeError m | ValueError m | KeyError m | Exception m => m
  end.

Inductive result (A : Type) : Type :=
| Ok (a : A)
| Raise (e : exn).
Arguments Ok {A} a.
Arguments Raise {A} e.

Definition bind {A B : Type} (m : result A) (f : A -> result B) : result B :=
  match m with
  | Ok a => f a
  | Raise e => Raise e
  end.

Notation "x <- m ;; k" := (bind m (fun x => k))
  (at level 61, m at next level, right associativity).

(** [for x in xs: acc.append(f(x))], stopping at the first exception. *)
Fixpoint mapM {A B : Type} (f : A -> result B) (xs : list A) : result (list B) :=
  match xs with
  | [] => Ok []
  | x :: xs' =>
      y <- f x ;;
      ys <- mapM f xs' ;;
      Ok (y :: ys)
  end.

(** [try: body except Exception as e: raise Exception(f"{what}{str(e)}")] *)
Definition reraise {A : Type} (what : string) (body : result A) : result A :=
  match body with
  | Ok a => Ok a
  | Raise e => Raise (Exception (what ++ exn_str e))
  end.

(** ** Strings: joining, digits, [str(int)] *)

Fixpoint join (sep : string) (parts : list string) : string :=
  match parts with
  | [] => ""
  | [p] => p
  | p :: rest => p ++ sep ++ join sep rest
  end.

Definition digit_char (d : N) : ascii := ascii_of_N (48 + d).

(** The decimal digits of [n], most significant first, in front of [acc].
    The recursion is on [fuel], a number at least [n], halved at each digit. *)
Fixpoint N_digits (fuel : positive) (n : N) (acc : string) : string :=
  let acc' := String (digit_char (n mod 10)) acc in
  if (n <? 10)%N then acc'
  else match fuel with
       | xH => acc'
       | xO fuel' | xI fuel' => N_digits fuel' (n / 10) acc'
       end.

Definition N_str (n : N) : string := N_digits (N.succ_pos n) n "".

(** [str(n)] for an [int]. *)
Definition int_str (n : Z) : string :=
  if (n <? 0)%Z then String "-" (N_str (Z.abs_N n)) else N_str (Z.abs_N n).

(** Two lowercase hexadecimal digits of a character code. *)
Definition hex_char (d : N) : ascii :=
  if (d <? 10)%N then ascii_of_N (48 + d) else ascii_of_N (87 + d).

Definition hex2 (c : ascii) : string :=
  let n := N_of_ascii c in
  String (hex_char (n / 16)) (String (hex_char (n mod 16)) "").

Fixpoint str_contains_char (c : ascii) (s : string) : bool :=
  match s with
  | EmptyString => false
  | String c' s' => if Ascii.eqb c c' then true else str_contains_char c s'
  end.

(** ** [repr] and [str] *)

(** The double-quote character. *)
Definition dquote : ascii := "034"%char.

(** [str.isprintable] on U+0000..U+00FF. *)
Definition is_printable (c : ascii) : bool :=
  let n := N_of_ascii c in
  ((32 <=? n) && negb ((127 <=? n) && (n <=? 160)) && negb (n =? 173))%N.

Definition repr_char (quote : ascii) (c : ascii) : string :=
  if Ascii.eqb c quote || Ascii.eqb c "\"
  then String "\" (String c "")
  else if Ascii.eqb c "009" then "\t"
  else if Ascii.eqb c "010" then "\n"
  else if Ascii.eqb c "013" then "\r"
  else if is_printable c then String c ""
  else "\x" ++ hex2 c.

Fixpoint repr_chars (quote : ascii) (s : string) : string :=
  match s with
  | EmptyString => ""
  | String c s' => repr_char quote c ++ repr_chars quote s'
  end.

(** [repr(s)] for a [str]: single quotes unless the text holds a single
    quote and no double quote. *)
Definition repr_str (s : string) : string :=
  let quote : ascii :=
    if str_contains_char "'" s && negb (str_contains_char dquote s)
    then dquote else "'"%char in
  String quote (repr_chars quote s ++ String quote "").

Fixpoint py_repr (o : PyVal) : string :=
  match o with
  | PyNone => "None"
  | PyBool true => "True"
  | PyBool false => "False"
  | PyInt n => int_str n
  | PyStr s => repr_str s
  | PyList l => "[" ++ join ", " (map py_repr l) ++ "]"
  | PyDict d =>
      "{" ++ join ", " (map (fun kv => repr_str (fst kv) ++ ": " ++ py_repr (snd kv)) d) ++ "}"
  end.

(** [str(o)] *)
Definition py_str (o : PyVal) : string :=
  match o with
  | PyStr s => s
  | _ => py_repr o
  end.

(** ** Dictionaries (insertion-ordered, string keys) *)

(** [d.get(k)] on the items of a dictionary *)
Fixpoint dict_get (d : PyDictItems) (k : string) : option PyVal :=
  match d with
  | [] => None
  | (k', v) :: d' => if k' =? k then Some v else dict_get d' k
  end.

(** [k in d] *)
Definition dict_has (d : PyDictItems) (k : string) : bool :=
  match dict_get d k with Some _ => true | None => false end.

(** [d[k] = v]: an existing key keeps its position, a new key goes last. *)
Fixpoint dict_set (d : PyDictItems) (k : string) (v : PyVal) : PyDictItems :=
  match d with
  | [] => [(k, v)]
  | (k', v') :: d' => if k' =? k then (k', v) :: d' else (k', v') :: dict_set d' k v
  end.

(** [dict(pairs)] *)
Definition dict_of_pairs (pairs : PyDictItems) : PyDictItems :=
  fold_left (fun d kv => dict_set d (fst kv) (snd kv)) pairs [].

(** The invariant of Python dictionaries: no key occurs twice, at any depth. *)
Fixpoint wf_val (o : PyVal) : Prop :=
  match o with
  | PyList l => (fix all (l : list PyVal) : Prop :=
                   match l with [] => True | x :: t => wf_val x /\ all t end) l
  | PyDict d => NoDup (map fst d) /\
                (fix all (d : PyDictItems) : Prop :=
                   match d with [] => True | kv :: t => wf_val (snd kv) /\ all t end) d
  | _ => True
  end.

(** ** [json.dumps(o, indent=..., default=str)]

    The pure-Python encoder CPython uses whenever [indent] is given
    ([json.encoder._make_iterencode]), with [ensure_ascii=True], item
    separator [","] and key separator [": "].  [default] is only consulted
    for objects that are not JSON values, of which the embedding has none. *)

(** [ESCAPE_ASCII] / [ESCAPE_DCT] of json.encoder *)
Definition json_escape_char (c : ascii) : string :=
  if Ascii.eqb c "\" then "\\"
  else if Ascii.eqb c dquote then String "\" (String dquote "")
  else if Ascii.eqb c "008" then "\b"
  else if Ascii.eqb c "012" then "\f"
  else if Ascii.eqb c "010" then "\n"
  else if Ascii.eqb c "013" then "\r"
  else if Ascii.eqb c "009" then "\t"
  else if ((32 <=? N_of_ascii c) && (N_of_ascii c <=? 126))%N then String c ""
  else "\u00" ++ hex2 c.

Fixpoint json_escape (s : string) : string :=
  match s with
  | EmptyString => ""
  | String c s' => json_escape_char c ++ json_escape s'
  end.

(** [py_encode_basestring_ascii] *)
Definition encode_basestring_ascii (s : string) : string :=
  String dquote (json_escape s ++ String dquote "").

Fixpoint spaces (n : nat) : string :=
  match n with
  | O => ""
  | S n' => String " " (spaces n')
  end.

(** ['\n' + _indent * _current_indent_level] *)
Definition newline_indent (indent level : nat) : string :=
  String "010" (spaces (indent * level)).

Fixpoint iterencode (indent level : nat) (o : PyVal) : string :=
  match o with
  | PyStr s => encode_basestring_ascii s
  | PyNone => "null"
  | PyBool true => "true"
  | PyBool false => "false"
  | PyInt n => int_str n
  | PyList [] => "[]"
  | PyList l =>
      "[" ++ newline_indent indent (S level)
          ++ join ("," ++ newline_indent indent (S level))
                  (map (iterencode indent (S level)) l)
          ++ newline_indent indent level ++ "]"
  | PyDict [] => "{}"
  | PyDict d =>
      "{" ++ newline_indent indent (S level)
          ++ join ("," ++ newline_indent indent (S level))
                  (map (fun kv => encode_basestring_ascii (fst kv) ++ ": "
                                  ++ iterencode indent (S level) (snd kv)) d)
          ++ newline_indent indent level ++ "}"
  end.

Definition json_dumps (indent : nat) (o : PyVal) : string := iterencode indent 0 o.

(** ** [json.loads]

    The scanner of json.decoder on the same value universe: a number with a
    fraction or an exponent, and a [\u] escape above U+00FF, are outside the
    embedding and make the parse fail. *)

Definition is_ws (c : ascii) : bool :=
  Ascii.eqb c " " || Ascii.eqb c "009" || Ascii.eqb c "010" || Ascii.eqb c "013".

Fixpoint skip_ws (s : string) : string :=
  match s with
  | EmptyString => ""
  | String c s' => if is_ws c then skip_ws s' else s
  end.

Definition is_digit (c : ascii) : bool :=
  ((48 <=? N_of_ascii c) && (N_of_ascii c <=? 57))%N.

Definition hex_val (c : ascii) : option N :=
  let n := N_of_ascii c in
  if ((48 <=? n) && (n <=? 57))%N then Some (n - 48)%N
  else if ((97 <=? n) && (n <=? 102))%N then Some (n - 87)%N
  else if ((65 <=? n) && (n <=? 70))%N then Some (n - 55)%N
  else None.

(** [BACKSLASH] of json.decoder *)
Definition unescape (c : ascii) : option ascii :=
  if Ascii.eqb c dquote then Some dquote
  else if Ascii.eqb c "\" then Some "\"%char
  else if Ascii.eqb c "/" then Some "/"%char
  else if Ascii.eqb c "b" then Some "008"%char
  else if Ascii.eqb c "f" then Some "012"%char
  else if Ascii.eqb c "n" then Some "010"%char
  else if Ascii.eqb c "r" then Some "013"%char
  else if Ascii.eqb c "t" then Some "009"%char
  else None.

Definition cons_char (c : ascii) (r : option (string * string)) : option (string * string) :=
  match r with
  | Some (t, rest) => Some (String c t, rest)
  | None => None
  end.

(** [py_scanstring] (strict), started after the opening quote. *)
Fixpoint scanstring (s : string) : option (string * string) :=
  match s with
  | EmptyString => None
  | String c r =>
      if Ascii.eqb c dquote then Some ("", r)
      else if Ascii.eqb c "\" then
        match r with
        | EmptyString => None
        | String e r1 =>
            if Ascii.eqb e "u" then
              match r1 with
              | String h1 (String h2 (String h3 (String h4 r2))) =>
                  match hex_val h1, hex_val h2, hex_val h3, hex_val h4 with
                  | Some a, Some b, Some c3, Some d =>
                      if ((a =? 0) && (b =? 0))%N
                      then cons_char (ascii_of_N (16 * c3 + d)) (scanstring r2)
                      else None
                  | _, _, _, _ => None
                  end
              | _ => None
              end
            else
              match unescape e with
              | Some c' => cons_char c' (scanstring r1)
              | None => None
              end
        end
      else if (N_of_ascii c <? 32)%N then None
      else cons_char c (scanstring r)
  end.

Fixpoint read_digits (acc : N) (s : string) : N * string :=
  match s with
  | EmptyString => (acc, "")
  | String c s' =>
      if is_digit c then read_digits (10 * acc + (N_of_ascii c - 48)) s' else (acc, s)
  end.

(** [NUMBER_RE] without the sign: a single zero, or a non-zero digit followed
    by digits; refused when a fraction or an exponent follows. *)
Definition scan_digits (s : string) : option (N * string) :=
  match s with
  | EmptyString => None
  | String c r =>
      if is_digit c then
        let '(n, rest) := if Ascii.eqb c "0" then (0%N, r) else read_digits 0 s in
        match rest with
        | EmptyString => Some (n, rest)
        | String c' _ =>
            if Ascii.eqb c' "." || Ascii.eqb c' "e" || Ascii.eqb c' "E"
            then None else Some (n, rest)
        end
      else None
  end.

Definition scan_int (s : string) : option (Z * string) :=
  match s with
  | EmptyString => None
  | String c r =>
      if Ascii.eqb c "-"
      then match scan_digits r with
           | Some (n, rest) => Some ((- Z.of_N n)%Z, rest)
           | None => None
           end
      else match scan_digits s with
           | Some (n, rest) => Some (Z.of_N n, rest)
           | None => None
           end
  end.

(** [s[len(p):]] when [s.startswith(p)] *)
Fixpoint strip_prefix (p s : string) : option string :=
  match p with
  | EmptyString => Some s
  | String a p' =>
      match s with
      | EmptyString => None
      | String c s' => if Ascii.eqb a c then strip_prefix p' s' else None
      end
  end.

(** [scan_once] of json.scanner; [fuel] bounds the nesting and the number of
    items still to read. *)
Fixpoint scan_once (fuel : nat) (s : string) : option (PyVal * string) :=
  match fuel with
  | O => None
  | S fuel' =>
      match s with
      | EmptyString => None
      | String c r =>
          if Ascii.eqb c dquote then
            match scanstring r with
            | Some (t, r') => Some (PyStr t, r')
            | None => None
            end
          else if Ascii.eqb c "{" then
            match skip_ws r with
            | EmptyString => None
            | String c1 r1 =>
                if Ascii.eqb c1 "}" then Some (PyDict [], r1)
                else match scan_members fuel' (String c1 r1) with
                     | Some (pairs, r') => Some (PyDict (dict_of_pairs pairs), r')
                     | None => None
                     end
            end
          else if Ascii.eqb c "[" then
            match skip_ws r with
            | EmptyString => None
            | String c1 r1 =>
                if Ascii.eqb c1 "]" then Some (PyList [], r1)
                else match scan_elements fuel' (String c1 r1) with
                     | Some (vs, r') => Some (PyList vs, r')
                     | None => None
                     end
            end
          else
            match strip_prefix "null" s with
            | Some r' => Some (PyNone, r')
            | None =>
                match strip_prefix "true" s with
                | Some r' => Some (PyBool true, r')
                | None =>
                    match strip_prefix "false" s with
                    | Some r' => Some (PyBool false, r')
                    | None =>
                        match scan_int s with
                        | Some (z, r') => Some (PyInt z, r')
                        | None => None
                        end
                    end
                end
            end
      end
  end

with scan_elements (fuel : nat) (s : string) : option (list PyVal * string) :=
  match fuel with
  | O => None
  | S fuel' =>
      match scan_once fuel' s with
      | Some (v, r) =>
          match skip_ws r with
          | EmptyString => None
          | String c r' =>
              if Ascii.eqb c "]" then Some ([v], r')
              else if Ascii.eqb c "," then
                match scan_elements fuel' (skip_ws r') with
                | Some (vs, r'') => Some (v :: vs, r'')
                | None => None
                end
              else None
          end
      | None => None
      end
  end

with scan_members (fuel : nat) (s : string) : option (PyDictItems * string) :=
  match fuel with
  | O => None
  | S fuel' =>
      match s with
      | EmptyString => None
      | String q r =>
          if Ascii.eqb q dquote then
            match scanstring r with
            | Some (k, r1) =>
                match skip_ws r1 with
                | EmptyString => None
                | String c2 r2 =>
                    if Ascii.eqb c2 ":" then
                      match scan_once fuel' (skip_ws r2) with
                      | Some (v, r3) =>
                          match skip_ws r3 with
                          | EmptyString => None
                          | String c r' =>
                              if Ascii.eqb c "}" then Some ([(k, v)], r')
                              else if Ascii.eqb c "," then
                                match scan_members fuel' (skip_ws r') with
                                | Some (kvs, r'') => Some ((k, v) :: kvs, r'')
                                | None => None
                                end
                              else None
                          end
                      | None => None
                      end
                    else None
                end
            | None => None
            end
          else None
      end
  end.

(** [json.loads(s)]: leading whitespace, one value, trailing whitespace. *)
Definition json_loads (s : string) : option PyVal :=
  match scan_once (S (String.length s)) (skip_ws s) with
  | Some (v, r) => match skip_ws r with EmptyString => Some v | _ => None end
  | None => None
  end.

(** ** Attribute and item access on values *)

Definition no_attribute (o : PyVal) (attr : string) : exn :=
  AttributeError ("'" ++ type_name o ++ "' object has no attribute '" ++ attr ++ "'").

(** [o.get(k, default)] *)
Definition py_get (o : PyVal) (k : string) (default : PyVal) : result PyVal :=
  match o with
  | PyDict d => Ok (match dict_get d k with Some v => v | None => default end)
  | _ => Raise (no_attribute o "get")
  end.

(** [o.items()] *)
Definition py_items (o : PyVal) : result PyDictItems :=
  match o with
  | PyDict d => Ok d
  | _ => Raise (no_attribute o "items")
  end.

Fixpoint is_substring (k s : string) : bool :=
  if String.prefix k s then true
  else match s with
       | EmptyString => false
       | String _ s' => is_substring k s'
       end.

(** [k in o] for a string [k] *)
Definition py_contains (o : PyVal) (k : string) : result bool :=
  match o with
  | PyDict d => Ok (dict_has d k)
  | PyList l => Ok (existsb (fun x => match x with PyStr s => s =? k | _ => false end) l)
  | PyStr s => Ok (is_substring k s)
  | _ => Raise (TypeError ("argument of type '" ++ type_name o ++ "' is not iterable"))
  end.

(** [o[k]] for a string [k] *)
Definition py_getitem (o : PyVal) (k : string) : result PyVal :=
  match o with
  | PyDict d =>
      match dict_get d k with
      | Some v => Ok v
      | None => Raise (KeyError (repr_str k))
      end
  | PyList _ => Raise (TypeError "list indices must be integers or slices, not str")
  | PyStr _ => Raise (TypeError "string indices must be integers, not 'str'")
  | _ => Raise (TypeError ("'" ++ type_name o ++ "' object is not subscriptable"))
  end.

(** [k in o and o[k]]: the value tested by the [if], [False] when the key
    is missing. *)
Definition py_in_and_getitem (o : PyVal) (k : string) : result PyVal :=
  present <- py_contains o k ;;
  if present then py_getitem o k else Ok (PyBool false).

Definition chars_of (s : string) : list string :=
  map (fun c => String c "") (list_ascii_of_string s).

Fixpoint join_items (i : N) (items : list PyVal) : result (list string) :=
  match items with
  | [] => Ok []
  | PyStr s :: rest =>
      parts <- join_items (i + 1) rest ;;
      Ok (s :: parts)
  | x :: _ =>
      Raise (TypeError ("sequence item " ++ N_str i ++ ": expected str instance, "
                        ++ type_name x ++ " found"))
  end.

(** [sep.join(o)] *)
Definition str_join (sep : string) (o : PyVal) : result string :=
  match o with
  | PyStr s => Ok (join sep (chars_of s))
  | PyList l =>
      parts <- join_items 0 l ;;
      Ok (join sep parts)
  | PyDict d => Ok (join sep (map fst d))
  | _ => Raise (TypeError "can only join an iterable")
  end.

(** [enumerate(xs, start)] *)
Fixpoint enumerate {A : Type} (start : Z) (xs : list A) : list (Z * A) :=
  match xs with
  | [] => []
  | x :: xs' => (start, x) :: enumerate (start + 1) xs'
  end.

(** ** The clock and [strftime] *)

Record datetime : Type := mkdatetime {
  year : N; month : N; day : N;
  hour : N; minute : N; second : N;
  microsecond : N
}.

(** The values [datetime.now()] returns: a calendar date of a four-digit
    year and a time of day. *)
Definition valid_datetime (t : datetime) : Prop :=
  (1000 <= year t <= 9999 /\ 1 <= month t <= 12 /\ 1 <= day t <= 31 /\
   hour t <= 23 /\ minute t <= 59 /\ second t <= 59 /\ microsecond t <= 999999)%N.

(** The last [w] decimal digits of [n]: a zero-padded field of width [w]. *)
Fixpoint zfill (w : nat) (n : N) : string :=
  match w with
  | O => ""
  | S w' => zfill w' (n / 10) ++ String (digit_char (n mod 10)) ""
  end.

(** The directives of [strftime] for a year of four digits, which is what
    [valid_datetime] asks for: the C library does not pad a shorter year. *)
Definition strftime_directive (t : datetime) (d : ascii) : string :=
  if Ascii.eqb d "Y" then zfill 4 (year t)
  else if Ascii.eqb d "m" then zfill 2 (month t)
  else if Ascii.eqb d "d" then zfill 2 (day t)
  else if Ascii.eqb d "H" then zfill 2 (hour t)
  else if Ascii.eqb d "M" then zfill 2 (minute t)
  else if Ascii.eqb d "S" then zfill 2 (second t)
  else String "%" (String d "").

(** [t.strftime(fmt)] for the directives the module uses. *)
Fixpoint strftime (t : datetime) (fmt : string) : string :=
  match fmt with
  | EmptyString => ""
  | String "%" (String d rest) => strftime_directive t d ++ strftime t rest
  | String c rest => String c (strftime t rest)
  end.

(** [f"{stem}_{search_id or 'export'}_{timestamp}{ext}"] *)
Definition export_filename (stem : string) (search_id : PyVal) (now : datetime)
    (ext : string) : string :=
  let timestamp := strftime now "%Y%m%d_%H%M%S" in
  stem ++ "_" ++ py_str (py_or search_id (PyStr "export")) ++ "_" ++ timestamp ++ ext.

(** ** pandas: [DataFrame(list_of_dicts)] *)

Definition Row : Type := PyDictItems.

(** A frame: the column labels and, per row, the value each column holds;
    [None] where pandas stores a missing value.  The type in which a column
    holds its integers is inferred from the whole column: see [cells_of]. *)
Record DataFrame : Type := mkDataFrame {
  columns : list string;
  data : list (list (option PyVal))
}.

Definition add_unique (seen : list string) (k : string) : list string :=
  if existsb (String.eqb k) seen then seen else (seen ++ [k])%list.

(** The union of the rows' keys in order of first appearance
    ([lib.fast_unique_multiple_list_gen] without sorting). *)
Definition fast_unique_multiple_list_gen (gen : list (list string)) : list string :=
  fold_left (fun uniques buf => fold_left add_unique buf uniques) gen [].

(** What a frame holds for a value of a row: [None], like an absent key, is
    a missing value. *)
Definition held (o : option PyVal) : option PyVal :=
  match o with
  | Some PyNone => None
  | _ => o
  end.

Definition DataFrame_of (rows : list Row) : DataFrame :=
  let cols := fast_unique_multiple_list_gen (map (map fst) rows) in
  {| columns := cols;
     data := map (fun row => map (fun c => held (dict_get row c)) cols) rows |}.

(** *** The type of a column ([lib.maybe_convert_objects])

    pandas infers the type of a column from all its values.  A column of
    integers with at least one missing value becomes [float64]: every integer
    in it is held as the nearest double ([2] as [2.0]).  A column with a
    string, a boolean, a list or a dictionary, and a column of integers without
    a missing value, keep their values.  This is the inference for integers
    that fit in 64 bits; what pandas does with larger ones depends on their
    order in the column. *)

Definition is_missing (cell : option PyVal) : bool :=
  match cell with None => true | Some _ => false end.

Definition is_integer (cell : option PyVal) : bool :=
  match cell with Some (PyInt _) => true | _ => false end.

Definition converts_to_float (column : list (option PyVal)) : bool :=
  existsb is_missing column && existsb is_integer column
  && forallb (fun cell => is_missing cell || is_integer cell) column.

(** A cell as the frame holds it. *)
Inductive Cell : Type :=
| Missing
| Kept (v : PyVal)
| AsFloat64 (n : Z).

(** The cell for a value in a column with the given values. *)
Definition cell_in (column : list (option PyVal)) (value : option PyVal) : Cell :=
  match value with
  | None => Missing
  | Some (PyInt n) => if converts_to_float column then AsFloat64 n else Kept (PyInt n)
  | Some v => Kept v
  end.

(** The values of the [j]-th column. *)
Definition column_values (df : DataFrame) (j : nat) : list (option PyVal) :=
  map (fun values => nth j values None) (data df).

(** The cells of the frame, row by row. *)
Definition cells_of (df : DataFrame) : list (list Cell) :=
  map (fun values =>
         map (fun j => cell_in (column_values df j) (nth j values None))
           (seq 0 (List.length (columns df))))
    (data df).

(** The records of the text [df.to_csv(index=False)] writes: the header, then
    one record per row. *)
Definition csv_records (df : DataFrame) : list (list Cell) :=
  map (fun c => Kept (PyStr c)) (columns df) :: cells_of df.

(** ** [export_to_json] *)

Definition export_to_json (search_data search_id : PyVal) (now : datetime)
    : result (string * string) :=
  reraise "JSON export failed: "
    (let json_string := json_dumps 2 search_data in
     let filename := export_filename "property_search" search_id now ".json" in
     Ok (json_string, filename)).

(** ** [export_to_csv] *)

Definition NA : PyVal := PyStr "N/A".

(** ["Yes" if v else "No"] *)
Definition yes_no (v : PyVal) : PyVal := PyStr (if truthy v then "Yes" else "No").

(** The body of the [for prop in search_results] loop. *)
Definition csv_row (prop : PyVal) : result Row :=
  address <- py_get prop "formattedAddress" NA ;;
  city <- py_get prop "city" NA ;;
  state <- py_get prop "state" NA ;;
  zip_code <- py_get prop "zipCode" NA ;;
  property_type <- py_get prop "propertyType" NA ;;
  bedrooms <- py_get prop "bedrooms" NA ;;
  bathrooms <- py_get prop "bathrooms" NA ;;
  square_footage <- py_get prop "squareFootage" NA ;;
  lot_size <- py_get prop "lotSize" NA ;;
  year_built <- py_get prop "yearBuilt" NA ;;
  last_sale_price <- py_get prop "lastSalePrice" NA ;;
  last_sale_date <- py_get prop "lastSaleDate" NA ;;
  owner_occupied <- py_get prop "ownerOccupied" PyNone ;;
  assessor_id <- py_get prop "assessorID" NA ;;
  county <- py_get prop "county" NA ;;
  zoning <- py_get prop "zoning" NA ;;
  let row : Row :=
    [("Address", address); ("City", city); ("State", state); ("ZIP Code", zip_code);
     ("Property Type", property_type); ("Bedrooms", bedrooms);
     ("Bathrooms", bathrooms); ("Square Footage", square_footage);
     ("Lot Size", lot_size); ("Year Built", year_built);
     ("Last Sale Price", last_sale_price); ("Last Sale Date", last_sale_date);
     ("Owner Occupied", yes_no owner_occupied); ("Assessor ID", assessor_id);
     ("County", county); ("Zoning", zoning)] in
  owner <- py_in_and_getitem prop "owner" ;;
  row <- (if truthy owner then
            names <- py_get owner "names" (PyList []) ;;
            owner_names <- (if truthy names
                            then joined <- str_join ", " names ;; Ok (PyStr joined)
                            else Ok NA) ;;
            let row := dict_set row "Owner Names" owner_names in
            owner_type <- py_get owner "type" NA ;;
            Ok (dict_set row "Owner Type" owner_type)
          else
            Ok (dict_set (dict_set row "Owner Names" NA) "Owner Type" NA)) ;;
  features <- py_in_and_getitem prop "features" ;;
  if truthy features then
    architecture_type <- py_get features "architectureType" NA ;;
    let row := dict_set row "Architecture Type" architecture_type in
    exterior_type <- py_get features "exteriorType" NA ;;
    let row := dict_set row "Exterior Type" exterior_type in
    heating <- py_get features "heating" PyNone ;;
    let row := dict_set row "Heating" (yes_no heating) in
    cooling <- py_get features "cooling" PyNone ;;
    let row := dict_set row "Cooling" (yes_no cooling) in
    garage <- py_get features "garage" PyNone ;;
    let row := dict_set row "Garage" (yes_no garage) in
    garage_spaces <- py_get features "garageSpaces" NA ;;
    Ok (dict_set row "Garage Spaces" garage_spaces)
  else Ok row.

Definition is_empty {A : Type} (xs : list A) : bool :=
  match xs with [] => true | _ => false end.

Definition export_to_csv (search_results : list PyVal) (search_id : PyVal)
    (now : datetime) : result (DataFrame * string) :=
  reraise "CSV export failed: "
    (if is_empty search_results then Raise (Exception "No search results to export")
     else
       df_data <- mapM csv_row search_results ;;
       let df := DataFrame_of df_data in
       let filename := export_filename "property_search" search_id now ".csv" in
       Ok (df, filename)).

(** ** [export_to_excel] *)

(** A workbook: the sheets in the order they are written. *)
Definition Workbook : Type := list (string * DataFrame).

Definition excel_row (prop : PyVal) : result Row :=
  address <- py_get prop "formattedAddress" NA ;;
  city <- py_get prop "city" NA ;;
  state <- py_get prop "state" NA ;;
  zip_code <- py_get prop "zipCode" NA ;;
  property_type <- py_get prop "propertyType" NA ;;
  bedrooms <- py_get prop "bedrooms" NA ;;
  bathrooms <- py_get prop "bathrooms" NA ;;
  square_footage <- py_get prop "squareFootage" NA ;;
  lot_size <- py_get prop "lotSize" NA ;;
  year_built <- py_get prop "yearBuilt" NA ;;
  last_sale_price <- py_get prop "lastSalePrice" NA ;;
  last_sale_date <- py_get prop "lastSaleDate" NA ;;
  owner_occupied <- py_get prop "ownerOccupied" PyNone ;;
  county <- py_get prop "county" NA ;;
  zoning <- py_get prop "zoning" NA ;;
  Ok [("Address", address); ("City", city); ("State", state); ("ZIP Code", zip_code);
      ("Property Type", property_type); ("Bedrooms", bedrooms);
      ("Bathrooms", bathrooms); ("Square Footage", square_footage);
      ("Lot Size", lot_size); ("Year Built", year_built);
      ("Last Sale Price", last_sale_price); ("Last Sale Date", last_sale_date);
      ("Owner Occupied", yes_no owner_occupied);
      ("County", county); ("Zoning", zoning)].

(** One row of the [Tax Assessments] sheet. *)
Definition tax_assessment_row (i : Z) (prop : PyVal) (item : string * PyVal)
    : result Row :=
  let '(year, data) := item in
  address <- py_get prop "formattedAddress" NA ;;
  total <- py_get data "value" NA ;;
  land <- py_get data "land" NA ;;
  improvements <- py_get data "improvements" NA ;;
  Ok [("Property Index", PyInt (i + 1)); ("Address", address); ("Year", PyStr year);
      ("Total Value", total); ("Land Value", land); ("Improvements", improvements)].

(** One row of the [Property Taxes] sheet. *)
Definition property_tax_row (i : Z) (prop : PyVal) (item : string * PyVal)
    : result Row :=
  let '(year, data) := item in
  address <- py_get prop "formattedAddress" NA ;;
  total <- py_get data "total" NA ;;
  Ok [("Property Index", PyInt (i + 1)); ("Address", address); ("Year", PyStr year);
      ("Total Tax", total)].

(** The rows one record adds to a per-year sheet:
    [if key in prop and prop[key]: for year, data in prop[key].items(): ...] *)
Definition year_rows (key : string)
    (mk : Z -> PyVal -> string * PyVal -> result Row)
    (entry : Z * PyVal) : result (list Row) :=
  let '(i, prop) := entry in
  by_year <- py_in_and_getitem prop key ;;
  if truthy by_year then
    items <- py_items by_year ;;
    mapM (mk i prop) items
  else Ok [].

(** The rows of a per-year sheet over all records, in input order. *)
Definition year_sheet_rows (key : string)
    (mk : Z -> PyVal -> string * PyVal -> result Row)
    (search_results : list PyVal) : result (list Row) :=
  per_record <- mapM (year_rows key mk) (enumerate 0 search_results) ;;
  Ok (concat per_record).

Definition metadata_row (item : string * PyVal) : Row :=
  [("Field", PyStr (fst item)); ("Value", PyStr (py_str (snd item)))].

(** An exception inside [with pd.ExcelWriter(...) as writer:] before any
    sheet is written: leaving the block saves the workbook, openpyxl refuses
    one without a sheet, and its [IndexError] replaces the exception. *)
Definition before_first_sheet {A : Type} (body : result A) : result A :=
  match body with
  | Ok a => Ok a
  | Raise _ => Raise (IndexError "At least one sheet must be visible")
  end.

Definition export_to_excel (search_results : list PyVal)
    (search_metadata search_id : PyVal) (now : datetime)
    : result (Workbook * string) :=
  reraise "Excel export failed: "
    (if is_empty search_results then Raise (Exception "No search results to export")
     else
       df_data <- before_first_sheet (mapM excel_row search_results) ;;
       let writer : Workbook := [("Properties", DataFrame_of df_data)] in
       tax_data <- year_sheet_rows "taxAssessments" tax_assessment_row search_results ;;
       let writer :=
         if is_empty tax_data then writer
         else (writer ++ [("Tax Assessments", DataFrame_of tax_data)])%list in
       property_tax_data <-
         year_sheet_rows "propertyTaxes" property_tax_row search_results ;;
       let writer :=
         if is_empty property_tax_data then writer
         else (writer ++ [("Property Taxes", DataFrame_of property_tax_data)])%list in
       writer <- (if truthy search_metadata then
                    items <- py_items search_metadata ;;
                    Ok (writer ++ [("Search Info",
                                    DataFrame_of (map metadata_row items))])%list
                  else Ok writer) ;;
       let filename := export_filename "property_search" search_id now ".xlsx" in
       Ok (writer, filename)).

(** [name in workbook.sheetnames] *)
Definition has_sheet (wb : Workbook) (name : string) : bool :=
  existsb (fun sheet => fst sheet =? name) wb.

(** [workbook[name]] *)
Fixpoint get_sheet (wb : Workbook) (name : string) : option DataFrame :=
  match wb with
  | [] => None
  | (n, df) :: wb' => if n =? name then Some df else get_sheet wb' name
  end.

(** ** [export_to_pdf_report] *)

Inductive Style : Type := CustomTitle | CustomHeading.

(** The reportlab flowables the report is built from. *)
Inductive Flowable : Type :=
| Paragraph (text : string) (style : Style)
| Table (cells : list (list PyVal))
| Spacer (width height : Z).

(** [s.replace(old, new)] for single characters *)
Fixpoint replace_char (old new : ascii) (s : string) : string :=
  match s with
  | EmptyString => ""
  | String c s' => String (if Ascii.eqb c old then new else c) (replace_char old new s')
  end.

(** The digits of [s] with a comma before every group of three counted from
    the right. *)
Fixpoint group_thousands (s : string) : string :=
  match s with
  | EmptyString => ""
  | String c r =>
      let n := String.length r in
      if (0 <? n)%nat && (n mod 3 =? 0)%nat
      then String c (String "," (group_thousands r))
      else String c (group_thousands r)
  end.

Definition int_commas (n : Z) : string :=
  let body := group_thousands (N_str (Z.abs_N n)) in
  if (n <? 0)%Z then String "-" body else body.

(** [format(v, ",")] *)
Definition format_commas (v : PyVal) : result string :=
  match v with
  | PyInt n => Ok (int_commas n)
  | PyBool b => Ok (if b then "1" else "0")
  | PyStr _ => Raise (ValueError "Cannot specify ',' with 's'.")
  | _ => Raise (TypeError ("unsupported format string passed to "
                           ++ type_name v ++ ".__format__"))
  end.

(** The [prop_data] table of one property. *)
Definition pdf_prop_data (prop : PyVal) : result (list (list PyVal)) :=
  address <- py_get prop "formattedAddress" NA ;;
  property_type <- py_get prop "propertyType" NA ;;
  bedrooms <- py_get prop "bedrooms" NA ;;
  bathrooms <- py_get prop "bathrooms" NA ;;
  sqft_test <- py_get prop "squareFootage" PyNone ;;
  square_footage <- (if truthy sqft_test then
                       sqft <- py_get prop "squareFootage" NA ;;
                       text <- format_commas sqft ;;
                       Ok (PyStr text)
                     else Ok NA) ;;
  year_built <- py_get prop "yearBuilt" NA ;;
  price_test <- py_get prop "lastSalePrice" PyNone ;;
  last_sale_price <- (if truthy price_test then
                        price <- py_get prop "lastSalePrice" (PyInt 0) ;;
                        text <- format_commas price ;;
                        Ok (PyStr ("$" ++ text))
                      else Ok NA) ;;
  owner_occupied <- py_get prop "ownerOccupied" PyNone ;;
  Ok [[PyStr "Address"; address];
      [PyStr "Property Type"; property_type];
      [PyStr "Bedrooms"; PyStr (py_str bedrooms)];
      [PyStr "Bathrooms"; PyStr (py_str bathrooms)];
      [PyStr "Square Footage"; square_footage];
      [PyStr "Year Built"; PyStr (py_str year_built)];
      [PyStr "Last Sale Price"; last_sale_price];
      [PyStr "Owner Occupied"; yes_no owner_occupied]].

(** The flowables of one property section; [i] counts from 1. *)
Definition pdf_property_section (total : Z) (entry : Z * PyVal)
    : result (list Flowable) :=
  let '(i, prop) := entry in
  prop_data <- pdf_prop_data prop ;;
  let section :=
    [Paragraph ("Property " ++ int_str i) CustomHeading;
     Table prop_data; Spacer 1 15] in
  Ok (if ((i mod 2 =? 0) && (i <? total))%Z
      then (section ++ [Spacer 1 50])%list else section).

Section Report.
(** [str.title], whose Unicode case tables are not reproduced. *)
Variable str_title : string -> string.

Definition pdf_metadata_rows (items : PyDictItems) : list (list PyVal) :=
  map (fun kv => [PyStr (str_title (replace_char "_" " " (fst kv)));
                  PyStr (py_str (snd kv))])
      (filter (fun kv => negb (fst kv =? "results")) items).

Definition export_to_pdf_report (search_results : list PyVal)
    (search_metadata search_id : PyVal) (now : datetime)
    : result (list Flowable * string) :=
  reraise "PDF export failed: "
    (if is_empty search_results then Raise (Exception "No search results to export")
     else
       let content := [Paragraph "Property Search Report" CustomTitle] in
       content <- (if truthy search_metadata then
                     let content :=
                       (content ++ [Paragraph "Search Information" CustomHeading])%list in
                     items <- py_items search_metadata ;;
                     let metadata_data := pdf_metadata_rows items in
                     Ok (if is_empty metadata_data then content
                         else (content ++ [Table metadata_data; Spacer 1 20])%list)
                   else Ok content) ;;
       let total := Z.of_nat (List.length search_results) in
       let content :=
         (content ++ [Paragraph ("Properties Found: " ++ int_str total)
                        CustomHeading])%list in
       sections <- mapM (pdf_property_section total) (enumerate 1 search_results) ;;
       let content := (content ++ concat sections)%list in
       let filename := export_filename "property_report" search_id now ".pdf" in
       Ok (content, filename)).
End Report.

(** ** [get_export_summary] *)

Definition Summary : Type := PyDictItems.

(** The body of the [try] block. *)
Definition summary_body (search_data : PyVal) (now : datetime) : result Summary :=
  let summary : Summary :=
    [("Export Date", PyStr (strftime now "%Y-%m-%d %H:%M:%S"));
     ("Total Properties", PyInt 0);
     ("Search Address", NA);
     ("Search Date", NA)] in
  match search_data with
  | PyDict d =>
      match dict_get d "property_data" with
      | Some prop_data =>
          has_address <- py_contains prop_data "address" ;;
          summary <- (if has_address then
                        address <- py_getitem prop_data "address" ;;
                        Ok (dict_set summary "Search Address" address)
                      else Ok summary) ;;
          has_timestamp <- py_contains prop_data "search_timestamp" ;;
          summary <- (if has_timestamp then
                        timestamp <- py_getitem prop_data "search_timestamp" ;;
                        Ok (dict_set summary "Search Date" timestamp)
                      else Ok summary) ;;
          has_results <- py_contains prop_data "results" ;;
          if has_results then
            results <- py_getitem prop_data "results" ;;
            match results with
            | PyList l =>
                Ok (dict_set summary "Total Properties"
                      (PyInt (Z.of_nat (List.length l))))
            | _ => Ok summary
            end
          else Ok summary
      | None =>
          match dict_get d "results" with
          | Some (PyList l) =>
              Ok (dict_set summary "Total Properties"
                    (PyInt (Z.of_nat (List.length l))))
          | _ => Ok summary
          end
      end
  | _ => Ok summary
  end.

(** [now] is the clock read at the start of the [try] block, [now_handler]
    the one read by the [except] handler. *)
Definition get_export_summary (search_data : PyVal) (now now_handler : datetime)
    : Summary :=
  match summary_body search_data now with
  | Ok summary => summary
  | Raise e =>
      [("Export Date", PyStr (strftime now_handler "%Y-%m-%d %H:%M:%S"));
       ("Error", PyStr ("Could not generate summary: " ++ exn_str e))]
  end.

(** ** Helper functions of the pages

    [get_search_address] (pages/4 Saved Searches and pages/5 Downloads, the
    same text in both), [get_property_count] (pages/4),
    [get_property_results] (pages/5) and [safe_get] (pages/1 Property
    Search). *)

(** [len(o)] *)
Definition py_len (o : PyVal) : result Z :=
  match o with
  | PyList l => Ok (Z.of_nat (List.length l))
  | PyStr s => Ok (Z.of_nat (String.length s))
  | PyDict d => Ok (Z.of_nat (List.length d))
  | _ => Raise (TypeError ("object of type '" ++ type_name o ++ "' has no len()"))
  end.

(** [o[0]]; a dictionary has string keys only, so the key [0] is missing. *)
Definition py_getitem_0 (o : PyVal) : result PyVal :=
  match o with
  | PyList (x :: _) => Ok x
  | PyList [] => Raise (IndexError "list index out of range")
  | PyStr (String c _) => Ok (PyStr (String c ""))
  | PyStr EmptyString => Raise (IndexError "string index out of range")
  | PyDict _ => Raise (KeyError "0")
  | _ => Raise (TypeError ("'" ++ type_name o ++ "' object is not subscriptable"))
  end.

Definition unknown_address : PyVal := PyStr "Unknown Address".

(** The body of the [try] block of [get_search_address]. *)
Definition get_search_address_body (search_data : PyVal) : result PyVal :=
  match search_data with
  | PyDict d =>
      if dict_has d "address" then py_getitem search_data "address"
      else
        nested <- (if dict_has d "property_data"
                   then property_data <- py_getitem search_data "property_data" ;;
                        py_contains property_data "address"
                   else Ok false) ;;
        if nested then
          property_data <- py_getitem search_data "property_data" ;;
          py_getitem property_data "address"
        else
          non_empty <- (if dict_has d "results"
                        then results <- py_getitem search_data "results" ;;
                             n <- py_len results ;;
                             Ok (0 <? n)%Z
                        else Ok false) ;;
          if non_empty then
            results <- py_getitem search_data "results" ;;
            first <- py_getitem_0 results ;;
            py_get first "formattedAddress" unknown_address
          else Ok unknown_address
  | _ => Ok unknown_address
  end.

(** [get_search_address]: the bare [except] turns every exception into
    "Unknown Address". *)
Definition get_search_address (search_data : PyVal) : PyVal :=
  match get_search_address_body search_data with
  | Ok address => address
  | Raise _ => unknown_address
  end.

(** The value [get_property_results] and [get_property_count] look at:
    [search_data["results"]], else [search_data["property_data"]["results"]],
    [None] when there is neither. *)
Definition find_results (search_data : PyVal) : result (option PyVal) :=
  match search_data with
  | PyDict d =>
      if dict_has d "results" then
        results <- py_getitem search_data "results" ;;
        Ok (Some results)
      else
        nested <- (if dict_has d "property_data"
                   then property_data <- py_getitem search_data "property_data" ;;
                        py_contains property_data "results"
                   else Ok false) ;;
        if nested then
          property_data <- py_getitem search_data "property_data" ;;
          results <- py_getitem property_data "results" ;;
          Ok (Some results)
        else Ok None
  | _ => Ok None
  end.

(** [get_property_results]: the results as stored, [[]] when there are none
    or anything raises. *)
Definition get_property_results (search_data : PyVal) : PyVal :=
  match find_results search_data with
  | Ok (Some results) => results
  | _ => PyList []
  end.

(** [get_property_count]: [len] of the results, [0] when there are none or
    anything raises. *)
Definition get_property_count (search_data : PyVal) : Z :=
  match (found <- find_results search_data ;;
         match found with
         | Some results => py_len results
         | None => Ok 0%Z
         end) with
  | Ok n => n
  | Raise _ => 0%Z
  end.

(** [value not in (None, "")] *)
Definition is_blank (value : PyVal) : bool :=
  match value with
  | PyNone => true
  | PyStr s => s =? ""
  | _ => false
  end.

(** [safe_get(data, key, default)] *)
Definition safe_get (data : PyVal) (key : string) (default : PyVal) : PyVal :=
  match py_get data key default with
  | Ok value => if is_blank value then default else value
  | Raise _ => default
  end.

(** [selected_search.get("property_data", {})] *)
Definition page_property_data (selected_search : PyDictItems) : PyVal :=
  match dict_get selected_search "property_data" with
  | Some property_data => property_data
  | None => PyDict []
  end.

(** The three assignments the bulk download makes on every result:
    [result["search_id"] = ...], [result["search_date"] = ...],
    [result["search_address"] = ...]. *)
Definition annotate_result (search_id search_date search_address : PyVal)
    (result : PyDictItems) : PyDictItems :=
  dict_set (dict_set (dict_set result "search_id" search_id)
              "search_date" search_date)
    "search_address" search_address.

(** ** Records written to the datastore

    The rows [save_property_search] prepares for the [property_searches]
    table: the one of utils/search_database.py and the one of the
    property-search page.  The insertion itself is outside the embedding. *)

(** [t.isoformat()] *)
Definition isoformat (t : datetime) : string :=
  zfill 4 (year t) ++ "-" ++ zfill 2 (month t) ++ "-" ++ zfill 2 (day t) ++ "T"
  ++ zfill 2 (hour t) ++ ":" ++ zfill 2 (minute t) ++ ":" ++ zfill 2 (second t)
  ++ (if (microsecond t =? 0)%N then "" else "." ++ zfill 6 (microsecond t)).

(** The [property_data] of the row utils/search_database.py writes. *)
Definition saved_property_data (address search_results search_params : PyVal)
    (now : datetime) : PyDictItems :=
  [("address", address);
   ("results", search_results);
   ("search_params", py_or search_params (PyDict []));
   ("search_timestamp", PyStr (isoformat now))].

(** The [search_data] of [save_property_search] in utils/search_database.py. *)
Definition save_property_search_data (user_id address search_results search_params : PyVal)
    (now : datetime) : PyDictItems :=
  [("user_id", PyStr (py_str user_id));
   ("property_data",
    PyDict (saved_property_data address search_results search_params now))].

(** The row [save_property_search] of the property-search page inserts. *)
Definition page_search_row (user_id property_data : PyVal) (utcnow : datetime)
    : PyDictItems :=
  [("user_id", user_id);
   ("property_data", property_data);
   ("search_date", PyStr (isoformat utcnow))].

(** ** [process_property_data] (property-search page) *)

Section ProcessPropertyData.
(** [json.loads] on the text of an upstream response. *)
Variable json_loads_text : string -> result PyVal.

(** The [properties] the function selects from the decoded response. *)
Definition select_properties (property_data : PyVal) : result PyVal :=
  match property_data with
  | PyList _ => Ok property_data
  | PyDict d =>
      if dict_has d "properties" then py_getitem property_data "properties"
      else if dict_has d "data" then py_getitem property_data "data"
      else if existsb (dict_has d) ["formattedAddress"; "propertyType"; "bedrooms"; "id"]
      then Ok (PyList [property_data])
      else Ok (PyList [])
  | _ => Ok (PyList [])
  end.

(** [properties[0]], [None] when [properties] is falsy. *)
Definition first_property (property_data : PyVal) : result PyVal :=
  properties <- select_properties property_data ;;
  if negb (truthy properties) then Ok PyNone else py_getitem_0 properties.

(** The body of the [try] block; returning [None] is returning [PyNone]. *)
Definition process_property_data_body (raw_data : PyVal) : result PyVal :=
  match raw_data with
  | PyStr s => property_data <- json_loads_text s ;; first_property property_data
  | PyDict _ | PyList _ => first_property raw_data
  | _ => Ok PyNone
  end.

Definition process_property_data (raw_data : PyVal) : PyVal :=
  match process_property_data_body raw_data with
  | Ok prop => prop
  | Raise _ => PyNone
  end.
End ProcessPropertyData.

(** ** [get_search_statistics] (property-search page)

    The searches are the rows [get_user_property_searches] returned.  The
    test [datetime.fromisoformat(date) >= datetime.utcnow() - timedelta(days=30)]
    is a parameter; it reads the clock, so it also takes the position of the
    search it is made for. *)

(** [hash(v)] is defined. *)
Definition hashable (v : PyVal) : bool :=
  match v with
  | PyList _ | PyDict _ => false
  | _ => true
  end.

(** [a == b] on hashable values, the equality of dictionary keys: [True]
    and [1] are the same key. *)
Definition key_eqb (a b : PyVal) : bool :=
  match a, b with
  | PyNone, PyNone => true
  | PyStr s, PyStr t => s =? t
  | PyBool x, PyBool y => Bool.eqb x y
  | PyInt n, PyInt m => (n =? m)%Z
  | PyBool x, PyInt n => ((if x then 1 else 0) =? n)%Z
  | PyInt n, PyBool x => (n =? (if x then 1 else 0))%Z
  | _, _ => false
  end.

(** A dictionary from hashable keys to counts, in insertion order. *)
Definition Counts : Type := list (PyVal * Z).

(** [counts[k] = counts.get(k, 0) + 1]: a key already present keeps its
    place and its first spelling. *)
Fixpoint count_key (counts : Counts) (k : PyVal) : Counts :=
  match counts with
  | [] => [(k, 1%Z)]
  | (k', n) :: rest =>
      if key_eqb k' k then (k', (n + 1)%Z) :: rest else (k', n) :: count_key rest k
  end.

(** The body of the loop over the searches. *)
Definition count_property_type (counts : Counts) (s : PyVal) : result Counts :=
  property_data <- py_getitem s "property_data" ;;
  prop_type <- py_get property_data "propertyType" PyNone ;;
  if truthy prop_type then
    if hashable prop_type then Ok (count_key counts prop_type)
    else Raise (TypeError ("unhashable type: '" ++ type_name prop_type ++ "'"))
  else Ok counts.

Fixpoint count_property_types (counts : Counts) (searches : list PyVal)
    : result Counts :=
  match searches with
  | [] => Ok counts
  | s :: rest =>
      counts' <- count_property_type counts s ;;
      count_property_types counts' rest
  end.

(** [sorted(items, key=lambda x: x[1], reverse=True)]: a stable sort, so
    items of equal count keep their order. *)
Fixpoint insert_by_count (x : PyVal * Z) (sorted : Counts) : Counts :=
  match sorted with
  | [] => [x]
  | y :: rest =>
      if (snd x <? snd y)%Z then y :: insert_by_count x rest else x :: y :: rest
  end.

Definition sorted_by_count (items : Counts) : Counts :=
  fold_right insert_by_count [] items.

Definition property_type_entry (item : PyVal * Z) : PyVal :=
  PyDict [("property_type", fst item); ("count", PyInt (snd item))].

Section SearchStatistics.
Variable recent : Z -> PyVal -> result bool.

(** [sum(1 for s in searches if recent(s['search_date']))] *)
Definition count_recent (searches : list PyVal) : result Z :=
  flags <- mapM (fun entry => date <- py_getitem (snd entry) "search_date" ;;
                              recent (fst entry) date)
             (enumerate 0 searches) ;;
  Ok (Z.of_nat (List.length (filter (fun flag : bool => flag) flags))).

(** The body of the [try] block. *)
Definition search_statistics_body (searches : list PyVal) : result PyDictItems :=
  let total_searches := Z.of_nat (List.length searches) in
  recent_searches <- count_recent searches ;;
  type_counts <- count_property_types [] searches ;;
  let top_property_types := firstn 5 (sorted_by_count type_counts) in
  Ok [("total_searches", PyInt total_searches);
      ("recent_searches", PyInt recent_searches);
      ("top_property_types", PyList (map property_type_entry top_property_types))].

(** [get_search_statistics]: the empty dictionary when anything raises. *)
Definition get_search_statistics (searches : list PyVal) : PyDictItems :=
  match search_statistics_body searches with
  | Ok statistics => statistics
  | Raise _ => []
  end.
End SearchStatistics.

(** * Vocabulary of the statements

    Inputs, predicates and reference renderings the theorems are stated
    with; none of them is part of the module. *)

(** ** Sample inputs *)

Definition sample_now : datetime := mkdatetime 2024 3 7 9 5 59 120000.

Definition sample_later : datetime := mkdatetime 2024 3 7 9 6 0 500000.

Definition sample_record : PyVal :=
  PyDict [("formattedAddress", PyStr "1 Main St"); ("bedrooms", PyInt 3);
          ("owner", PyDict [("names", PyList [PyStr "A"; PyStr "B"])]);
          ("tags", PyList []); ("neg", PyInt (-120)); ("t", PyBool true); ("n", PyNone)].

Definition main_street : PyVal :=
  PyDict [("formattedAddress", PyStr "1 Main St"); ("bedrooms", PyInt 3)].

Definition taxed_record : PyVal :=
  PyDict [("formattedAddress", PyStr "2 Main St");
          ("taxAssessments",
           PyDict [("2020", PyDict [("value", PyInt 5)]); ("2021", PyDict [])])].

(** ** Reading JSON text back *)

(** What may follow a number in a JSON text produced by the encoder. *)
Definition ends_number (rest : string) : bool :=
  match rest with
  | EmptyString => true
  | String c _ =>
      negb (is_digit c) && negb (Ascii.eqb c "." || Ascii.eqb c "e" || Ascii.eqb c "E")
  end.

(** The number of [scan_once] steps a value takes. *)
Fixpoint size (o : PyVal) : nat :=
  match o with
  | PyList l => S (fold_right (fun x acc => S (size x + acc)) 0 l)
  | PyDict d => S (fold_right (fun kv acc => S (size (snd kv) + acc)) 0 d)
  | _ => 1
  end.

(** A text that begins with the first character of a value. *)
Definition at_value (s : string) : Prop :=
  exists c r, s = String c r /\ is_ws c = false
              /\ Ascii.eqb c "]" = false /\ Ascii.eqb c "}" = false.

(** [v] is read back from its encoding at any nesting level, in front of any
    text that can follow a value. *)
Definition scans (ind : nat) (v : PyVal) : Prop :=
  forall lvl fuel rest,
    wf_val v -> size v <= fuel -> ends_number rest = true ->
    scan_once fuel (iterencode ind lvl v ++ rest) = Some (v, rest).

(** The number of steps the elements of a list take. *)
Definition elems_size (l : list PyVal) : nat :=
  fold_right (fun x acc => S (size x + acc)) 0 l.

(** The number of steps the members of a mapping take. *)
Definition members_size (d : PyDictItems) : nat :=
  fold_right (fun kv acc => S (size (snd kv) + acc)) 0 d.

(** The text between two items of a container at level [lvl]. *)
Definition item_sep (ind lvl : nat) : string := "," ++ newline_indent ind (S lvl).

(** The text of one member of a mapping at level [lvl]. *)
Definition encode_member (ind lvl : nat) (kv : string * PyVal) : string :=
  encode_basestring_ascii (fst kv) ++ ": " ++ iterencode ind (S lvl) (snd kv).

(** ** Pretty-printing, in the specification's words

    A pretty-printed value is a first piece of text, which continues the
    line it starts on, followed by whole lines; a line is its nesting depth
    and its text.  Every item of a sequence or mapping gets a line of its
    own, one level deeper than the bracket that opens it, with a comma after
    every item but the last; the closing bracket gets a line at the level of
    the opening one. *)

Definition Line : Type := (nat * string)%type.

Definition Block : Type := (string * list Line)%type.

Fixpoint suffix_last (lines : list Line) (suffix : string) : list Line :=
  match lines with
  | [] => []
  | [l] => [(fst l, snd l ++ suffix)]
  | l :: rest => l :: suffix_last rest suffix
  end.

(** The block with [suffix] at the end of its last line. *)
Definition with_suffix (b : Block) (suffix : string) : Block :=
  match snd b with
  | [] => (fst b ++ suffix, [])
  | _ => (fst b, suffix_last (snd b) suffix)
  end.

(** The block with [prefix] at the start of its first line. *)
Definition with_prefix (prefix : string) (b : Block) : Block :=
  (prefix ++ fst b, snd b).

(** The lines of the items of a container at [depth]. *)
Fixpoint item_lines (depth : nat) (items : list Block) : list Line :=
  match items with
  | [] => []
  | [b] => (depth, fst b) :: snd b
  | b :: rest =>
      (((depth, fst (with_suffix b ",")) :: snd (with_suffix b ","))
       ++ item_lines depth rest)%list
  end.

Fixpoint pretty (depth : nat) (o : PyVal) : Block :=
  match o with
  | PyStr s => (encode_basestring_ascii s, [])
  | PyNone => ("null", [])
  | PyBool true => ("true", [])
  | PyBool false => ("false", [])
  | PyInt n => (int_str n, [])
  | PyList [] => ("[]", [])
  | PyList l =>
      ("[", (item_lines (S depth) (map (pretty (S depth)) l) ++ [(depth, "]")])%list)
  | PyDict [] => ("{}", [])
  | PyDict d =>
      ("{", (item_lines (S depth)
               (map (fun kv => with_prefix (encode_basestring_ascii (fst kv) ++ ": ")
                                           (pretty (S depth) (snd kv))) d)
             ++ [(depth, "}")])%list)
  end.

(** The text of a block when every line after the first is put on a new
    line behind [indent] spaces per level of depth. *)
Fixpoint render_lines (indent : nat) (lines : list Line) : string :=
  match lines with
  | [] => ""
  | l :: rest => newline_indent indent (fst l) ++ snd l ++ render_lines indent rest
  end.

Definition render (indent : nat) (b : Block) : string :=
  fst b ++ render_lines indent (snd b).

Definition newline : ascii := "010"%char.

(** A text that fits on one line and carries no indentation of its own: no
    newline in it, and a first character that is not a space. *)
Definition text_ok (t : string) : bool :=
  negb (str_contains_char newline t)
  && match t with
     | String c _ => negb (Ascii.eqb c " ")
     | EmptyString => false
     end.

Definition block_ok (b : Block) : Prop :=
  text_ok (fst b) = true /\ Forall (fun l => text_ok (snd l) = true) (snd b).

(** ** Summaries *)

Definition summary_of (export_date : string) (total : Z) (address date : PyVal)
    : Summary :=
  [("Export Date", PyStr export_date); ("Total Properties", PyInt total);
   ("Search Address", address); ("Search Date", date)].

Definition error_summary (export_date : string) (e : exn) : Summary :=
  [("Export Date", PyStr export_date);
   ("Error", PyStr ("Could not generate summary: " ++ exn_str e))].

Definition default_to (default : PyVal) (o : option PyVal) : PyVal :=
  match o with Some v => v | None => default end.

(** [len(v)] when [v] is a list, [0] otherwise: the count the summary
    reports. *)
Definition results_count (o : option PyVal) : Z :=
  match o with
  | Some (PyList l) => Z.of_nat (List.length l)
  | _ => 0%Z
  end.

Definition iso_format : string := "%Y-%m-%d %H:%M:%S".

(** ** Tabular export *)

Definition csv_base_columns : list string :=
  ["Address"; "City"; "State"; "ZIP Code"; "Property Type"; "Bedrooms";
   "Bathrooms"; "Square Footage"; "Lot Size"; "Year Built"; "Last Sale Price";
   "Last Sale Date"; "Owner Occupied"; "Assessor ID"; "County"; "Zoning";
   "Owner Names"; "Owner Type"].

Definition csv_feature_columns : list string :=
  ["Architecture Type"; "Exterior Type"; "Heating"; "Cooling"; "Garage";
   "Garage Spaces"].

(** The record carries a non-empty [features] value. *)
Definition has_features (r : PyVal) : bool :=
  match r with
  | PyDict d => truthy (default_to (PyBool false) (dict_get d "features"))
  | _ => false
  end.

Definition csv_keys (with_features : bool) : list string :=
  (csv_base_columns ++ (if with_features then csv_feature_columns else []))%list.

Definition normalizes (r : PyVal) : Prop := exists row, csv_row r = Ok row.

Definition is_str (v : PyVal) : bool :=
  match v with PyStr _ => true | _ => false end.

(** A value [", ".join] accepts: a string, a list of strings, or a mapping. *)
Definition joinable (v : PyVal) : bool :=
  match v with
  | PyStr _ => true
  | PyList l => forallb is_str l
  | PyDict _ => true
  | _ => false
  end.

(** An [owner] value the tabular export can read: absent, falsy, or a
    mapping whose [names] are absent, falsy or joinable. *)
Definition owner_ok (o : option PyVal) : bool :=
  match o with
  | None => true
  | Some v =>
      negb (truthy v)
      || match v with
         | PyDict d =>
             match dict_get d "names" with
             | None => true
             | Some names => negb (truthy names) || joinable names
             end
         | _ => false
         end
  end.

(** A [features] value the tabular export can read: absent, falsy, or a
    mapping. *)
Definition features_ok (o : option PyVal) : bool :=
  match o with
  | None => true
  | Some v => negb (truthy v) || match v with PyDict _ => true | _ => false end
  end.

(** The records the tabular export normalizes. *)
Definition csv_record_ok (r : PyVal) : bool :=
  match r with
  | PyDict d => owner_ok (dict_get d "owner") && features_ok (dict_get d "features")
  | _ => false
  end.

(** The record keys [export_to_csv] reads. *)
Definition csv_source_keys : list string :=
  ["formattedAddress"; "city"; "state"; "zipCode"; "propertyType"; "bedrooms";
   "bathrooms"; "squareFootage"; "lotSize"; "yearBuilt"; "lastSalePrice";
   "lastSaleDate"; "ownerOccupied"; "assessorID"; "county"; "zoning"; "owner";
   "features"].

(** A record missing every optional field. *)
Definition missing_every_field (d : PyDictItems) : Prop :=
  forall k, In k csv_source_keys -> dict_get d k = None.

(** The cells of such a record under the eighteen base columns. *)
Definition csv_default_cells : list (option PyVal) :=
  map Some [NA; NA; NA; NA; NA; NA; NA; NA; NA; NA; NA; NA; PyStr "No";
            NA; NA; NA; NA; NA].

Definition csv_default_row : Row := combine csv_base_columns
  [NA; NA; NA; NA; NA; NA; NA; NA; NA; NA; NA; NA; PyStr "No"; NA; NA; NA; NA; NA].

(** ** Workbook export *)

Definition excel_columns : list string :=
  ["Address"; "City"; "State"; "ZIP Code"; "Property Type"; "Bedrooms";
   "Bathrooms"; "Square Footage"; "Lot Size"; "Year Built"; "Last Sale Price";
   "Last Sale Date"; "Owner Occupied"; "County"; "Zoning"].

Definition tax_assessment_columns : list string :=
  ["Property Index"; "Address"; "Year"; "Total Value"; "Land Value"; "Improvements"].

Definition property_tax_columns : list string :=
  ["Property Index"; "Address"; "Year"; "Total Tax"].

Definition is_dict (v : PyVal) : bool :=
  match v with PyDict _ => true | _ => false end.

(** The items of a mapping, none for any other value. *)
Definition items_of (v : PyVal) : PyDictItems :=
  match v with PyDict d => d | _ => [] end.

(** [r.get(k, default)] for a record that is a mapping. *)
Definition field (r : PyVal) (k : string) (default : PyVal) : PyVal :=
  default_to default (dict_get (items_of r) k).

(** A per-year value the workbook export can read: absent, falsy, or a
    mapping from year to a mapping. *)
Definition year_data_ok (o : option PyVal) : bool :=
  match o with
  | None => true
  | Some v =>
      negb (truthy v)
      || (is_dict v && forallb (fun kv => is_dict (snd kv)) (items_of v))
  end.

(** A record the workbook export can read. *)
Definition excel_record_ok (r : PyVal) : bool :=
  is_dict r
  && year_data_ok (dict_get (items_of r) "taxAssessments")
  && year_data_ok (dict_get (items_of r) "propertyTaxes").

Definition excel_metadata_ok (m : PyVal) : bool := negb (truthy m) || is_dict m.

(** The (year, data) pairs of a record's non-empty per-year mapping. *)
Definition year_items (key : string) (r : PyVal) : PyDictItems :=
  match dict_get (items_of r) key with
  | Some v => if truthy v then items_of v else []
  | None => []
  end.

(** The (record, year) pairs of the input, each with the 1-based position of
    its record. *)
Definition year_pairs (key : string) (rs : list PyVal)
    : list (Z * PyVal * (string * PyVal)) :=
  flat_map (fun entry => map (fun item => (fst entry, snd entry, item))
                             (year_items key (snd entry)))
           (enumerate 1 rs).

(** The record has a non-empty mapping under [key]. *)
Definition has_year_mapping (key : string) (r : PyVal) : bool :=
  match dict_get (items_of r) key with
  | Some (PyDict (_ :: _)) => true
  | _ => false
  end.

Definition excel_cells (r : PyVal) : list PyVal :=
  [field r "formattedAddress" NA; field r "city" NA; field r "state" NA;
   field r "zipCode" NA; field r "propertyType" NA; field r "bedrooms" NA;
   field r "bathrooms" NA; field r "squareFootage" NA; field r "lotSize" NA;
   field r "yearBuilt" NA; field r "lastSalePrice" NA; field r "lastSaleDate" NA;
   yes_no (field r "ownerOccupied" PyNone); field r "county" NA; field r "zoning" NA].

Definition tax_assessment_cells (p : Z * PyVal * (string * PyVal)) : list PyVal :=
  let '(position, r, (year, data)) := p in
  [PyInt position; field r "formattedAddress" NA; PyStr year;
   field data "value" NA; field data "land" NA; field data "improvements" NA].

Definition property_tax_cells (p : Z * PyVal * (string * PyVal)) : list PyVal :=
  let '(position, r, (year, data)) := p in
  [PyInt position; field r "formattedAddress" NA; PyStr year;
   field data "total" NA].

Definition frame (labels : list string) (cellss : list (list PyVal)) : DataFrame :=
  {| columns := labels; data := map (map (fun v => held (Some v))) cellss |}.

Definition sheet_if (name : string) (labels : list string)
    (cellss : list (list PyVal)) : Workbook :=
  if is_empty cellss then [] else [(name, frame labels cellss)].

Definition excel_workbook (rs : list PyVal) (search_metadata : PyVal) : Workbook :=
  ([("Properties", frame excel_columns (map excel_cells rs))]
   ++ sheet_if "Tax Assessments" tax_assessment_columns
        (map tax_assessment_cells (year_pairs "taxAssessments" rs))
   ++ sheet_if "Property Taxes" property_tax_columns
        (map property_tax_cells (year_pairs "propertyTaxes" rs))
   ++ (if truthy search_metadata
       then [("Search Info",
              DataFrame_of (map metadata_row (items_of search_metadata)))]
       else []))%list.

(** ** Filenames and the time line *)

(** [datetime.toordinal]: days since 0001-01-01, that day being 1. *)
Definition is_leap (y : N) : bool :=
  ((y mod 4 =? 0) && (negb (y mod 100 =? 0) || (y mod 400 =? 0)))%N.

Definition days_before_year (y : N) : N :=
  let p := (y - 1)%N in (p * 365 + p / 4 - p / 100 + p / 400)%N.

Definition days_before_month (y m : N) : N :=
  (nth (N.to_nat m) [0; 0; 31; 59; 90; 120; 151; 181; 212; 243; 273; 304; 334] 0
   + (if (2 <? m) && is_leap y then 1 else 0))%N.

Definition toordinal (t : datetime) : N :=
  (days_before_year (year t) + days_before_month (year t) (month t) + day t)%N.

(** The position of [t] on the time line, in microseconds: the difference of
    two of them is what [t1 - t2] measures. *)
Definition timestamp_micros (t : datetime) : Z :=
  ((((Z.of_N (toordinal t) * 24 + Z.of_N (hour t)) * 60 + Z.of_N (minute t)) * 60
    + Z.of_N (second t)) * 1000000 + Z.of_N (microsecond t))%Z.

(** The fields [strftime('%Y%m%d_%H%M%S')] prints. *)
Definition to_the_second (t : datetime) : N * N * N * N * N * N :=
  (year t, month t, day t, hour t, minute t, second t).

Definition compact_format : string := "%Y%m%d_%H%M%S".

(** [search_id or 'export'], formatted into the name. *)
Definition search_id_text (search_id : PyVal) : string :=
  if truthy search_id then py_str search_id else "export".

(** [{stem}_{id}_{yyyyMMdd_HHmmss}{ext}] *)
Definition filename_pattern (stem id : string) (t : datetime) (ext : string) : string :=
  stem ++ "_" ++ id ++ "_"
  ++ zfill 4 (year t) ++ zfill 2 (month t) ++ zfill 2 (day t) ++ "_"
  ++ zfill 2 (hour t) ++ zfill 2 (minute t) ++ zfill 2 (second t) ++ ext.

(** ** Report export *)

(** [del d[k]]: the record without the field. *)
Fixpoint dict_del (d : PyDictItems) (k : string) : PyDictItems :=
  match d with
  | [] => []
  | (k', v) :: d' => if k' =? k then dict_del d' k else (k', v) :: dict_del d' k
  end.

(** The fields the report tests for truth, with the row each one fills and
    the text shown when the field is absent. *)
Definition pdf_tested_fields : list (string * (nat * list PyVal)) :=
  [("squareFootage", (4, [PyStr "Square Footage"; PyStr "N/A"]));
   ("lastSalePrice", (6, [PyStr "Last Sale Price"; PyStr "N/A"]));
   ("ownerOccupied", (7, [PyStr "Owner Occupied"; PyStr "No"]))].

(** ** Further vocabulary: shapes the exports accept *)

(** A value [format(v, ",")] accepts. *)
Definition formats_with_commas (v : PyVal) : bool :=
  match v with
  | PyInt _ | PyBool _ => true
  | _ => false
  end.

(** A [squareFootage] or [lastSalePrice] the report can print: absent,
    falsy, or a number. *)
Definition commas_ok (o : option PyVal) : bool :=
  match o with
  | None => true
  | Some v => negb (truthy v) || formats_with_commas v
  end.

(** The records the report export can print. *)
Definition pdf_record_ok (r : PyVal) : bool :=
  match r with
  | PyDict d => commas_ok (dict_get d "squareFootage")
                && commas_ok (dict_get d "lastSalePrice")
  | _ => false
  end.

(** ** Further vocabulary: the characters of a text *)

Fixpoint all_chars (p : ascii -> bool) (s : string) : bool :=
  match s with
  | EmptyString => true
  | String c s' => p c && all_chars p s'
  end.

(** A newline or a printable ASCII character (space to tilde). *)
Definition plain_ascii (c : ascii) : bool :=
  Ascii.eqb c newline || ((32 <=? N_of_ascii c) && (N_of_ascii c <=? 126))%N.

(** ** Further vocabulary: sample inputs *)

Definition garage_record : PyVal :=
  PyDict [("features", PyDict [("garage", PyBool true)])].

Definition owner_items : PyDictItems :=
  [("names", PyList [PyStr "Ann Lee"; PyStr "Bo Lee"]); ("type", PyStr "Individual")].

Definition owned_record : PyDictItems := [("owner", PyDict owner_items)].

Definition sample_metadata : PyVal :=
  PyDict [("export_type", PyStr "bulk_download"); ("total_searches", PyInt 3)].

Definition saved_search : PyDictItems :=
  [("id", PyStr "s1");
   ("property_data",
    PyDict [("address", PyStr "1 Main St");
            ("results", PyList [main_street; taxed_record])])].

Definition priced_record : PyDictItems :=
  [("squareFootage", PyInt 1850); ("lastSalePrice", PyInt 1234567)].

Definition unit_record : PyVal :=
  PyDict [("id", PyStr "p1"); ("formattedAddress", PyStr "1 Main St")].

(** ** Further vocabulary: the workbook *)

Definition metadata_cells (item : string * PyVal) : list PyVal :=
  [PyStr (fst item); PyStr (py_str (snd item))].

Definition sheet_order : list string :=
  ["Properties"; "Tax Assessments"; "Property Taxes"; "Search Info"].

(** ** Further vocabulary: the report *)

(** The large break [Spacer(1, 50)] that separates pairs of properties. *)
Definition is_page_gap (f : Flowable) : bool :=
  match f with
  | Spacer w h => ((w =? 1) && (h =? 50))%Z
  | _ => false
  end.

Definition is_table (f : Flowable) : bool :=
  match f with Table _ => true | _ => false end.

(** The heading of a property section: [Property i]. *)
Definition is_section_heading (f : Flowable) : bool :=
  match f with
  | Paragraph text CustomHeading => String.prefix "Property " text
  | _ => false
  end.

Definition section_heading (i : Z) : Flowable :=
  Paragraph ("Property " ++ int_str i) CustomHeading.

Definition report_title : Flowable := Paragraph "Property Search Report" CustomTitle.

(** The search-information block of the report. *)
Definition pdf_info_block (str_title : string -> string) (search_metadata : PyVal)
    : list Flowable :=
  if truthy search_metadata then
    Paragraph "Search Information" CustomHeading
    :: (if is_empty (pdf_metadata_rows str_title (items_of search_metadata)) then []
        else [Table (pdf_metadata_rows str_title (items_of search_metadata));
              Spacer 1 20])
  else [].

(** [s.replace(c, "")] *)
Fixpoint remove_char (c : ascii) (s : string) : string :=
  match s with
  | EmptyString => ""
  | String c' s' =>
      if Ascii.eqb c' c then remove_char c s' else String c' (remove_char c s')
  end.

(** [s.split(sep)] for a separator of one character. *)
Fixpoint split_on (sep : ascii) (s : string) : list string :=
  match s with
  | EmptyString => [""]
  | String c s' =>
      if Ascii.eqb c sep then "" :: split_on sep s'
      else match split_on sep s' with
           | g :: gs => String c g :: gs
           | [] => [String c ""]
           end
  end.

(** ** Further vocabulary: filenames *)

(** The last character of a text. *)
Fixpoint str_last (s : string) : option ascii :=
  match s with
  | EmptyString => None
  | String c EmptyString => Some c
  | String _ s' => str_last s'
  end.

(** The date and time of day of [t1] precede those of [t2], to the second. *)
Definition earlier_second (t1 t2 : datetime) : Prop :=
  (year t1 < year t2
   \/ year t1 = year t2
      /\ (month t1 < month t2
          \/ month t1 = month t2
             /\ (day t1 < day t2
                 \/ day t1 = day t2
                    /\ (hour t1 < hour t2
                        \/ hour t1 = hour t2
                           /\ (minute t1 < minute t2
                               \/ minute t1 = minute t2
                                  /\ second t1 < second t2)))))%N.

(** ** Further vocabulary: the fields the exports read *)

(** The record keys [export_to_excel] reads. *)
Definition excel_source_keys : list string :=
  ["formattedAddress"; "city"; "state"; "zipCode"; "propertyType"; "bedrooms";
   "bathrooms"; "squareFootage"; "lotSize"; "yearBuilt"; "lastSalePrice";
   "lastSaleDate"; "ownerOccupied"; "county"; "zoning"; "taxAssessments";
   "propertyTaxes"].

(** The record keys [export_to_pdf_report] reads. *)
Definition pdf_source_keys : list string :=
  ["formattedAddress"; "propertyType"; "bedrooms"; "bathrooms"; "squareFootage";
   "yearBuilt"; "lastSalePrice"; "ownerOccupied"].

(** Two records that agree on the given keys; a record that is not a
    mapping agrees with itself only. *)
Definition same_fields (keys : list string) (r r' : PyVal) : Prop :=
  match r, r' with
  | PyDict d, PyDict d' => forall k, In k keys -> dict_get d k = dict_get d' k
  | _, _ => r = r'
  end.

(** ** Further vocabulary: searches as stored *)

(** The selected row holds, under [property_data], the entries that
    [save_property_search] wrote. *)
Definition stored_by_save (pd : PyDictItems)
    (address search_results search_params : PyVal) (now : datetime) : Prop :=
  forall k,
    dict_get pd k
    = dict_get (saved_property_data address search_results search_params now) k.

(** A mapping the function takes for a single property. *)
Definition looks_like_property (d : PyDictItems) : bool :=
  existsb (dict_has d) ["formattedAddress"; "propertyType"; "bedrooms"; "id"].

(** ** Further vocabulary: search statistics *)

(** The sum of the counts. *)
Definition total_count (counts : Counts) : Z :=
  fold_right (fun item acc => (snd item + acc)%Z) 0%Z counts.

(** No two entries have equal keys. *)
Fixpoint distinct_keys (counts : Counts) : Prop :=
  match counts with
  | [] => True
  | item :: rest =>
      Forall (fun item' => key_eqb (fst item) (fst item') = false) rest
      /\ distinct_keys rest
  end.

(** A property type that was counted: truthy, and seen at least once. *)
Definition counted (item : PyVal * Z) : Prop :=
  truthy (fst item) = true /\ (1 <= snd item)%Z.

Definition typed_search (property_type : string) : PyVal :=
  PyDict [("search_date", PyStr "2024-03-07T09:05:59");
          ("property_data", PyDict [("propertyType", PyStr property_type)])].

(** ** Further vocabulary: the cells of a frame *)

(** [2 ** 63], the bound of the 64-bit integers. *)
Definition int64_bound : Z := 9223372036854775808.

(** Every integer in the value fits in 64 bits. *)
Fixpoint ints_fit (v : PyVal) : bool :=
  match v with
  | PyInt n => (- int64_bound <=? n)%Z && (n <? int64_bound)%Z
  | PyList l => forallb ints_fit l
  | PyDict d => forallb (fun kv => ints_fit (snd kv)) d
  | _ => true
  end.

(** The values the rows give the column [c]. *)
Definition column_of (rows : list Row) (c : string) : list (option PyVal) :=
  map (fun row => held (dict_get row c)) rows.

(** The cells of [row] in the frame made of [rows], under the columns
    [cols]. *)
Definition row_cells (rows : list Row) (cols : list string) (row : Row)
    : list Cell :=
  map (fun c => cell_in (column_of rows c) (held (dict_get row c))) cols.

(** Two records: one with a city that is [None], one without a number of
    bedrooms. *)
Definition sparse_records : list PyVal :=
  [PyDict [("city", PyNone); ("bedrooms", PyInt 3)];
   PyDict [("bedrooms", PyNone)]].

(** The rows of the [Properties] sheet. *)
Definition excel_rows (rs : list PyVal) : list Row :=
  map (fun r => combine excel_columns (excel_cells r)) rs.

(** The rows of the [Tax Assessments] sheet. *)
Definition tax_assessment_rows (rs : list PyVal) : list Row :=
  map (fun p => combine tax_assessment_columns (tax_assessment_cells p))
    (year_pairs "taxAssessments" rs).

(** The rows of the [Property Taxes] sheet. *)
Definition property_tax_rows (rs : list PyVal) : list Row :=
  map (fun p => combine property_tax_columns (property_tax_cells p))
    (year_pairs "propertyTaxes" rs).

(** ** Further vocabulary: summaries *)

(** The keys [get_export_summary] looks up in [property_data]. *)
Definition summary_keys : list string := ["address"; "search_timestamp"; "results"].

(** A [property_data] on which the lookups raise: [None], a boolean or a
    number, in which no key can be looked for; a list with one of the keys
    among its elements, or a string with one of the keys as a substring,
    which cannot be indexed by the key found. *)
Definition unreadable (prop_data : PyVal) : bool :=
  match prop_data with
  | PyDict _ => false
  | PyList l =>
      existsb (fun k => existsb (fun x => match x with
                                          | PyStr s => s =? k
                                          | _ => false
                                          end) l) summary_keys
  | PyStr s => existsb (fun k => is_substring k s) summary_keys
  | _ => true
  end.

(** The inputs on which deriving the summary raises. *)
Definition summary_fails (search_data : PyVal) : bool :=
  match search_data with
  | PyDict d =>
      match dict_get d "property_data" with
      | Some prop_data => unreadable prop_data
      | None => false
      end
  | _ => false
  end.

(** * Proofs *)

(** ** Examples of the library models *)

Example py_str_examples :
  py_str (PyInt (-1500)) = "-1500" /\
  py_str (PyList [PyStr "a'b"; PyInt 0; PyNone])
  = "[" ++ String dquote ("a'b" ++ String dquote ", 0, None]") /\
  py_str (PyList [PyStr "tab	"; PyStr "N/A"]) = "['tab\t', 'N/A']" /\
  py_str (PyDict [("k", PyBool true)]) = "{'k': True}".
Proof. repeat split; reflexivity. Qed.

Example json_dumps_sample :
  json_dumps 2 (PyList [PyInt 1; PyDict [("a", PyList [PyNone])]])
  = "[
  1,
  {
    " ++ String dquote ("a" ++ String dquote ": [
      null
    ]
  }
]").
Proof. reflexivity. Qed.

Example json_loads_sample : json_loads (json_dumps 2 sample_record) = Some sample_record.
Proof. vm_compute. reflexivity. Qed.

(** ** Facts about strings *)

Lemma append_assoc (a b c : string) : (a ++ b) ++ c = a ++ (b ++ c).
Proof. induction a as [|x a IH]; simpl; [reflexivity | now rewrite IH]. Qed.

Lemma append_nil_r (a : string) : a ++ "" = a.
Proof. induction a as [|x a IH]; simpl; [reflexivity | now rewrite IH]. Qed.

Lemma length_append (a b : string) :
  String.length (a ++ b) = String.length a + String.length b.
Proof. induction a as [|x a IH]; simpl; [reflexivity | now rewrite IH]. Qed.

Lemma append_inv_head (p a b : string) : p ++ a = p ++ b -> a = b.
Proof.
  induction p as [|x p IH]; simpl; intros H; [exact H|].
  injection H as H. now apply IH.
Qed.

Lemma append_same_length (a b x y : string) :
  String.length a = String.length b -> a ++ x = b ++ y -> a = b /\ x = y.
Proof.
  revert b. induction a as [|c a IH]; intros [|d b] Hlen H; simpl in *; try discriminate.
  - now split.
  - injection H as -> H. injection Hlen as Hlen.
    destruct (IH b Hlen H) as [-> ->]. now split.
Qed.

(** ** Decimal digits *)

Ltac Zify.zify_post_hook ::= Z.to_euclidean_division_equations.

Lemma N_of_digit_char (d : N) : (d < 10)%N -> N_of_ascii (digit_char d) = (48 + d)%N.
Proof. intros H. unfold digit_char. apply N_ascii_embedding. lia. Qed.

Lemma is_digit_digit_char (d : N) : (d < 10)%N -> is_digit (digit_char d) = true.
Proof.
  intros H. unfold is_digit. rewrite (N_of_digit_char d H).
  apply andb_true_intro. split; apply N.leb_le; lia.
Qed.

Lemma read_digits_N_digits (fuel : positive) :
  forall n acc, (n <= Npos fuel)%N ->
  exists p, forall a,
    read_digits a (N_digits fuel n acc) = read_digits (a * p + n) acc.
Proof.
  assert (Hone : forall n acc a, (n < 10)%N ->
            read_digits a (String (digit_char (n mod 10)) acc)
            = read_digits (a * 10 + n) acc).
  { intros n acc a Hn. cbn [read_digits].
    rewrite is_digit_digit_char by lia.
    rewrite N_of_digit_char by lia. f_equal. lia. }
  assert (Hmore : forall f n acc, (10 <= n)%N ->
            (exists p, forall a, read_digits a (N_digits f (n / 10) (String (digit_char (n mod 10)) acc))
                                 = read_digits (a * p + n / 10) (String (digit_char (n mod 10)) acc)) ->
            exists p, forall a, read_digits a (N_digits f (n / 10) (String (digit_char (n mod 10)) acc))
                                 = read_digits (a * p + n) acc).
  { intros f n acc Hn [p Hp]. exists (p * 10)%N. intros a. rewrite Hp. cbn [read_digits].
    rewrite is_digit_digit_char by lia.
    rewrite N_of_digit_char by lia. f_equal. lia. }
  induction fuel as [f IH|f IH|]; intros n acc Hle; cbn [N_digits]; cbv zeta;
    destruct (N.ltb_spec n 10) as [Hlt|Hge].
  - exists 10%N. intros a. now apply Hone.
  - apply Hmore; [exact Hge|]. apply IH. lia.
  - exists 10%N. intros a. now apply Hone.
  - apply Hmore; [exact Hge|]. apply IH. lia.
  - exists 10%N. intros a. now apply Hone.
  - lia.
Qed.

Lemma N_digits_head (fuel : positive) :
  forall n acc, (0 < n <= Npos fuel)%N ->
  exists d r, (0 < d < 10)%N /\ N_digits fuel n acc = String (digit_char d) r.
Proof.
  induction fuel as [f IH|f IH|]; intros n acc Hle; cbn [N_digits]; cbv zeta;
    destruct (N.ltb_spec n 10) as [Hlt|Hge].
  - exists (n mod 10)%N, acc. split; [lia | reflexivity].
  - apply IH. lia.
  - exists (n mod 10)%N, acc. split; [lia | reflexivity].
  - apply IH. lia.
  - exists (n mod 10)%N, acc. split; [lia | reflexivity].
  - lia.
Qed.

Lemma N_digits_append (fuel : positive) :
  forall n acc rest, N_digits fuel n acc ++ rest = N_digits fuel n (acc ++ rest).
Proof.
  induction fuel as [f IH|f IH|]; intros n acc rest; cbn [N_digits]; cbv zeta;
    destruct (n <? 10)%N; try reflexivity; apply IH.
Qed.

Lemma read_digits_stop (n : N) (rest : string) :
  ends_number rest = true -> read_digits n rest = (n, rest).
Proof.
  destruct rest as [|c r]; simpl; [reflexivity|].
  intros H. apply andb_prop in H as [H _].
  now destruct (is_digit c).
Qed.

Lemma digit_char_not_zero (d : N) :
  (0 < d < 10)%N -> Ascii.eqb (digit_char d) "0" = false.
Proof.
  intros H. apply Ascii.eqb_neq. intros E.
  apply (f_equal N_of_ascii) in E. rewrite N_of_digit_char in E by lia.
  change (N_of_ascii "0") with 48%N in E. lia.
Qed.

Lemma scan_digits_N_str (n : N) (rest : string) :
  ends_number rest = true -> scan_digits (N_str n ++ rest) = Some (n, rest).
Proof.
  intros Hrest. unfold N_str. rewrite N_digits_append. cbn [append].
  assert (Hend : forall m : N, match rest with
                           | EmptyString => Some (m, rest)
                           | String c' _ =>
                               if Ascii.eqb c' "." || Ascii.eqb c' "e" || Ascii.eqb c' "E"
                               then None else Some (m, rest)
                           end = Some (m, rest)).
  { intros m. destruct rest as [|c r]; [reflexivity|].
    simpl in Hrest. apply andb_prop in Hrest as [_ H].
    now destruct (Ascii.eqb c "." || Ascii.eqb c "e" || Ascii.eqb c "E"). }
  destruct (N.eq_dec n 0) as [->|Hn].
  - cbn. apply Hend.
  - assert (Hle : (0 < n <= N.pos (N.succ_pos n))%N) by (rewrite N.succ_pos_spec; lia).
    destruct (N_digits_head (N.succ_pos n) n rest Hle) as (d & r & Hd & E).
    destruct (read_digits_N_digits (N.succ_pos n) n rest (proj2 Hle)) as (p & Hp).
    specialize (Hp 0%N). rewrite E in Hp |- *.
    unfold scan_digits. rewrite is_digit_digit_char by lia.
    rewrite digit_char_not_zero by lia.
    rewrite Hp, N.mul_0_l, N.add_0_l, read_digits_stop by assumption.
    apply Hend.
Qed.

Lemma N_str_head (n : N) (rest : string) :
  exists d r, (d < 10)%N /\ N_str n ++ rest = String (digit_char d) r.
Proof.
  unfold N_str. rewrite N_digits_append.
  destruct (N.eq_dec n 0) as [->|Hn].
  - exists 0%N, rest. split; [lia | reflexivity].
  - destruct (N_digits_head (N.succ_pos n) n ("" ++ rest)) as (d & r & Hd & E).
    { rewrite N.succ_pos_spec. lia. }
    exists d, r. split; [lia | exact E].
Qed.

Lemma digit_char_not_minus (d : N) :
  (d < 10)%N -> Ascii.eqb (digit_char d) "-" = false.
Proof.
  intros H. apply Ascii.eqb_neq. intros E.
  apply (f_equal N_of_ascii) in E. rewrite N_of_digit_char in E by lia.
  change (N_of_ascii "-") with 45%N in E. lia.
Qed.

Lemma scan_int_int_str (z : Z) (rest : string) :
  ends_number rest = true -> scan_int (int_str z ++ rest) = Some (z, rest).
Proof.
  intros Hrest. unfold int_str.
  destruct (Z.ltb_spec z 0) as [Hneg|Hpos].
  - cbn [append scan_int]. rewrite Ascii.eqb_refl.
    rewrite scan_digits_N_str by assumption. f_equal. f_equal. lia.
  - destruct (N_str_head (Z.abs_N z) rest) as (d & r & Hd & E).
    pose proof (scan_digits_N_str (Z.abs_N z) rest Hrest) as H.
    rewrite E in H |- *. unfold scan_int.
    rewrite digit_char_not_minus by assumption.
    rewrite H. f_equal. f_equal. lia.
Qed.

(** ** Strings: the decoder undoes the encoder's escapes *)

Lemma scanstring_escape_char (c : ascii) (tail : string) :
  scanstring (json_escape_char c ++ tail) = cons_char c (scanstring tail).
Proof.
  destruct c as [[] [] [] [] [] [] [] []]; reflexivity.
Qed.

Lemma scanstring_escape (s rest : string) :
  scanstring (json_escape s ++ String dquote rest) = Some (s, rest).
Proof.
  induction s as [|c s IH]; cbn [json_escape].
  - reflexivity.
  - rewrite append_assoc, scanstring_escape_char, IH. reflexivity.
Qed.

Lemma scan_encoded_string (s rest : string) :
  encode_basestring_ascii s ++ rest
  = String dquote (json_escape s ++ String dquote rest).
Proof.
  unfold encode_basestring_ascii. cbn [append]. now rewrite append_assoc.
Qed.

(** ** Nested values *)

Lemma wf_val_list (l : list PyVal) : wf_val (PyList l) <-> Forall wf_val l.
Proof.
  induction l as [|x t IH]; cbn.
  - split; auto.
  - split.
    + intros [Hx Ht]. constructor; [exact Hx | now apply IH].
    + intros H. inversion H; subst. split; [assumption | now apply IH].
Qed.

Lemma wf_val_dict (d : PyDictItems) :
  wf_val (PyDict d) <-> NoDup (map fst d) /\ Forall (fun kv => wf_val (snd kv)) d.
Proof.
  cbn. apply and_iff_compat_l.
  induction d as [|kv t IH]; cbn.
  - split; auto.
  - split.
    + intros [Hx Ht]. constructor; [exact Hx | now apply IH].
    + intros H. inversion H; subst. split; [assumption | now apply IH].
Qed.

Lemma dict_set_fresh (d : PyDictItems) (k : string) (v : PyVal) :
  ~ In k (map fst d) -> dict_set d k v = (d ++ [(k, v)])%list.
Proof.
  induction d as [|[k' v'] d IH]; cbn; intros H; [reflexivity|].
  destruct (String.eqb_spec k' k) as [->|_]; [tauto|].
  rewrite IH; [reflexivity | tauto].
Qed.

Lemma dict_of_pairs_nodup (d : PyDictItems) :
  NoDup (map fst d) -> dict_of_pairs d = d.
Proof.
  unfold dict_of_pairs.
  enough (H : forall acc, NoDup (map fst (acc ++ d)%list) ->
            fold_left (fun d0 kv => dict_set d0 (fst kv) (snd kv)) d acc = (acc ++ d)%list)
    by (intros Hd; exact (H [] Hd)).
  induction d as [|[k v] d IH]; intros acc Hnd; cbn.
  - now rewrite app_nil_r.
  - rewrite dict_set_fresh.
    + rewrite IH; rewrite <- app_assoc; [reflexivity | exact Hnd].
    + rewrite map_app in Hnd. cbn in Hnd. apply NoDup_remove_2 in Hnd.
      intros Hin. apply Hnd. apply in_or_app. now left.
Qed.

Lemma at_value_skip_ws (s : string) : at_value s -> skip_ws s = s.
Proof. intros (c & r & -> & Hws & _). cbn. now rewrite Hws. Qed.

Lemma is_digit_at_value (c : ascii) (r : string) :
  is_digit c = true -> at_value (String c r).
Proof.
  intros H. exists c, r. split; [reflexivity|].
  destruct c as [[] [] [] [] [] [] [] []]; try discriminate H; repeat split; reflexivity.
Qed.

Lemma iterencode_at_value (ind lvl : nat) (v : PyVal) (rest : string) :
  at_value (iterencode ind lvl v ++ rest).
Proof.
  assert (Hc : forall (c : ascii) r, is_ws c = false -> Ascii.eqb c "]" = false ->
                 Ascii.eqb c "}" = false -> at_value (String c r)).
  { intros c r H1 H2 H3. now exists c, r. }
  destruct v as [| [|] | z | s | [|x t] | [|kv t]]; cbn [iterencode append];
    try (apply Hc; reflexivity).
  - unfold int_str. destruct (z <? 0)%Z.
    + cbn [append]. apply Hc; reflexivity.
    + destruct (N_str_head (Z.abs_N z) rest) as (d & r & Hd & ->).
      apply is_digit_at_value, is_digit_digit_char, Hd.
Qed.

Lemma skip_ws_spaces (n : nat) (s : string) : skip_ws (spaces n ++ s) = skip_ws s.
Proof. induction n as [|n IH]; cbn; [reflexivity | exact IH]. Qed.

Lemma skip_ws_newline_indent (ind lvl : nat) (s : string) :
  skip_ws (newline_indent ind lvl ++ s) = skip_ws s.
Proof. unfold newline_indent. cbn. apply skip_ws_spaces. Qed.

Lemma ends_number_newline_indent (ind lvl : nat) (s : string) :
  ends_number (newline_indent ind lvl ++ s) = true.
Proof. reflexivity. Qed.

Lemma scan_once_open_list (fuel : nat) (r s : string) :
  skip_ws r = s -> at_value s ->
  scan_once (S fuel) (String "[" r)
  = match scan_elements fuel s with
    | Some (vs, r') => Some (PyList vs, r')
    | None => None
    end.
Proof.
  intros <- (c & r0 & E & _ & H & _). cbn. rewrite E. now rewrite H.
Qed.

Lemma scan_once_open_dict (fuel : nat) (r s : string) :
  skip_ws r = s -> at_value s ->
  scan_once (S fuel) (String "{" r)
  = match scan_members fuel s with
    | Some (pairs, r') => Some (PyDict (dict_of_pairs pairs), r')
    | None => None
    end.
Proof.
  intros <- (c & r0 & E & _ & _ & H). cbn. rewrite E. now rewrite H.
Qed.

Lemma scan_once_number (fuel : nat) (c : ascii) (r : string) :
  is_digit c = true \/ c = "-"%char ->
  scan_once (S fuel) (String c r)
  = match scan_int (String c r) with
    | Some (z, r') => Some (PyInt z, r')
    | None => None
    end.
Proof.
  intros H.
  destruct c as [[] [] [] [] [] [] [] []];
    try reflexivity; destruct H as [H|H]; discriminate H.
Qed.

Lemma join_cons2 (sep p q : string) (ps : list string) :
  join sep (p :: q :: ps) = p ++ sep ++ join sep (q :: ps).
Proof. reflexivity. Qed.

Lemma join_head (sep : string) (p : string) (ps : list string) (rest : string) :
  exists tail, join sep (p :: ps) ++ rest = p ++ tail.
Proof.
  destruct ps as [|q ps].
  - now exists rest.
  - rewrite join_cons2. exists ((sep ++ join sep (q :: ps)) ++ rest).
    now rewrite append_assoc.
Qed.

Lemma scan_elements_last (f : nat) (v : PyVal) (s r rest : string) :
  scan_once f s = Some (v, r) -> skip_ws r = String "]" rest ->
  scan_elements (S f) s = Some ([v], rest).
Proof. intros H1 H2. cbn [scan_elements]. rewrite H1, H2. reflexivity. Qed.

Lemma scan_elements_more (f : nat) (v : PyVal) (s r tail : string) :
  scan_once f s = Some (v, String "," r) -> skip_ws r = tail ->
  scan_elements (S f) s
  = match scan_elements f tail with
    | Some (vs, r'') => Some (v :: vs, r'')
    | None => None
    end.
Proof. intros H1 <-. cbn [scan_elements]. rewrite H1. reflexivity. Qed.

Lemma scan_members_last (f : nat) (k : string) (v : PyVal) (s r rest : string) :
  at_value s ->
  scan_once f s = Some (v, r) -> skip_ws r = String "}" rest ->
  scan_members (S f) (encode_basestring_ascii k ++ String ":" (String " " s))
  = Some ([(k, v)], rest).
Proof.
  intros Hs H1 H2. apply at_value_skip_ws in Hs.
  rewrite scan_encoded_string. cbn [scan_members].
  rewrite Ascii.eqb_refl, scanstring_escape.
  change (skip_ws (String ":" (String " " s))) with (String ":" (String " " s)).
  cbv beta iota. rewrite Ascii.eqb_refl.
  change (skip_ws (String " " s)) with (skip_ws s).
  rewrite Hs, H1, H2. reflexivity.
Qed.

Lemma scan_members_more (f : nat) (k : string) (v : PyVal) (s r tail : string) :
  at_value s ->
  scan_once f s = Some (v, String "," r) -> skip_ws r = tail ->
  scan_members (S f) (encode_basestring_ascii k ++ String ":" (String " " s))
  = match scan_members f tail with
    | Some (kvs, r'') => Some ((k, v) :: kvs, r'')
    | None => None
    end.
Proof.
  intros Hs H1 <-. apply at_value_skip_ws in Hs.
  rewrite scan_encoded_string. cbn [scan_members].
  rewrite Ascii.eqb_refl, scanstring_escape.
  change (skip_ws (String ":" (String " " s))) with (String ":" (String " " s)).
  cbv beta iota. rewrite Ascii.eqb_refl.
  change (skip_ws (String " " s)) with (skip_ws s).
  rewrite Hs, H1. reflexivity.
Qed.

Section RoundTrip.
Variable ind : nat.

Lemma skip_ws_item_sep_tail (lvl : nat) (p : string) (ps : list string) (rest : string) :
  (forall tail, at_value (p ++ tail)) ->
  skip_ws (newline_indent ind (S lvl) ++ join (item_sep ind lvl) (p :: ps) ++ rest)
  = join (item_sep ind lvl) (p :: ps) ++ rest.
Proof.
  intros Hp. rewrite skip_ws_newline_indent.
  apply at_value_skip_ws.
  destruct (join_head (item_sep ind lvl) p ps rest) as (tail & ->). apply Hp.
Qed.

Lemma scan_elements_join (l : list PyVal) :
  Forall (scans ind) l -> l <> [] ->
  forall lvl fuel rest,
    Forall wf_val l -> elems_size l <= fuel ->
    scan_elements fuel
      (join (item_sep ind lvl) (map (iterencode ind (S lvl)) l)
       ++ newline_indent ind lvl ++ String "]" rest)
    = Some (l, rest).
Proof.
  induction l as [|x t IH]; [congruence|].
  intros HP _ lvl fuel rest Hwf Hsz.
  inversion HP as [|? ? Hx Ht]; subst. inversion Hwf as [|? ? Wx Wt]; subst.
  cbn [elems_size fold_right] in Hsz. fold (elems_size t) in Hsz.
  destruct fuel as [|f]; [lia|].
  destruct t as [|y t'].
  - apply scan_elements_last with (r := newline_indent ind lvl ++ String "]" rest).
    + apply Hx; [exact Wx | cbn in Hsz; lia | reflexivity].
    + rewrite skip_ws_newline_indent. reflexivity.
  - cbn [map]. rewrite join_cons2, !append_assoc.
    unfold item_sep at 1. rewrite append_assoc.
    erewrite scan_elements_more.
    + rewrite (IH Ht) with (lvl := lvl); [reflexivity | discriminate | exact Wt | ].
      cbn [elems_size fold_right] in Hsz |- *. lia.
    + apply Hx; [exact Wx | lia | reflexivity].
    + apply skip_ws_item_sep_tail. intros tail. apply iterencode_at_value.
Qed.

Lemma scan_members_join (d : PyDictItems) :
  Forall (fun kv => scans ind (snd kv)) d -> d <> [] ->
  forall lvl fuel rest,
    Forall (fun kv => wf_val (snd kv)) d -> members_size d <= fuel ->
    scan_members fuel
      (join (item_sep ind lvl) (map (encode_member ind lvl) d)
       ++ newline_indent ind lvl ++ String "}" rest)
    = Some (d, rest).
Proof.
  induction d as [|[k x] t IH]; [congruence|].
  intros HP _ lvl fuel rest Hwf Hsz.
  inversion HP as [|? ? Hx Ht]; subst. inversion Hwf as [|? ? Wx Wt]; subst.
  cbn [snd] in Hx, Wx.
  cbn [members_size fold_right snd] in Hsz. fold (members_size t) in Hsz.
  destruct fuel as [|f]; [lia|].
  destruct t as [|y t'].
  - cbn [map join]. unfold encode_member. cbn [fst snd]. rewrite !append_assoc.
    cbn [append].
    apply scan_members_last with (r := newline_indent ind lvl ++ String "}" rest).
    + apply iterencode_at_value.
    + apply Hx; [exact Wx | cbn in Hsz; lia | reflexivity].
    + rewrite skip_ws_newline_indent. reflexivity.
  - cbn [map]. rewrite join_cons2. unfold encode_member at 1. cbn [fst snd].
    rewrite !append_assoc. unfold item_sep at 1. rewrite append_assoc.
    cbn [append].
    erewrite scan_members_more.
    + rewrite (IH Ht) with (lvl := lvl); [reflexivity | discriminate | exact Wt | ].
      cbn [members_size fold_right] in Hsz |- *. lia.
    + apply iterencode_at_value.
    + apply Hx; [exact Wx | lia | reflexivity].
    + apply skip_ws_item_sep_tail. intros tail.
      unfold encode_member. rewrite scan_encoded_string.
      exists dquote. eexists. repeat split; reflexivity.
Qed.
Lemma iterencode_list (lvl : nat) (x : PyVal) (t : list PyVal) :
  iterencode ind lvl (PyList (x :: t))
  = "[" ++ newline_indent ind (S lvl)
        ++ join (item_sep ind lvl) (map (iterencode ind (S lvl)) (x :: t))
        ++ newline_indent ind lvl ++ "]".
Proof. reflexivity. Qed.

Lemma iterencode_dict (lvl : nat) (kv : string * PyVal) (t : PyDictItems) :
  iterencode ind lvl (PyDict (kv :: t))
  = "{" ++ newline_indent ind (S lvl)
        ++ join (item_sep ind lvl) (map (encode_member ind lvl) (kv :: t))
        ++ newline_indent ind lvl ++ "}".
Proof. reflexivity. Qed.

Lemma int_str_head (z : Z) (rest : string) :
  exists c r, int_str z ++ rest = String c r /\ (is_digit c = true \/ c = "-"%char).
Proof.
  unfold int_str. destruct (z <? 0)%Z.
  - exists "-"%char. eexists. split; [reflexivity | now right].
  - destruct (N_str_head (Z.abs_N z) rest) as (d & r & Hd & ->).
    exists (digit_char d), r. split; [reflexivity|].
    left. now apply is_digit_digit_char.
Qed.

Lemma scan_once_iterencode (v : PyVal) : scans ind v.
Proof.
  induction v as [| b | z | s | l IH | d IH] using PyVal_ind;
    intros lvl fuel rest Hwf Hsz Hrest;
    (destruct fuel as [|f]; [cbn in Hsz; lia|]).
  - reflexivity.
  - destruct b; reflexivity.
  - cbn [iterencode].
    destruct (int_str_head z rest) as (c & r & E & Hc).
    pose proof (scan_int_int_str z rest Hrest) as H. rewrite E in H |- *.
    rewrite (scan_once_number f c r Hc), H. reflexivity.
  - cbn [iterencode]. rewrite scan_encoded_string. cbn [scan_once].
    rewrite Ascii.eqb_refl, scanstring_escape. reflexivity.
  - destruct l as [|x t]; [reflexivity|].
    rewrite iterencode_list, !append_assoc. cbn [append].
    erewrite scan_once_open_list.
    + rewrite scan_elements_join; [reflexivity | exact IH | discriminate | | ].
      * now apply wf_val_list.
      * cbn [size] in Hsz. unfold elems_size. lia.
    + apply skip_ws_item_sep_tail. intros tail. apply iterencode_at_value.
    + destruct (join_head (item_sep ind lvl) (iterencode ind (S lvl) x)
                  (map (iterencode ind (S lvl)) t)
                  (newline_indent ind lvl ++ String "]" rest)) as (tail & E).
      cbn [map]. rewrite E. apply iterencode_at_value.
  - destruct d as [|kv t]; [reflexivity|].
    apply wf_val_dict in Hwf as [Hnd Hwf].
    rewrite iterencode_dict, !append_assoc. cbn [append].
    erewrite scan_once_open_dict.
    + rewrite scan_members_join; [ | exact IH | discriminate | exact Hwf | ].
      * now rewrite dict_of_pairs_nodup.
      * cbn [size] in Hsz. unfold members_size. lia.
    + apply skip_ws_item_sep_tail. intros tail.
      unfold encode_member. rewrite scan_encoded_string.
      exists dquote. eexists. repeat split; reflexivity.
    + destruct (join_head (item_sep ind lvl) (encode_member ind lvl kv)
                  (map (encode_member ind lvl) t)
                  (newline_indent ind lvl ++ String "}" rest)) as (tail & E).
      cbn [map]. rewrite E.
      unfold encode_member. rewrite !append_assoc, scan_encoded_string.
      exists dquote. eexists. repeat split; reflexivity.
Qed.
Lemma join_length_lower (sep : string) (ps : list string) :
  1 <= String.length sep ->
  fold_right (fun p acc => S (String.length p + acc)) 0 ps
  <= String.length (join sep ps) + 1.
Proof.
  intros Hsep. induction ps as [|p [|q ps] IH].
  - cbn. lia.
  - cbn. lia.
  - rewrite join_cons2, !length_append.
    cbn [fold_right] in IH |- *. lia.
Qed.

Lemma size_le_length (v : PyVal) :
  forall lvl, size v <= String.length (iterencode ind lvl v).
Proof.
  induction v as [| b | z | s | l IH | d IH] using PyVal_ind; intros lvl.
  - cbn. lia.
  - destruct b; cbn; lia.
  - cbn [iterencode size].
    destruct (int_str_head z "") as (c & r & E & _).
    rewrite append_nil_r in E. rewrite E. cbn. lia.
  - cbn [iterencode size]. unfold encode_basestring_ascii. cbn. lia.
  - destruct l as [|x t]; [cbn; lia|].
    rewrite iterencode_list, !length_append. cbn [size].
    pose proof (join_length_lower (item_sep ind lvl)
                  (map (iterencode ind (S lvl)) (x :: t))) as H.
    assert (Hsep : 1 <= String.length (item_sep ind lvl)) by (cbn; lia).
    specialize (H Hsep).
    assert (Hsum : fold_right (fun y acc => S (size y + acc)) 0 (x :: t)
                   <= fold_right (fun p acc => S (String.length p + acc)) 0
                        (map (iterencode ind (S lvl)) (x :: t))).
    { clear H. induction IH as [|y l' Hy _ IHl]; cbn [fold_right map]; [lia|].
      specialize (Hy (S lvl)). lia. }
    cbn [String.length]. lia.
  - destruct d as [|kv t]; [cbn; lia|].
    rewrite iterencode_dict, !length_append. cbn [size].
    pose proof (join_length_lower (item_sep ind lvl)
                  (map (encode_member ind lvl) (kv :: t))) as H.
    assert (Hsep : 1 <= String.length (item_sep ind lvl)) by (cbn; lia).
    specialize (H Hsep).
    assert (Hsum : fold_right (fun y acc => S (size (snd y) + acc)) 0 (kv :: t)
                   <= fold_right (fun p acc => S (String.length p + acc)) 0
                        (map (encode_member ind lvl) (kv :: t))).
    { clear H. induction IH as [|y l' Hy _ IHl]; cbn [fold_right map]; [lia|].
      specialize (Hy (S lvl)). unfold encode_member at 1.
      rewrite !length_append. lia. }
    cbn [String.length]. lia.
Qed.

Lemma json_loads_dumps (v : PyVal) :
  wf_val v -> json_loads (json_dumps ind v) = Some v.
Proof.
  intros Hwf. unfold json_loads, json_dumps.
  pose proof (iterencode_at_value ind 0 v "") as Hat.
  rewrite append_nil_r in Hat. rewrite (at_value_skip_ws _ Hat).
  pose proof (scan_once_iterencode v 0 (S (String.length (iterencode ind 0 v))) ""
                Hwf) as H.
  rewrite append_nil_r in H. rewrite H; [reflexivity | | reflexivity].
  pose proof (size_le_length v 0). lia.
Qed.
End RoundTrip.

(** ** The error monad *)

Lemma bind_ok_inv {A B : Type} (m : result A) (f : A -> result B) (b : B) :
  bind m f = Ok b -> exists a, m = Ok a /\ f a = Ok b.
Proof. destruct m as [a|e]; cbn; intros H; [now exists a | discriminate]. Qed.

Lemma reraise_ok_inv {A : Type} (what : string) (m : result A) (a : A) :
  reraise what m = Ok a -> m = Ok a.
Proof. destruct m; cbn; intros H; [exact H | discriminate]. Qed.

(** Case analysis along a computation in the error monad that is known to
    return. *)
Ltac invert_ok :=
  repeat match goal with
    | H : Ok _ = Ok _ |- _ => injection H as H; try subst
    | H : Raise _ = Ok _ |- _ => discriminate H
    | H : bind ?m _ = Ok _ |- _ =>
        let E := fresh "E" in
        destruct m eqn:E; cbn [bind] in H; [|discriminate H]
    | H : (if ?b then _ else _) = Ok _ |- _ => destruct b eqn:?
    | H : match ?x with PyList _ => _ | _ => _ end = Ok _ |- _ => destruct x
    end.

(** ** [get_export_summary] *)

Lemma summary_body_shape (search_data : PyVal) (now : datetime) (s : Summary) :
  summary_body search_data now = Ok s ->
  exists total address date,
    s = summary_of (strftime now "%Y-%m-%d %H:%M:%S") total address date.
Proof.
  unfold summary_body, summary_of. intros H.
  destruct search_data as [| b | z | t | l | d]; invert_ok;
    try (now eexists _, _, _).
  destruct (dict_get d "property_data") as [prop_data|].
  - invert_ok; cbn; now eexists _, _, _.
  - destruct (dict_get d "results") as [[| | | | l |]|]; invert_ok;
      cbn; now eexists _, _, _.
Qed.

(** C8, as stated, fails: a structural surprise does not always give the
    mapping with the Error field.  A list in place of the mapping, a
    [results] that is not a list, a [property_data] that is a list of
    records: each yields the four-field summary with its defaults, and no
    Error. *)
Lemma summary_of_structural_surprise_has_no_error :
  get_export_summary (PyList [PyInt 1]) sample_now sample_later
  = summary_of "2024-03-07 09:05:59" 0 NA NA
  /\ get_export_summary (PyDict [("results", PyStr "two")]) sample_now sample_later
     = summary_of "2024-03-07 09:05:59" 0 NA NA
  /\ get_export_summary (PyDict [("property_data", PyList [PyDict []])])
       sample_now sample_later
     = summary_of "2024-03-07 09:05:59" 0 NA NA
  /\ dict_get (get_export_summary (PyList [PyInt 1]) sample_now sample_later) "Error"
     = None
  /\ forall e,
       get_export_summary (PyList [PyInt 1]) sample_now sample_later
       <> error_summary (strftime sample_later iso_format) e.
Proof.
  repeat split. intros e H. discriminate H.
Qed.

Lemma summary_body_raises_iff (search_data : PyVal) (now : datetime) :
  (exists e, summary_body search_data now = Raise e)
  <-> summary_fails search_data = true.
Proof.
  unfold summary_body, summary_fails.
  destruct search_data as [| b | z | t | l | d];
    try (split; [intros [e H]; discriminate H | discriminate]).
  destruct (dict_get d "property_data") as [prop_data|].
  - destruct prop_data as [| b | z | s | l | pd]; cbn [unreadable py_contains bind].
    + split; [reflexivity | now eexists].
    + split; [reflexivity | now eexists].
    + split; [reflexivity | now eexists].
    + unfold summary_keys. cbn [existsb py_getitem].
      destruct (is_substring "address" s); cbn [bind orb];
        [split; [reflexivity | now eexists]|].
      destruct (is_substring "search_timestamp" s); cbn [bind orb];
        [split; [reflexivity | now eexists]|].
      destruct (is_substring "results" s); cbn [bind orb];
        [split; [reflexivity | now eexists]|].
      split; [intros [e H]; discriminate H | discriminate].
    + unfold summary_keys. cbn [existsb py_getitem].
      destruct (existsb _ l); cbn [bind orb];
        [split; [reflexivity | now eexists]|].
      destruct (existsb _ l); cbn [bind orb];
        [split; [reflexivity | now eexists]|].
      destruct (existsb _ l); cbn [bind orb];
        [split; [reflexivity | now eexists]|].
      split; [intros [e H]; discriminate H | discriminate].
    + cbn [py_getitem]. unfold dict_has.
      destruct (dict_get pd "address") as [a|];
        destruct (dict_get pd "search_timestamp") as [t|];
        destruct (dict_get pd "results") as [[| | | | l |]|]; cbn [bind];
        (split; [intros [e H]; discriminate H | discriminate]).
  - destruct (dict_get d "results") as [[| | | | l |]|];
      (split; [intros [e H]; discriminate H | discriminate]).
Qed.

(** C8 amended: [get_export_summary] never raises.  For every input it
    returns a mapping: either the four-field summary (Export Date, Total
    Properties, Search Address, Search Date) or a mapping holding only
    Export Date and Error.  It returns the latter exactly when the input is a
    mapping whose [property_data] is [None], a boolean or a number, or a list
    or a string in which one of the keys address, search_timestamp, results
    is found; every other input, whatever its shape, yields the four-field
    summary, with its defaults when the input is not a mapping.  The nested
    [{property_data: {...}}] shape and the flat [{results: [...]}] shape are
    both read, and the documented example yields Search Address "1 Main St",
    Total Properties 2 and Search Date "N/A". *)
Theorem get_export_summary_never_fails
    (search_data : PyVal) (now now_handler : datetime) :
  ((exists total address date,
       summary_body search_data now
       = Ok (summary_of (strftime now iso_format) total address date) /\
       get_export_summary search_data now now_handler
       = summary_of (strftime now iso_format) total address date)
   \/
   (exists e,
       summary_body search_data now = Raise e /\
       get_export_summary search_data now now_handler
       = error_summary (strftime now_handler iso_format) e))
  /\
  ((exists e,
       get_export_summary search_data now now_handler
       = error_summary (strftime now_handler iso_format) e)
   <-> summary_fails search_data = true)
  /\
  ((exists total address date,
       get_export_summary search_data now now_handler
       = summary_of (strftime now iso_format) total address date)
   <-> summary_fails search_data = false)
  /\
  (is_dict search_data = false ->
   get_export_summary search_data now now_handler
   = summary_of (strftime now iso_format) 0 NA NA)
  /\
  (forall d pd,
      search_data = PyDict d ->
      dict_get d "property_data" = Some (PyDict pd) ->
      get_export_summary search_data now now_handler
      = summary_of (strftime now iso_format)
          (results_count (dict_get pd "results"))
          (default_to NA (dict_get pd "address"))
          (default_to NA (dict_get pd "search_timestamp")))
  /\
  (forall d,
      search_data = PyDict d ->
      dict_get d "property_data" = None ->
      get_export_summary search_data now now_handler
      = summary_of (strftime now iso_format)
          (results_count (dict_get d "results")) NA NA)
  /\
  get_export_summary
    (PyDict [("property_data",
              PyDict [("address", PyStr "1 Main St");
                      ("results", PyList [PyDict []; PyDict []])])])
    now now_handler
  = summary_of (strftime now iso_format) 2 (PyStr "1 Main St") NA.
Proof.
  assert (Hcases :
    (exists total address date,
        summary_body search_data now
        = Ok (summary_of (strftime now iso_format) total address date) /\
        get_export_summary search_data now now_handler
        = summary_of (strftime now iso_format) total address date)
    \/
    (exists e,
        summary_body search_data now = Raise e /\
        get_export_summary search_data now now_handler
        = error_summary (strftime now_handler iso_format) e)).
  { unfold get_export_summary.
    destruct (summary_body search_data now) as [s|e] eqn:E.
    + left. destruct (summary_body_shape _ _ _ E) as (total & address & date & ->).
      now exists total, address, date.
    + right. now exists e. }
  pose proof (summary_body_raises_iff search_data now) as Hraises.
  split; [exact Hcases|]. split; [|split; [|split; [|split; [|split]]]].
  - rewrite <- Hraises. split.
    + intros [e He].
      destruct Hcases as [(total & address & date & _ & Hs)|(e' & Hbody & _)];
        [|now exists e'].
      rewrite Hs in He. discriminate He.
    + intros [e He].
      destruct Hcases as [(total & address & date & Hbody & _)|(e' & _ & Hs)];
        [|now exists e'].
      rewrite Hbody in He. discriminate He.
  - rewrite <- not_true_iff_false, <- Hraises. split.
    + intros (total & address & date & Hs) [e He].
      destruct Hcases as [(total' & address' & date' & Hbody & _)|(e' & _ & Hs')].
      * rewrite Hbody in He. discriminate He.
      * rewrite Hs' in Hs. discriminate Hs.
    + intros Hnot.
      destruct Hcases as [(total & address & date & _ & Hs)|(e' & Hbody & _)].
      * now exists total, address, date.
      * exfalso. apply Hnot. now exists e'.
  - intros Hd. destruct search_data; try discriminate Hd; reflexivity.
  - intros d pd -> Hpd. unfold get_export_summary, summary_body.
    rewrite Hpd. cbn [py_contains py_getitem bind]. unfold dict_has.
    destruct (dict_get pd "address") as [a|];
      destruct (dict_get pd "search_timestamp") as [t|];
      destruct (dict_get pd "results") as [[| | | | l |]|]; reflexivity.
  - intros d -> Hpd. unfold get_export_summary, summary_body.
    rewrite Hpd.
    destruct (dict_get d "results") as [[| | | | l |]|]; reflexivity.
  - reflexivity.
Qed.

(** ** Empty input *)

(** C2: for the empty record sequence the tabular, workbook and report
    exports each fail with the empty-input error (the exception carrying
    "No search results to export") and return no artifact, while the
    raw-structure export of the empty list succeeds with a payload that
    parses back to the empty list. *)
Theorem empty_input_is_refused
    (str_title : string -> string) (search_metadata search_id : PyVal)
    (now : datetime) :
  export_to_csv [] search_id now
  = Raise (Exception "CSV export failed: No search results to export")
  /\
  export_to_excel [] search_metadata search_id now
  = Raise (Exception "Excel export failed: No search results to export")
  /\
  export_to_pdf_report str_title [] search_metadata search_id now
  = Raise (Exception "PDF export failed: No search results to export")
  /\
  exists payload filename,
    export_to_json (PyList []) search_id now = Ok (payload, filename) /\
    payload = "[]" /\
    json_loads payload = Some (PyList []).
Proof.
  repeat split.
  exists "[]", (export_filename "property_search" search_id now ".json").
  repeat split.
Qed.

(** ** Loops in the error monad *)

Section MapM.
Context {A B : Type} (f : A -> result B).

Lemma mapM_ok_Forall2 (xs : list A) :
  forall ys, mapM f xs = Ok ys -> Forall2 (fun x y => f x = Ok y) xs ys.
Proof.
  induction xs as [|x xs IH]; cbn [mapM]; intros ys H.
  - injection H as <-. constructor.
  - destruct (f x) as [y|e] eqn:Ex; cbn [bind] in H; [|discriminate H].
    destruct (mapM f xs) as [ys'|e]; cbn [bind] in H; [|discriminate H].
    injection H as <-. constructor; [exact Ex | now apply IH].
Qed.

Lemma Forall2_mapM_ok (xs : list A) (ys : list B) :
  Forall2 (fun x y => f x = Ok y) xs ys -> mapM f xs = Ok ys.
Proof.
  induction 1 as [|x y xs ys Hx _ IH]; cbn [mapM]; [reflexivity|].
  now rewrite Hx, IH.
Qed.

Lemma mapM_total (xs : list A) :
  Forall (fun x => exists y, f x = Ok y) xs -> exists ys, mapM f xs = Ok ys.
Proof.
  induction 1 as [|x xs [y Hy] _ [ys IH]]; cbn [mapM].
  - now exists [].
  - exists (y :: ys). now rewrite Hy, IH.
Qed.

Lemma mapM_first_raise (pre post : list A) (r : A) (e : exn) :
  Forall (fun x => exists y, f x = Ok y) pre -> f r = Raise e ->
  mapM f (pre ++ r :: post)%list = Raise e.
Proof.
  intros Hpre Hr. induction Hpre as [|x pre [y Hy] _ IH]; cbn [mapM app].
  - now rewrite Hr.
  - now rewrite Hy, IH.
Qed.
End MapM.

(** ** Tabular export: the keys of a normalized record *)

Lemma py_in_and_getitem_dict (d : PyDictItems) (k : string) :
  py_in_and_getitem (PyDict d) k = Ok (default_to (PyBool false) (dict_get d k)).
Proof.
  unfold py_in_and_getitem. cbn [py_contains py_getitem bind]. unfold dict_has.
  destruct (dict_get d k); reflexivity.
Qed.

Lemma map_fst_dict_set (row : Row) (k : string) (v : PyVal) :
  map fst (dict_set row k v) = add_unique (map fst row) k.
Proof.
  unfold add_unique. induction row as [|[k' v'] row IH]; cbn [dict_set map fst existsb].
  - reflexivity.
  - rewrite (String.eqb_sym k k').
    destruct (k' =? k); cbn [orb map fst]; [reflexivity|].
    rewrite IH. destruct (existsb (String.eqb k) (map fst row)); reflexivity.
Qed.

Lemma csv_row_not_dict (r : PyVal) :
  (forall d, r <> PyDict d) -> csv_row r = Raise (no_attribute r "get").
Proof.
  intros H. destruct r; try reflexivity. now destruct (H d).
Qed.

Lemma csv_row_keys (r : PyVal) (row : Row) :
  csv_row r = Ok row -> map fst row = csv_keys (has_features r).
Proof.
  intros H. destruct r as [| b | z | s | l | d]; try discriminate H.
  unfold csv_row in H. cbn [py_get bind] in H.
  rewrite !py_in_and_getitem_dict in H. cbn [bind] in H.
  unfold has_features.
  destruct (truthy (default_to (PyBool false) (dict_get d "features"))) eqn:Ef;
    invert_ok; rewrite ?map_fst_dict_set; reflexivity.
Qed.

Lemma join_items_ok (l : list PyVal) :
  forall i, (exists parts, join_items i l = Ok parts) <-> forallb is_str l = true.
Proof.
  induction l as [|x l IH]; intros i; cbn [join_items forallb].
  - split; [reflexivity | now exists []].
  - destruct x; cbn [is_str andb];
      try (split; [intros [parts H]; discriminate H | discriminate]).
    rewrite <- (IH (i + 1)%N). split.
    + intros [parts H]. destruct (join_items (i + 1) l) as [ps|e]; [|discriminate H].
      now exists ps.
    + intros [ps H]. rewrite H. now eexists.
Qed.

Lemma str_join_ok (sep : string) (v : PyVal) :
  (exists s, str_join sep v = Ok s) <-> joinable v = true.
Proof.
  destruct v as [| b | z | s | l | d]; cbn [str_join joinable];
    try (split; [intros [s0 H]; discriminate H | discriminate]);
    try (split; [reflexivity | now eexists]).
  rewrite <- (join_items_ok l 0). split.
  - intros [s0 H]. destruct (join_items 0 l) as [ps|e]; [|discriminate H]. now exists ps.
  - intros [ps H]. rewrite H. now eexists.
Qed.

(** The records that normalize are exactly the mappings whose [owner] and
    [features] have a readable shape. *)
Lemma normalizes_iff (r : PyVal) : normalizes r <-> csv_record_ok r = true.
Proof.
  unfold normalizes. destruct r as [| b | z | s | l | d];
    try (split; [intros [row H]; discriminate H | discriminate]).
  unfold csv_row, csv_record_ok. cbn [py_get bind].
  rewrite !py_in_and_getitem_dict. cbn [bind].
  assert (Hfeat : forall row0 : Row,
             (exists row,
                 (if truthy (default_to (PyBool false) (dict_get d "features"))
                  then
                    architecture_type <-
                      py_get (default_to (PyBool false) (dict_get d "features"))
                        "architectureType" NA ;;
                    exterior_type <-
                      py_get (default_to (PyBool false) (dict_get d "features"))
                        "exteriorType" NA ;;
                    heating <-
                      py_get (default_to (PyBool false) (dict_get d "features"))
                        "heating" PyNone ;;
                    cooling <-
                      py_get (default_to (PyBool false) (dict_get d "features"))
                        "cooling" PyNone ;;
                    garage <-
                      py_get (default_to (PyBool false) (dict_get d "features"))
                        "garage" PyNone ;;
                    garage_spaces <-
                      py_get (default_to (PyBool false) (dict_get d "features"))
                        "garageSpaces" NA ;;
                    Ok (dict_set
                          (dict_set
                             (dict_set
                                (dict_set
                                   (dict_set
                                      (dict_set row0 "Architecture Type"
                                         architecture_type)
                                      "Exterior Type" exterior_type)
                                   "Heating" (yes_no heating))
                                "Cooling" (yes_no cooling))
                             "Garage" (yes_no garage))
                          "Garage Spaces" garage_spaces)
                  else Ok row0) = Ok row)
             <-> features_ok (dict_get d "features") = true).
  { intros row0. unfold features_ok.
    destruct (dict_get d "features") as [v|]; cbn [default_to truthy];
      [|split; [reflexivity | now eexists]].
    destruct (truthy v) eqn:Hv; cbn [negb orb];
      [|split; [reflexivity | now eexists]].
    destruct v; cbn [py_get bind];
      try (split; [intros [row H]; discriminate H | discriminate]).
    split; [reflexivity | now eexists]. }
  unfold owner_ok.
  destruct (dict_get d "owner") as [v|]; cbn [default_to truthy bind].
  - destruct (truthy v) eqn:Hv; cbn [negb orb bind]; [|apply Hfeat].
    destruct v as [| b | z | s | l | od]; cbn [py_get bind];
      try (split; [intros [row H]; discriminate H | discriminate]).
    destruct (dict_get od "names") as [names|]; cbn [truthy bind];
      [|apply Hfeat].
    destruct (truthy names) eqn:Hn; cbn [negb orb bind]; [|apply Hfeat].
    destruct (str_join ", " names) as [joined|e] eqn:Ej; cbn [bind].
    + assert (Hj : joinable names = true)
        by (apply (str_join_ok ", "); now exists joined).
      rewrite Hj. apply Hfeat.
    + assert (Hj : joinable names = false).
      { apply not_true_is_false. intros Hj.
        apply (str_join_ok ", ") in Hj as [s0 Hs]. rewrite Hs in Ej. discriminate Ej. }
      rewrite Hj. cbn [andb].
      split; [intros [row H]; discriminate H | discriminate].
  - apply Hfeat.
Qed.

Lemma Forall2_nth_error_l {A B : Type} (R : A -> B -> Prop) (xs : list A) (ys : list B) :
  Forall2 R xs ys ->
  forall i x, nth_error xs i = Some x -> exists y, nth_error ys i = Some y /\ R x y.
Proof.
  induction 1 as [|x0 y0 xs ys Hxy _ IH]; intros [|i] x Hi; cbn in Hi |- *;
    try discriminate.
  - injection Hi as <-. now exists y0.
  - now apply IH.
Qed.

Lemma Forall2_length_eq {A B : Type} (R : A -> B -> Prop) (xs : list A) (ys : list B) :
  Forall2 R xs ys -> List.length ys = List.length xs.
Proof. induction 1; cbn; congruence. Qed.

Lemma csv_keys_NoDup (b : bool) : NoDup (csv_keys b).
Proof.
  assert (E : nodup string_dec (csv_keys b) = csv_keys b) by (now destruct b).
  rewrite <- E. apply NoDup_nodup.
Qed.

Lemma dict_get_In (row : Row) (k : string) (v : PyVal) :
  NoDup (map fst row) -> In (k, v) row -> dict_get row k = Some v.
Proof.
  induction row as [|[k' v'] row IH]; cbn [map fst dict_get]; intros Hnd Hin.
  - destruct Hin.
  - inversion Hnd as [|? ? Hk' Hnd']; subst.
    destruct Hin as [E|Hin].
    + injection E as -> ->. now rewrite String.eqb_refl.
    + destruct (String.eqb_spec k' k) as [->|_]; [|now apply IH].
      exfalso. apply Hk'. change k with (fst (k, v)). now apply in_map.
Qed.

(** The column labels pandas derives from the normalized records. *)
Lemma fold_csv_keys (bs : list bool) (b0 : bool) :
  fold_left (fun uniques buf => fold_left add_unique buf uniques)
    (map csv_keys bs) (csv_keys b0)
  = csv_keys (b0 || existsb (fun b => b) bs).
Proof.
  revert b0. induction bs as [|b bs IH]; intros b0; cbn [map existsb].
  - cbn [fold_left]. now rewrite orb_false_r.
  - change (fold_left (fun uniques buf => fold_left add_unique buf uniques)
              (csv_keys b :: map csv_keys bs) (csv_keys b0))
      with (fold_left (fun uniques buf => fold_left add_unique buf uniques)
              (map csv_keys bs)
              (fold_left add_unique (csv_keys b) (csv_keys b0))).
    assert (E : fold_left add_unique (csv_keys b) (csv_keys b0) = csv_keys (b0 || b))
      by (now destruct b, b0).
    rewrite E, IH. now rewrite orb_assoc.
Qed.

Lemma csv_columns (rs : list PyVal) (rows : list Row) :
  rs <> [] ->
  Forall2 (fun r row => csv_row r = Ok row) rs rows ->
  fast_unique_multiple_list_gen (map (map fst) rows)
  = csv_keys (existsb has_features rs).
Proof.
  intros Hne H.
  assert (E : map (map fst) rows = map csv_keys (map has_features rs)).
  { clear Hne. induction H as [|r row rs rows Hr _ IH]; cbn [map]; [reflexivity|].
    now rewrite (csv_row_keys r row Hr), IH. }
  rewrite E. unfold fast_unique_multiple_list_gen.
  destruct rs as [|r rs]; [congruence|]. cbn [map existsb].
  change (fold_left (fun uniques buf => fold_left add_unique buf uniques)
            (csv_keys (has_features r) :: map csv_keys (map has_features rs)) [])
    with (fold_left (fun uniques buf => fold_left add_unique buf uniques)
            (map csv_keys (map has_features rs))
            (fold_left add_unique (csv_keys (has_features r)) [])).
  assert (E0 : fold_left add_unique (csv_keys (has_features r)) [] = csv_keys (has_features r))
    by (now destruct (has_features r)).
  rewrite E0, fold_csv_keys. f_equal. f_equal.
  clear. induction rs as [|x rs IH]; cbn; [reflexivity | now rewrite IH].
Qed.

(** What [export_to_csv] returns when every record normalizes. *)
Lemma export_to_csv_ok (rs : list PyVal) (search_id : PyVal) (now : datetime) :
  rs <> [] -> Forall normalizes rs ->
  exists rows,
    Forall2 (fun r row => csv_row r = Ok row) rs rows /\
    export_to_csv rs search_id now
    = Ok (DataFrame_of rows, export_filename "property_search" search_id now ".csv").
Proof.
  intros Hne Hall. destruct (mapM_total csv_row rs Hall) as [rows Hrows].
  exists rows. split; [now apply mapM_ok_Forall2|].
  unfold export_to_csv. destruct rs as [|r rs]; [congruence|].
  cbn [is_empty]. now rewrite Hrows.
Qed.

Lemma export_to_csv_ok_inv (rs : list PyVal) (search_id : PyVal) (now : datetime)
    (df : DataFrame) (filename : string) :
  export_to_csv rs search_id now = Ok (df, filename) ->
  rs <> [] /\
  exists rows,
    Forall2 (fun r row => csv_row r = Ok row) rs rows /\ df = DataFrame_of rows.
Proof.
  unfold export_to_csv. intros H. apply reraise_ok_inv in H.
  destruct rs as [|r rs]; [discriminate H|]. cbn [is_empty] in H.
  split; [discriminate|].
  destruct (mapM csv_row (r :: rs)) as [rows|e] eqn:E; cbn [bind] in H;
    [|discriminate H].
  injection H as <- _. exists rows. split; [now apply mapM_ok_Forall2 | reflexivity].
Qed.

(** ** C1 *)

(** C1, as stated, fails: a batch holding one malformed record (here [None]
    after a well-formed record) makes the whole export raise, and no row is
    returned for the well-formed record. *)
Lemma csv_malformed_record_aborts_export :
  export_to_csv [main_street; PyNone] PyNone sample_now
  = Raise (Exception "CSV export failed: 'NoneType' object has no attribute 'get'")
  /\ ~ exists df filename,
         export_to_csv [main_street; PyNone] PyNone sample_now = Ok (df, filename).
Proof.
  split; [reflexivity|]. intros (df & filename & H). discriminate H.
Qed.

(** C1 amended: the records are normalized inside one [try] block around the
    whole batch.  When the records before [r] normalize and normalizing [r]
    raises, the export raises a single exception "CSV export failed: ..."
    carrying that record's error, and returns rows for no record; a record
    that is not a mapping always raises. *)
Theorem csv_first_failure_aborts_batch
    (pre post : list PyVal) (r : PyVal) (e : exn) (search_id : PyVal)
    (now : datetime)
    (Hpre : Forall normalizes pre) (Hr : csv_row r = Raise e) :
  export_to_csv (pre ++ r :: post)%list search_id now
  = Raise (Exception ("CSV export failed: " ++ exn_str e))
  /\ (forall df filename,
        export_to_csv (pre ++ r :: post)%list search_id now <> Ok (df, filename))
  /\ (forall x, (forall d, x <> PyDict d) -> csv_row x = Raise (no_attribute x "get")).
Proof.
  assert (E : export_to_csv (pre ++ r :: post)%list search_id now
              = Raise (Exception ("CSV export failed: " ++ exn_str e))).
  { unfold export_to_csv.
    destruct (pre ++ r :: post)%list as [|x xs] eqn:El.
    - now destruct pre.
    - cbn [is_empty]. rewrite <- El.
      now rewrite (mapM_first_raise csv_row pre post r e Hpre Hr). }
  split; [exact E|]. split.
  - intros df filename H. rewrite E in H. discriminate H.
  - exact csv_row_not_dict.
Qed.

Lemma csv_first_failure_aborts_batch_witness :
  export_to_csv [main_street; PyStr "oops"; main_street] PyNone sample_now
  = Raise (Exception "CSV export failed: 'str' object has no attribute 'get'").
Proof.
  refine (proj1 (csv_first_failure_aborts_batch [main_street] [main_street]
                   (PyStr "oops") (no_attribute (PyStr "oops") "get")
                   PyNone sample_now _ _)).
  - constructor; [|constructor]. eexists. reflexivity.
  - reflexivity.
Defined.

(** ** C3 and C4: header and rows of the tabular export *)

Lemma csv_row_missing_every_field (d : PyDictItems) :
  missing_every_field d -> csv_row (PyDict d) = Ok csv_default_row.
Proof.
  intros H. unfold csv_row. rewrite !py_in_and_getitem_dict. cbn [py_get bind].
  rewrite !H by (cbn; tauto). reflexivity.
Qed.

(** C3, as stated, fails: for a record with no [features] the header has the
    eighteen base columns only, not the twenty-four documented ones. *)
Lemma csv_header_without_features_is_short :
  exists df filename,
    export_to_csv [PyDict []] PyNone sample_now = Ok (df, filename) /\
    columns df = csv_base_columns /\
    List.length (columns df) = 18 /\
    ~ In "Garage Spaces" (columns df).
Proof.
  eexists _, _. split; [reflexivity|]. cbn. repeat split.
  intros H. repeat (destruct H as [H|H]; [discriminate H|]). exact H.
Qed.

(** C3 amended: for every non-empty sequence of records that normalize, the
    header is the eighteen base columns in their fixed order, followed by the
    six feature columns exactly when some record carries a non-empty
    [features] value; every data row is as wide as the header; and a record
    missing every optional field yields "N/A" ("No" for Owner Occupied) in
    each of the eighteen base columns. *)
Theorem csv_header_and_default_row
    (rs : list PyVal) (search_id : PyVal) (now : datetime)
    (Hne : rs <> []) (Hall : Forall normalizes rs) :
  exists df filename,
    export_to_csv rs search_id now = Ok (df, filename) /\
    columns df
    = (csv_base_columns
       ++ (if existsb has_features rs then csv_feature_columns else []))%list /\
    Forall (fun cells => List.length cells = List.length (columns df)) (data df) /\
    forall i d,
      nth_error rs i = Some (PyDict d) -> missing_every_field d ->
      exists cells,
        nth_error (data df) i = Some cells /\
        firstn 18 cells = csv_default_cells.
Proof.
  destruct (export_to_csv_ok rs search_id now Hne Hall) as (rows & Hrows & E).
  eexists _, _. split; [exact E|].
  pose proof (csv_columns rs rows Hne Hrows) as Hcols.
  cbn [DataFrame_of columns data]. rewrite Hcols. split; [reflexivity|]. split.
  - apply Forall_forall. intros cells Hin. apply in_map_iff in Hin as (row & <- & _).
    now rewrite length_map.
  - intros i d Hi Hd.
    destruct (Forall2_nth_error_l _ _ _ Hrows i _ Hi) as (row & Hrow & Er).
    rewrite (csv_row_missing_every_field d Hd) in Er. injection Er as <-.
    eexists. split.
    + unfold Row, PyDictItems in *. rewrite nth_error_map, Hrow. reflexivity.
    + now destruct (existsb has_features rs).
Qed.

Lemma csv_header_and_default_row_witness :
  exists df filename,
    export_to_csv [PyDict []; main_street] (PyStr "s1") sample_now = Ok (df, filename) /\
    columns df = csv_base_columns /\
    nth_error (data df) 0 = Some csv_default_cells.
Proof.
  destruct (csv_header_and_default_row [PyDict []; main_street] (PyStr "s1") sample_now)
    as (df & filename & E & Hcols & _ & Hrow).
  - discriminate.
  - repeat constructor; eexists; reflexivity.
  - exists df, filename. split; [exact E|]. split; [exact Hcols|].
    destruct (Hrow 0 [] eq_refl) as (cells & Hcells & Hfirst).
    + intros k _. reflexivity.
    + injection E as <- _. exact eq_refl.
Defined.

(** ** The cells of a frame *)

Lemma map_seq_nth_error {A B : Type} (l : list A) (F : nat -> B) (G : A -> B) :
  (forall j a, nth_error l j = Some a -> F j = G a) ->
  map F (seq 0 (List.length l)) = map G l.
Proof.
  revert F. induction l as [|a l IH]; intros F H; cbn [List.length seq map];
    [reflexivity|].
  rewrite (H 0%nat a eq_refl). f_equal.
  rewrite <- seq_shift, map_map. apply IH.
  intros j b Hj. exact (H (S j) b Hj).
Qed.

Lemma nth_map_nth_error {A B : Type} (f : A -> B) (d : B) (l : list A) (j : nat) (a : A) :
  nth_error l j = Some a -> nth j (map f l) d = f a.
Proof.
  revert j. induction l as [|x l IH]; intros [|j] H; try discriminate H;
    cbn [map nth nth_error] in H |- *; [now injection H as -> | now apply IH].
Qed.

Lemma cells_of_DataFrame_of (rows : list Row) :
  cells_of (DataFrame_of rows)
  = map (row_cells rows (columns (DataFrame_of rows))) rows.
Proof.
  unfold cells_of, row_cells, column_values. cbn [DataFrame_of columns data].
  set (cols := fast_unique_multiple_list_gen (map (map fst) rows)).
  rewrite map_map. apply map_ext. intros row.
  rewrite <- (length_map (fun c => held (dict_get row c)) cols) at 1.
  rewrite length_map.
  apply map_seq_nth_error. intros j c Hj.
  rewrite (nth_map_nth_error _ None cols j c Hj). f_equal.
  unfold column_of. rewrite map_map. apply map_ext. intros row'.
  exact (nth_map_nth_error _ None cols j c Hj).
Qed.

Lemma length_cells_of (df : DataFrame) :
  List.length (cells_of df) = List.length (data df).
Proof. unfold cells_of. apply length_map. Qed.




(** ** Workbook export *)

Lemma excel_row_dict (d : PyDictItems) :
  excel_row (PyDict d) = Ok (combine excel_columns (excel_cells (PyDict d))).
Proof. reflexivity. Qed.

Lemma enumerate_shift {A B : Type} (g : Z -> A -> B) (xs : list A) :
  forall start,
    map (fun entry => g (fst entry + 1)%Z (snd entry)) (enumerate start xs)
    = map (fun entry => g (fst entry) (snd entry)) (enumerate (start + 1) xs).
Proof.
  induction xs as [|x xs IH]; intros start; cbn [enumerate map fst snd];
    [reflexivity | now rewrite IH].
Qed.

Section YearSheet.
Variable key : string.
Variable mk : Z -> PyVal -> string * PyVal -> result Row.
Variable columns_of_sheet : list string.
Variable cells : Z * PyVal * (string * PyVal) -> list PyVal.
Hypothesis mk_dict :
  forall i d year data,
    mk i (PyDict d) (year, PyDict data)
    = Ok (combine columns_of_sheet (cells ((i + 1)%Z, PyDict d, (year, PyDict data)))).

Lemma year_rows_ok (i : Z) (r : PyVal) :
  is_dict r = true -> year_data_ok (dict_get (items_of r) key) = true ->
  year_rows key mk (i, r)
  = Ok (map (fun item => combine columns_of_sheet (cells ((i + 1)%Z, r, item)))
            (year_items key r)).
Proof.
  destruct r as [| | | | |d]; try discriminate. intros _ Hok.
  cbn [items_of] in Hok.
  unfold year_rows, year_items. rewrite py_in_and_getitem_dict. cbn [bind items_of].
  destruct (dict_get d key) as [v|]; cbn [default_to truthy]; [|reflexivity].
  cbn [year_data_ok] in Hok.
  destruct (truthy v) eqn:Hv; [|reflexivity]. cbn [negb orb] in Hok.
  destruct v as [| | | | |items]; try discriminate Hok. cbn [is_dict andb items_of] in Hok |- *.
  cbn [py_items bind]. apply Forall2_mapM_ok.
  clear Hv. induction items as [|[year data] items IH]; cbn [map]; constructor.
  - cbn [forallb snd] in Hok. apply andb_prop in Hok as [Hd _].
    destruct data; try discriminate Hd. apply mk_dict.
  - apply IH. cbn [forallb] in Hok. now apply andb_prop in Hok as [_ Hrest].
Qed.

Lemma year_sheet_rows_ok (rs : list PyVal) :
  forallb is_dict rs = true ->
  forallb (fun r => year_data_ok (dict_get (items_of r) key)) rs = true ->
  year_sheet_rows key mk rs
  = Ok (map (fun p => combine columns_of_sheet (cells p)) (year_pairs key rs)).
Proof.
  intros Hd Hok. unfold year_sheet_rows, year_pairs.
  assert (E : forall start,
             mapM (year_rows key mk) (enumerate start rs)
             = Ok (map (fun entry =>
                          map (fun item => combine columns_of_sheet
                                             (cells ((fst entry + 1)%Z, snd entry, item)))
                              (year_items key (snd entry)))
                       (enumerate start rs))).
  { induction rs as [|r rs IH]; intros start; cbn [enumerate mapM map]; [reflexivity|].
    cbn [forallb] in Hd, Hok.
    apply andb_prop in Hd as [Hr Hd]. apply andb_prop in Hok as [Hrk Hok].
    rewrite (year_rows_ok start r Hr Hrk). cbn [bind fst snd].
    now rewrite (IH Hd Hok). }
  rewrite E. cbn [bind]. f_equal.
  rewrite (enumerate_shift
             (fun i r => map (fun item => combine columns_of_sheet (cells (i, r, item)))
                             (year_items key r)) rs 0).
  change (0 + 1)%Z with 1%Z.
  rewrite flat_map_concat_map, concat_map, map_map. f_equal.
  apply map_ext. intros [i r]. cbn [fst snd]. now rewrite map_map.
Qed.
End YearSheet.

(** *** Frames whose rows all carry the same keys *)

Lemma existsb_eqb_In (k : string) (l : list string) :
  existsb (String.eqb k) l = true <-> In k l.
Proof.
  rewrite existsb_exists. split.
  - intros (x & Hin & E). apply String.eqb_eq in E. now subst.
  - intros H. exists k. split; [exact H | apply String.eqb_refl].
Qed.

Lemma fold_add_unique_fresh (ks : list string) :
  forall acc, NoDup (acc ++ ks)%list -> fold_left add_unique ks acc = (acc ++ ks)%list.
Proof.
  induction ks as [|k ks IH]; intros acc Hnd; cbn [fold_left].
  - now rewrite app_nil_r.
  - assert (Hk : existsb (String.eqb k) acc = false).
    { apply not_true_is_false. rewrite existsb_eqb_In. intros Hin.
      apply NoDup_remove_2 in Hnd. apply Hnd, in_or_app. now left. }
    unfold add_unique at 2. rewrite Hk.
    rewrite IH; rewrite <- app_assoc; [reflexivity | exact Hnd].
Qed.

Lemma fold_add_unique_seen (ks : list string) :
  forall acc, incl ks acc -> fold_left add_unique ks acc = acc.
Proof.
  induction ks as [|k ks IH]; intros acc Hin; cbn [fold_left]; [reflexivity|].
  assert (Hk : existsb (String.eqb k) acc = true).
  { apply existsb_eqb_In, Hin. now left. }
  unfold add_unique at 2. rewrite Hk. apply IH.
  intros x Hx. apply Hin. now right.
Qed.

Lemma map_fst_combine (labels : list string) :
  forall cells : list PyVal,
    List.length cells = List.length labels -> map fst (combine labels cells) = labels.
Proof.
  induction labels as [|k ks IH]; intros [|c cs] H; cbn in H |- *;
    try discriminate; [reflexivity|].
  f_equal. apply IH. now injection H.
Qed.

Lemma dict_get_combine (labels : list string) :
  forall cells : list PyVal,
    NoDup labels -> List.length cells = List.length labels ->
    map (dict_get (combine labels cells)) labels = map Some cells.
Proof.
  induction labels as [|k ks IH]; intros [|c cs] Hnd H; cbn in H;
    try discriminate; [reflexivity|].
  inversion Hnd as [|? ? Hk Hnd']; subst. injection H as H.
  cbn [combine map dict_get]. rewrite String.eqb_refl. f_equal.
  rewrite <- (IH cs Hnd' H). apply map_ext_in. intros k' Hk'.
  destruct (String.eqb_spec k k') as [->|_]; [contradiction | reflexivity].
Qed.

Lemma DataFrame_of_uniform (labels : list string) (cellss : list (list PyVal)) :
  NoDup labels -> cellss <> [] ->
  Forall (fun cells => List.length cells = List.length labels) cellss ->
  DataFrame_of (map (combine labels) cellss) = frame labels cellss.
Proof.
  intros Hnd Hne Hlen. unfold DataFrame_of, frame.
  assert (Hgen : map (map fst) (map (combine labels) cellss)
                 = map (fun _ => labels) cellss).
  { rewrite map_map. apply map_ext_in. intros cells Hin.
    apply map_fst_combine. revert cells Hin. now apply Forall_forall. }
  assert (Hcols : fast_unique_multiple_list_gen
                    (map (map fst) (map (combine labels) cellss)) = labels).
  { rewrite Hgen. unfold fast_unique_multiple_list_gen.
    destruct cellss as [|c cs]; [congruence|]. cbn [map fold_left].
    rewrite (fold_add_unique_fresh labels [] Hnd). cbn [app].
    clear. induction cs as [|c cs IH]; cbn [map fold_left]; [reflexivity|].
    rewrite (fold_add_unique_seen labels labels (incl_refl _)). exact IH. }
  rewrite Hcols. f_equal. rewrite map_map. apply map_ext_in. intros cells Hin.
  rewrite <- (map_map (dict_get (combine labels cells)) held labels).
  rewrite <- (map_map Some held cells). f_equal.
  apply dict_get_combine; [exact Hnd|]. revert cells Hin. now apply Forall_forall.
Qed.

Lemma NoDup_by_nodup (l : list string) : nodup string_dec l = l -> NoDup l.
Proof. intros E. rewrite <- E. apply NoDup_nodup. Qed.

(** *** The workbook written for well-shaped input *)

Lemma forallb_and {A : Type} (f g : A -> bool) (l : list A) :
  forallb (fun x => f x && g x) l = forallb f l && forallb g l.
Proof.
  induction l as [|x l IH]; cbn [forallb]; [reflexivity|].
  rewrite IH. destruct (f x), (g x), (forallb f l); reflexivity.
Qed.

Lemma sheet_rows (name : string) (labels : list string)
    (cells : Z * PyVal * (string * PyVal) -> list PyVal)
    (pairs : list (Z * PyVal * (string * PyVal))) (writer : Workbook) :
  NoDup labels ->
  (forall p, List.length (cells p) = List.length labels) ->
  (if is_empty (map (fun p => combine labels (cells p)) pairs) then writer
   else (writer ++ [(name, DataFrame_of (map (fun p => combine labels (cells p)) pairs))])%list)
  = (writer ++ sheet_if name labels (map cells pairs))%list.
Proof.
  intros Hnd Hlen. unfold sheet_if.
  destruct pairs as [|p ps]; cbn [map is_empty]; [now rewrite app_nil_r|].
  f_equal. f_equal. f_equal.
  change (combine labels (cells p) :: map (fun p0 => combine labels (cells p0)) ps)
    with (map (fun p0 => combine labels (cells p0)) (p :: ps)).
  rewrite <- (map_map cells (combine labels)).
  apply DataFrame_of_uniform; [exact Hnd | discriminate |].
  apply Forall_forall. intros c Hin.
  change (cells p :: map cells ps) with (map cells (p :: ps)) in Hin.
  apply in_map_iff in Hin as (q & <- & _). apply Hlen.
Qed.

Lemma export_to_excel_ok (rs : list PyVal) (search_metadata search_id : PyVal)
    (now : datetime) :
  rs <> [] -> forallb excel_record_ok rs = true ->
  excel_metadata_ok search_metadata = true ->
  export_to_excel rs search_metadata search_id now
  = Ok (excel_workbook rs search_metadata,
        export_filename "property_search" search_id now ".xlsx").
Proof.
  intros Hne Hok Hmeta. unfold export_to_excel.
  destruct (is_empty rs) eqn:Hemp; [destruct rs; [congruence | discriminate]|].
  unfold excel_record_ok in Hok. rewrite !forallb_and in Hok.
  apply andb_prop in Hok as [Hok Hptax]. apply andb_prop in Hok as [Hdict Htax].
  assert (Hmain : mapM excel_row rs = Ok (map (combine excel_columns) (map excel_cells rs))).
  { apply Forall2_mapM_ok. clear - Hdict.
    induction rs as [|r rs IH]; cbn [map]; constructor.
    - cbn [forallb] in Hdict. apply andb_prop in Hdict as [Hr _].
      destruct r; try discriminate Hr. apply excel_row_dict.
    - apply IH. cbn [forallb] in Hdict. now apply andb_prop in Hdict as [_ H]. }
  rewrite Hmain. cbn [bind before_first_sheet].
  rewrite (year_sheet_rows_ok "taxAssessments" tax_assessment_row
             tax_assessment_columns tax_assessment_cells
             (fun i d year data => eq_refl) rs Hdict Htax).
  cbn [bind].
  rewrite (year_sheet_rows_ok "propertyTaxes" property_tax_row
             property_tax_columns property_tax_cells
             (fun i d year data => eq_refl) rs Hdict Hptax).
  cbn [bind].
  rewrite (sheet_rows "Tax Assessments" tax_assessment_columns tax_assessment_cells);
    [ | now apply NoDup_by_nodup | now intros [[i r] [y dt]] ].
  rewrite (sheet_rows "Property Taxes" property_tax_columns property_tax_cells);
    [ | now apply NoDup_by_nodup | now intros [[i r] [y dt]] ].
  rewrite DataFrame_of_uniform;
    [ | now apply NoDup_by_nodup
      | destruct rs; [congruence | discriminate]
      | apply Forall_forall; intros c Hin;
        apply in_map_iff in Hin as (q & <- & _); reflexivity ].
  unfold excel_workbook. unfold excel_metadata_ok in Hmeta.
  destruct (truthy search_metadata) eqn:Ht; cbn [negb orb] in Hmeta.
  - destruct search_metadata; try discriminate Hmeta.
    cbn [py_items bind items_of reraise]. now rewrite <- !app_assoc.
  - cbn [bind reraise]. now rewrite !app_nil_r, <- !app_assoc.
Qed.

Lemma year_items_empty (key : string) (r : PyVal) :
  is_empty (year_items key r) = negb (has_year_mapping key r).
Proof.
  unfold year_items, has_year_mapping.
  destruct (dict_get (items_of r) key) as [[| [|] | z | s | [|x l] | [|kv d]]|];
    try reflexivity.
  - cbn. now destruct (z =? 0)%Z.
  - cbn. now destruct (s =? "").
Qed.

Lemma year_pairs_empty (key : string) (rs : list PyVal) :
  is_empty (year_pairs key rs) = negb (existsb (has_year_mapping key) rs).
Proof.
  unfold year_pairs. generalize 1%Z as start.
  induction rs as [|r rs IH]; intros start; cbn [enumerate flat_map existsb fst snd];
    [reflexivity|].
  pose proof (year_items_empty key r) as Hr.
  destruct (year_items key r) as [|item items]; cbn [is_empty map app] in Hr |- *.
  - rewrite IH. now destruct (has_year_mapping key r).
  - now destruct (has_year_mapping key r).
Qed.

Lemma is_empty_map {A B : Type} (f : A -> B) (l : list A) :
  is_empty (map f l) = is_empty l.
Proof. now destruct l. Qed.

Lemma excel_workbook_sheets (rs : list PyVal) (search_metadata : PyVal) :
  get_sheet (excel_workbook rs search_metadata) "Properties"
  = Some (frame excel_columns (map excel_cells rs))
  /\ get_sheet (excel_workbook rs search_metadata) "Tax Assessments"
     = (if existsb (has_year_mapping "taxAssessments") rs
        then Some (frame tax_assessment_columns
                     (map tax_assessment_cells (year_pairs "taxAssessments" rs)))
        else None)
  /\ get_sheet (excel_workbook rs search_metadata) "Property Taxes"
     = (if existsb (has_year_mapping "propertyTaxes") rs
        then Some (frame property_tax_columns
                     (map property_tax_cells (year_pairs "propertyTaxes" rs)))
        else None)
  /\ has_sheet (excel_workbook rs search_metadata) "Tax Assessments"
     = existsb (has_year_mapping "taxAssessments") rs
  /\ has_sheet (excel_workbook rs search_metadata) "Property Taxes"
     = existsb (has_year_mapping "propertyTaxes") rs.
Proof.
  unfold excel_workbook, sheet_if. rewrite !is_empty_map, !year_pairs_empty.
  destruct (existsb (has_year_mapping "taxAssessments") rs);
    destruct (existsb (has_year_mapping "propertyTaxes") rs);
    destruct (truthy search_metadata); cbn [negb app]; repeat split.
Qed.

(** *** The inputs on which the workbook export returns *)

Lemma mapM_ok_forallb {A B : Type} (f : A -> result B) (ok : A -> bool) (xs : list A) :
  (forall x y, f x = Ok y -> ok x = true) ->
  forall ys, mapM f xs = Ok ys -> forallb ok xs = true.
Proof.
  intros Hf ys H. apply mapM_ok_Forall2 in H.
  induction H as [|x y xs ys Hx _ IH]; cbn [forallb]; [reflexivity|].
  now rewrite (Hf x y Hx), IH.
Qed.

Lemma year_rows_ok_inv (key : string)
    (mk : Z -> PyVal -> string * PyVal -> result Row) :
  (forall i prop item row, mk i prop item = Ok row -> is_dict (snd item) = true) ->
  forall entry rows,
    is_dict (snd entry) = true -> year_rows key mk entry = Ok rows ->
    year_data_ok (dict_get (items_of (snd entry)) key) = true.
Proof.
  intros Hmk [i r] rows Hr H. cbn [snd] in Hr |- *.
  destruct r as [| | | | |d]; try discriminate Hr. cbn [items_of].
  unfold year_rows in H. rewrite py_in_and_getitem_dict in H. cbn [bind] in H.
  unfold year_data_ok.
  destruct (dict_get d key) as [v|]; cbn [default_to] in H; [|reflexivity].
  destruct (truthy v); cbn [negb orb]; [|reflexivity].
  destruct v as [| | | | |items]; try discriminate H.
  cbn [py_items bind is_dict items_of andb] in H |- *.
  apply (mapM_ok_forallb (mk i (PyDict d)) (fun kv => is_dict (snd kv)) items) in H;
    [exact H|].
  intros item row. apply Hmk.
Qed.

Lemma year_sheet_rows_ok_inv (key : string)
    (mk : Z -> PyVal -> string * PyVal -> result Row) (rs : list PyVal)
    (rows : list Row) :
  (forall i prop item row, mk i prop item = Ok row -> is_dict (snd item) = true) ->
  forallb is_dict rs = true ->
  year_sheet_rows key mk rs = Ok rows ->
  forallb (fun r => year_data_ok (dict_get (items_of r) key)) rs = true.
Proof.
  intros Hmk Hd H. unfold year_sheet_rows in H.
  destruct (mapM (year_rows key mk) (enumerate 0 rs)) as [per_record|e] eqn:E;
    [clear H | discriminate H].
  apply mapM_ok_Forall2 in E. revert per_record E Hd. generalize 0%Z as start.
  induction rs as [|r rs IH]; intros start per_record E Hd; cbn [forallb];
    [reflexivity|].
  cbn [enumerate] in E. inversion E as [|? y ? ys Hr Hrest]; subst.
  cbn [forallb] in Hd. apply andb_prop in Hd as [Hr0 Hd].
  pose proof (year_rows_ok_inv key mk Hmk (start, r) y Hr0 Hr) as Hyear.
  cbn [snd] in Hyear. rewrite Hyear.
  exact (IH _ _ Hrest Hd).
Qed.

Lemma export_to_excel_ok_inv (rs : list PyVal) (search_metadata search_id : PyVal)
    (now : datetime) (wb : Workbook) (filename : string) :
  export_to_excel rs search_metadata search_id now = Ok (wb, filename) ->
  rs <> [] /\ forallb excel_record_ok rs = true
  /\ excel_metadata_ok search_metadata = true
  /\ wb = excel_workbook rs search_metadata
  /\ filename = export_filename "property_search" search_id now ".xlsx".
Proof.
  intros H0.
  assert (Hshape : rs <> [] /\ forallb excel_record_ok rs = true
                   /\ excel_metadata_ok search_metadata = true).
  { pose proof H0 as H. unfold export_to_excel in H.
    apply reraise_ok_inv in H.
    destruct rs as [|r0 rs0] eqn:Ers; [discriminate H|]. rewrite <- Ers in *.
    replace (is_empty rs) with false in H by (now rewrite Ers).
    split; [now rewrite Ers|].
    destruct (mapM excel_row rs) as [df_data|e] eqn:Emain;
      cbn [bind before_first_sheet] in H; [|discriminate H].
    assert (Hdict : forallb is_dict rs = true).
    { apply (mapM_ok_forallb excel_row is_dict rs) in Emain; [exact Emain|].
      intros x y Hx. now destruct x. }
    destruct (year_sheet_rows "taxAssessments" tax_assessment_row rs)
      as [tax_data|e] eqn:Etax; cbn [bind] in H; [|discriminate H].
    destruct (year_sheet_rows "propertyTaxes" property_tax_row rs)
      as [ptax_data|e] eqn:Eptax; cbn [bind] in H; [|discriminate H].
    apply year_sheet_rows_ok_inv in Etax;
      [ | intros i prop [year data] row Hrow; cbn [snd];
          unfold tax_assessment_row in Hrow;
          destruct data; try reflexivity;
          destruct (py_get prop "formattedAddress" NA); discriminate Hrow
        | exact Hdict ].
    apply year_sheet_rows_ok_inv in Eptax;
      [ | intros i prop [year data] row Hrow; cbn [snd];
          unfold property_tax_row in Hrow;
          destruct data; try reflexivity;
          destruct (py_get prop "formattedAddress" NA); discriminate Hrow
        | exact Hdict ].
    split.
    + unfold excel_record_ok. rewrite !forallb_and, Hdict, Etax, Eptax. reflexivity.
    + unfold excel_metadata_ok.
      destruct (truthy search_metadata); [|reflexivity].
      destruct search_metadata; try discriminate H. reflexivity. }
  destruct Hshape as (Hne & Hok & Hmeta). repeat split; try assumption.
  - rewrite (export_to_excel_ok rs search_metadata search_id now Hne Hok Hmeta) in H0.
    now injection H0 as <- _.
  - rewrite (export_to_excel_ok rs search_metadata search_id now Hne Hok Hmeta) in H0.
    now injection H0 as _ <-.
Qed.

(** X3: [export_to_excel] returns only on the non-empty sequences of
    mappings whose [taxAssessments] and [propertyTaxes] are absent, falsy or
    mappings from year to mapping, with metadata that is falsy or a mapping,
    and what it returns then is the workbook of its sheets.  On every other
    input it raises an exception whose message starts with
    [Excel export failed: ]; for a record that is not a mapping the message
    is the one of the workbook that has no sheet yet. *)
Theorem export_to_excel_returns_only_if (rs : list PyVal)
    (search_metadata search_id : PyVal) (now : datetime) :
  (forall wb filename,
      export_to_excel rs search_metadata search_id now = Ok (wb, filename) ->
      rs <> [] /\ forallb excel_record_ok rs = true
      /\ excel_metadata_ok search_metadata = true
      /\ wb = excel_workbook rs search_metadata)
  /\ (~ (rs <> [] /\ forallb excel_record_ok rs = true
         /\ excel_metadata_ok search_metadata = true) ->
      exists msg,
        export_to_excel rs search_metadata search_id now
        = Raise (Exception ("Excel export failed: " ++ msg)))
  /\ (rs = [] ->
      export_to_excel rs search_metadata search_id now
      = Raise (Exception "Excel export failed: No search results to export"))
  /\ (rs <> [] -> forallb is_dict rs = false ->
      export_to_excel rs search_metadata search_id now
      = Raise (Exception "Excel export failed: At least one sheet must be visible")).
Proof.
  split; [|split; [|split]].
  - intros wb filename H. apply export_to_excel_ok_inv in H. tauto.
  - intros Hnot.
    destruct (export_to_excel rs search_metadata search_id now) as [[wb filename]|e] eqn:E.
    + apply export_to_excel_ok_inv in E. tauto.
    + unfold export_to_excel in E. unfold reraise in E.
      match type of E with
      | match ?body with _ => _ end = _ => destruct body as [a|e']
      end; [discriminate E|].
      injection E as <-. now exists (exn_str e').
  - intros ->. reflexivity.
  - intros Hne Hdict. unfold export_to_excel.
    destruct rs as [|r0 rs0] eqn:Ers; [congruence|]. rewrite <- Ers in *.
    replace (is_empty rs) with false by (now rewrite Ers).
    destruct (mapM excel_row rs) as [df_data|e] eqn:Emain; [|reflexivity].
    apply (mapM_ok_forallb excel_row is_dict rs) in Emain; [congruence|].
    intros x y Hx. now destruct x.
Qed.

(** ** C7 *)


Lemma frame_as_DataFrame_of (labels : list string) (cellss : list (list PyVal)) :
  NoDup labels -> cellss <> [] ->
  (forall cells, In cells cellss -> List.length cells = List.length labels) ->
  frame labels cellss = DataFrame_of (map (combine labels) cellss).
Proof.
  intros Hnd Hne Hlen. symmetry. apply DataFrame_of_uniform; try assumption.
  now apply Forall_forall.
Qed.

Lemma cells_of_frame (labels : list string) {A : Type} (cells : A -> list PyVal)
    (xs : list A) :
  NoDup labels -> (forall x, List.length (cells x) = List.length labels) ->
  cells_of (frame labels (map cells xs))
  = map (row_cells (map (fun x => combine labels (cells x)) xs) labels)
      (map (fun x => combine labels (cells x)) xs).
Proof.
  intros Hnd Hlen. destruct xs as [|x xs]; [reflexivity|].
  rewrite frame_as_DataFrame_of; [ | exact Hnd | discriminate | ].
  - rewrite cells_of_DataFrame_of.
    rewrite <- frame_as_DataFrame_of; [ | exact Hnd | discriminate | ].
    + cbn [frame columns]. now rewrite !map_map.
    + intros c Hin. apply in_map_iff in Hin as (q & <- & _). apply Hlen.
  - intros c Hin. apply in_map_iff in Hin as (q & <- & _). apply Hlen.
Qed.


(** ** C6 *)

Lemma enumerate_In {A : Type} (xs : list A) :
  forall start i x,
    In (i, x) (enumerate start xs) ->
    (start <= i)%Z /\ nth_error xs (Z.to_nat (i - start)) = Some x.
Proof.
  induction xs as [|y xs IH]; intros start i x Hin; cbn [enumerate] in Hin;
    [contradiction|].
  destruct Hin as [E|Hin].
  - injection E as <- <-. split; [lia|]. now rewrite Z.sub_diag.
  - apply IH in Hin as [Hle Hnth]. split; [lia|].
    replace (Z.to_nat (i - start)) with (S (Z.to_nat (i - (start + 1)))) by lia.
    exact Hnth.
Qed.

Lemma year_pairs_position (key : string) (rs : list PyVal)
    (position : Z) (r : PyVal) (item : string * PyVal) :
  In (position, r, item) (year_pairs key rs) ->
  (1 <= position)%Z /\ nth_error rs (Z.to_nat (position - 1)) = Some r
  /\ In item (year_items key r).
Proof.
  unfold year_pairs. intros Hin. apply in_flat_map in Hin as ([i x] & Hin & Hp).
  cbn [fst snd] in Hp. apply in_map_iff in Hp as (item' & E & Hitem).
  injection E as <- <- <-. apply enumerate_In in Hin as [Hle Hnth].
  split; [exact Hle|]. split; [exact Hnth | exact Hitem].
Qed.

Lemma column_without_missing (rows : list Row) (c : string) :
  (forall row, In row rows -> is_missing (held (dict_get row c)) = false) ->
  converts_to_float (column_of rows c) = false.
Proof.
  intros H. unfold converts_to_float.
  assert (E : existsb is_missing (column_of rows c) = false).
  { apply not_true_is_false. intros Hex. apply existsb_exists in Hex as (cell & Hin & Hcell).
    unfold column_of in Hin. apply in_map_iff in Hin as (row & <- & Hrow).
    rewrite (H row Hrow) in Hcell. discriminate Hcell. }
  now rewrite E.
Qed.

Section YearSheetCells.
Variable key : string.
Variable labels : list string.
Variable cells : Z * PyVal * (string * PyVal) -> list PyVal.
Hypothesis labels_NoDup : NoDup labels.
Hypothesis cells_length : forall p, List.length (cells p) = List.length labels.
Hypothesis first_label : nth_error labels 0 = Some "Property Index".
Hypothesis third_label : nth_error labels 2 = Some "Year".
Hypothesis index_cell :
  forall p, dict_get (combine labels (cells p)) "Property Index"
            = Some (PyInt (fst (fst p))).
Hypothesis year_cell :
  forall p, dict_get (combine labels (cells p)) "Year" = Some (PyStr (fst (snd p))).

Lemma year_sheet_cells (rs : list PyVal) (i : nat) (p : Z * PyVal * (string * PyVal)) :
  let rows := map (fun p => combine labels (cells p)) (year_pairs key rs) in
  let row := row_cells rows labels (combine labels (cells p)) in
  nth_error (year_pairs key rs) i = Some p ->
  nth_error (cells_of (frame labels (map cells (year_pairs key rs)))) i = Some row
  /\ nth_error row 0 = Some (Kept (PyInt (fst (fst p))))
  /\ nth_error row 2 = Some (Kept (PyStr (fst (snd p)))).
Proof.
  intros rows row Hi. split; [|split].
  - rewrite cells_of_frame by assumption. now rewrite !nth_error_map, Hi.
  - unfold row, row_cells. rewrite nth_error_map, first_label. cbn [option_map].
    rewrite index_cell. cbn [held cell_in].
    rewrite column_without_missing; [reflexivity|].
    intros r Hin. unfold rows in Hin. apply in_map_iff in Hin as (q & <- & _).
    now rewrite index_cell.
  - unfold row, row_cells. rewrite nth_error_map, third_label. cbn [option_map].
    now rewrite year_cell.
Qed.
End YearSheetCells.

(** C6: whenever the workbook export returns, for records whose integers fit
    in 64 bits, the workbook holds the [Tax Assessments] sheet if and only if
    some record has a non-empty [taxAssessments] mapping, and the
    [Property Taxes] sheet if and only if some record has a non-empty
    [propertyTaxes] mapping; a sheet that is present has one row per
    (record, year) pair, in input order, whose Property Index is the 1-based
    position of the record and whose Year is the year of the pair. *)
Theorem excel_year_sheets
    (rs : list PyVal) (search_metadata search_id : PyVal) (now : datetime)
    (wb : Workbook) (filename : string)
    (Hok : export_to_excel rs search_metadata search_id now = Ok (wb, filename))
    (Hfit : forallb ints_fit rs = true) :
  (has_sheet wb "Tax Assessments" = true
   <-> exists r, In r rs /\ has_year_mapping "taxAssessments" r = true) /\
  (has_sheet wb "Property Taxes" = true
   <-> exists r, In r rs /\ has_year_mapping "propertyTaxes" r = true) /\
  (forall df,
      get_sheet wb "Tax Assessments" = Some df ->
      columns df = tax_assessment_columns /\
      List.length (cells_of df) = List.length (year_pairs "taxAssessments" rs) /\
      forall i position r year data,
        nth_error (year_pairs "taxAssessments" rs) i = Some (position, r, (year, data)) ->
        (1 <= position)%Z /\
        nth_error rs (Z.to_nat (position - 1)) = Some r /\
        In (year, data) (year_items "taxAssessments" r) /\
        exists cells,
          nth_error (cells_of df) i = Some cells /\
          cells = row_cells (tax_assessment_rows rs) (columns df)
                    (combine tax_assessment_columns
                       (tax_assessment_cells (position, r, (year, data)))) /\
          nth_error cells 0 = Some (Kept (PyInt position)) /\
          nth_error cells 2 = Some (Kept (PyStr year))) /\
  (forall df,
      get_sheet wb "Property Taxes" = Some df ->
      columns df = property_tax_columns /\
      List.length (cells_of df) = List.length (year_pairs "propertyTaxes" rs) /\
      forall i position r year data,
        nth_error (year_pairs "propertyTaxes" rs) i = Some (position, r, (year, data)) ->
        (1 <= position)%Z /\
        nth_error rs (Z.to_nat (position - 1)) = Some r /\
        In (year, data) (year_items "propertyTaxes" r) /\
        exists cells,
          nth_error (cells_of df) i = Some cells /\
          cells = row_cells (property_tax_rows rs) (columns df)
                    (combine property_tax_columns
                       (property_tax_cells (position, r, (year, data)))) /\
          nth_error cells 0 = Some (Kept (PyInt position)) /\
          nth_error cells 2 = Some (Kept (PyStr year))).
Proof.
  apply export_to_excel_ok_inv in Hok as (Hne & Hshape & _ & -> & _).
  destruct (excel_workbook_sheets rs search_metadata)
    as (_ & Htax & Hptax & Hhas_tax & Hhas_ptax).
  rewrite Hhas_tax, Hhas_ptax, Htax, Hptax, !existsb_exists.
  split; [reflexivity|]. split; [reflexivity|]. split.
  - intros df H.
    destruct (existsb (has_year_mapping "taxAssessments") rs); [|discriminate H].
    injection H as <-. split; [reflexivity|]. split.
    { unfold cells_of. cbn [frame data]. now rewrite !length_map. }
    intros i position r year data Hi.
    destruct (year_pairs_position "taxAssessments" rs position r (year, data)
                (nth_error_In _ _ Hi)) as (Hpos & Hr & Hitem).
    split; [exact Hpos|]. split; [exact Hr|]. split; [exact Hitem|].
    destruct (year_sheet_cells "taxAssessments" tax_assessment_columns
                tax_assessment_cells (NoDup_by_nodup _ eq_refl)
                (fun p => let '(_, _, (_, _)) := p in eq_refl) eq_refl eq_refl
                (fun p => let '(_, _, (_, _)) := p in eq_refl)
                (fun p => let '(_, _, (_, _)) := p in eq_refl)
                rs i _ Hi) as (Hrow & Hindex & Hyear).
    eexists. split; [exact Hrow|]. split; [reflexivity|].
    split; [exact Hindex | exact Hyear].
  - intros df H.
    destruct (existsb (has_year_mapping "propertyTaxes") rs); [|discriminate H].
    injection H as <-. split; [reflexivity|]. split.
    { unfold cells_of. cbn [frame data]. now rewrite !length_map. }
    intros i position r year data Hi.
    destruct (year_pairs_position "propertyTaxes" rs position r (year, data)
                (nth_error_In _ _ Hi)) as (Hpos & Hr & Hitem).
    split; [exact Hpos|]. split; [exact Hr|]. split; [exact Hitem|].
    destruct (year_sheet_cells "propertyTaxes" property_tax_columns
                property_tax_cells (NoDup_by_nodup _ eq_refl)
                (fun p => let '(_, _, (_, _)) := p in eq_refl) eq_refl eq_refl
                (fun p => let '(_, _, (_, _)) := p in eq_refl)
                (fun p => let '(_, _, (_, _)) := p in eq_refl)
                rs i _ Hi) as (Hrow & Hindex & Hyear).
    eexists. split; [exact Hrow|]. split; [reflexivity|].
    split; [exact Hindex | exact Hyear].
Qed.

Lemma excel_year_sheets_witness :
  exists wb filename df,
    export_to_excel [main_street; taxed_record] PyNone PyNone sample_now
    = Ok (wb, filename) /\
    has_sheet wb "Property Taxes" = false /\
    get_sheet wb "Tax Assessments" = Some df /\
    cells_of df
    = [[Kept (PyInt 2); Kept (PyStr "2 Main St"); Kept (PyStr "2020");
        Kept (PyInt 5); Kept NA; Kept NA];
       [Kept (PyInt 2); Kept (PyStr "2 Main St"); Kept (PyStr "2021");
        Kept NA; Kept NA; Kept NA]] /\
    List.length (cells_of df) = 2.
Proof.
  assert (E : export_to_excel [main_street; taxed_record] PyNone PyNone sample_now
              = Ok (excel_workbook [main_street; taxed_record] PyNone,
                    "property_search_export_20240307_090559.xlsx"))
    by reflexivity.
  destruct (excel_year_sheets _ _ _ _ _ _ E eq_refl) as (_ & _ & Htax & _).
  eexists _, _, _. split; [exact E|]. split; [reflexivity|].
  split; [reflexivity|]. split; [reflexivity|].
  exact (proj1 (proj2 (Htax _ eq_refl))).
Defined.

(** ** Filenames *)

Lemma one_second_apart (t1 t2 : datetime) :
  valid_datetime t1 -> valid_datetime t2 ->
  (1000000 <= Z.abs (timestamp_micros t1 - timestamp_micros t2))%Z ->
  to_the_second t1 <> to_the_second t2.
Proof.
  intros V1 V2 Hd E. unfold to_the_second in E.
  injection E as Ey Em Ed EH EM ES.
  unfold timestamp_micros, toordinal in Hd. rewrite Ey, Em, Ed, EH, EM, ES in Hd.
  unfold valid_datetime in V1, V2. lia.
Qed.

Lemma zfill_length (w : nat) : forall n, String.length (zfill w n) = w.
Proof.
  induction w as [|w IH]; intros n; cbn [zfill]; [reflexivity|].
  rewrite length_append, IH. cbn. lia.
Qed.

Lemma digit_char_inj (a b : N) :
  (a < 10)%N -> (b < 10)%N -> digit_char a = digit_char b -> a = b.
Proof.
  intros Ha Hb E. apply (f_equal N_of_ascii) in E.
  rewrite !N_of_digit_char in E by assumption. lia.
Qed.

Lemma zfill_inj (w : nat) :
  forall n m, (n < 10 ^ N.of_nat w)%N -> (m < 10 ^ N.of_nat w)%N ->
              zfill w n = zfill w m -> n = m.
Proof.
  induction w as [|w IH]; intros n m Hn Hm E.
  - cbn in Hn, Hm. lia.
  - rewrite Nat2N.inj_succ, N.pow_succ_r' in Hn, Hm. cbn [zfill] in E.
    apply append_same_length in E; [|now rewrite !zfill_length].
    destruct E as [E1 E2]. injection E2 as E2.
    apply digit_char_inj in E2; [|lia|lia].
    apply IH in E1; lia.
Qed.

Lemma strftime_compact (t : datetime) :
  strftime t compact_format
  = zfill 4 (year t) ++ zfill 2 (month t) ++ zfill 2 (day t) ++ "_"
    ++ zfill 2 (hour t) ++ zfill 2 (minute t) ++ zfill 2 (second t).
Proof.
  unfold compact_format. cbn [strftime].
  unfold strftime_directive. cbn [Ascii.eqb Bool.eqb].
  now rewrite append_nil_r.
Qed.

Lemma strftime_compact_length (t : datetime) :
  String.length (strftime t compact_format) = 15.
Proof. rewrite strftime_compact, !length_append, !zfill_length. reflexivity. Qed.

Lemma zfill_field_inj (w : nat) (n m : N) (x y : string) :
  (n < 10 ^ N.of_nat w)%N -> (m < 10 ^ N.of_nat w)%N ->
  zfill w n ++ x = zfill w m ++ y -> n = m /\ x = y.
Proof.
  intros Hn Hm E. apply append_same_length in E; [|now rewrite !zfill_length].
  destruct E as [E1 E2]. split; [now apply (zfill_inj w) | exact E2].
Qed.

Lemma strftime_compact_inj (t1 t2 : datetime) :
  valid_datetime t1 -> valid_datetime t2 ->
  strftime t1 compact_format = strftime t2 compact_format ->
  to_the_second t1 = to_the_second t2.
Proof.
  intros V1 V2 E. rewrite !strftime_compact in E.
  unfold valid_datetime in V1, V2.
  apply (zfill_field_inj 4) in E as [Ey E]; [|cbn; lia|cbn; lia].
  apply (zfill_field_inj 2) in E as [Em E]; [|cbn; lia|cbn; lia].
  apply (zfill_field_inj 2) in E as [Ed E]; [|cbn; lia|cbn; lia].
  apply (append_inv_head "_") in E.
  apply (zfill_field_inj 2) in E as [EH E]; [|cbn; lia|cbn; lia].
  apply (zfill_field_inj 2) in E as [EM E]; [|cbn; lia|cbn; lia].
  apply (zfill_inj 2) in E; [|cbn; lia|cbn; lia].
  unfold to_the_second. congruence.
Qed.

Lemma export_filename_inj (stem ext : string) (search_id : PyVal) (t1 t2 : datetime) :
  valid_datetime t1 -> valid_datetime t2 ->
  export_filename stem search_id t1 ext = export_filename stem search_id t2 ext ->
  to_the_second t1 = to_the_second t2.
Proof.
  intros V1 V2 E. unfold export_filename in E.
  do 4 apply append_inv_head in E.
  apply append_same_length in E.
  - now apply strftime_compact_inj.
  - now rewrite !(strftime_compact_length).
Qed.

Ltac bind_inv H :=
  apply bind_ok_inv in H; destruct H as (? & ? & H); cbv beta zeta in H.

Lemma export_to_json_filename (x search_id : PyVal) (now : datetime) :
  export_to_json x search_id now
  = Ok (json_dumps 2 x, export_filename "property_search" search_id now ".json").
Proof. reflexivity. Qed.

Lemma export_to_csv_filename (rs : list PyVal) (search_id : PyVal) (now : datetime)
    (df : DataFrame) (filename : string) :
  export_to_csv rs search_id now = Ok (df, filename) ->
  filename = export_filename "property_search" search_id now ".csv".
Proof.
  unfold export_to_csv. intros H. apply reraise_ok_inv in H.
  destruct (is_empty rs); [discriminate H|].
  bind_inv H. now injection H as _ <-.
Qed.

Lemma export_to_excel_filename (rs : list PyVal) (search_metadata search_id : PyVal)
    (now : datetime) (wb : Workbook) (filename : string) :
  export_to_excel rs search_metadata search_id now = Ok (wb, filename) ->
  filename = export_filename "property_search" search_id now ".xlsx".
Proof.
  unfold export_to_excel. intros H. apply reraise_ok_inv in H.
  destruct (is_empty rs); [discriminate H|].
  do 4 bind_inv H. now injection H as _ <-.
Qed.

Lemma export_to_pdf_report_filename (str_title : string -> string)
    (rs : list PyVal) (search_metadata search_id : PyVal) (now : datetime)
    (content : list Flowable) (filename : string) :
  export_to_pdf_report str_title rs search_metadata search_id now
  = Ok (content, filename) ->
  filename = export_filename "property_report" search_id now ".pdf".
Proof.
  unfold export_to_pdf_report. intros H. apply reraise_ok_inv in H.
  destruct (is_empty rs); [discriminate H|].
  do 2 bind_inv H. now injection H as _ <-.
Qed.

Lemma export_filename_pattern (stem ext : string) (search_id : PyVal) (t : datetime) :
  export_filename stem search_id t ext
  = filename_pattern stem (search_id_text search_id) t ext.
Proof.
  unfold export_filename, filename_pattern, search_id_text, py_or.
  fold compact_format. rewrite strftime_compact, !append_assoc.
  now destruct (truthy search_id).
Qed.

Lemma export_filename_inj_ids (stem ext : string) (id1 id2 : PyVal)
    (t1 t2 : datetime) :
  valid_datetime t1 -> valid_datetime t2 ->
  export_filename stem id1 t1 ext = export_filename stem id2 t2 ext ->
  to_the_second t1 = to_the_second t2.
Proof.
  intros V1 V2 E. unfold export_filename in E. cbv zeta in E.
  do 2 apply append_inv_head in E.
  pose proof (f_equal String.length E) as Hlen.
  rewrite !length_append, !(strftime_compact_length) in Hlen.
  apply append_same_length in E; [|lia].
  destruct E as [_ E]. apply append_inv_head in E.
  apply append_same_length in E.
  - now apply strftime_compact_inj.
  - now rewrite !(strftime_compact_length).
Qed.

(** C9: for every pair of search identifiers, equal or not, and every
    format, two exports at clock readings at least one second apart produce
    distinct filenames, whatever the data exported; each filename follows its
    pattern [{stem}_{id}_{yyyyMMdd_HHmmss}{ext}], the identifier being the
    literal [export] when none is supplied. *)
Theorem export_filenames_distinct
    (search_id search_id' : PyVal) (t1 t2 : datetime)
    (V1 : valid_datetime t1) (V2 : valid_datetime t2)
    (Hapart : (1000000 <= Z.abs (timestamp_micros t1 - timestamp_micros t2))%Z) :
  (forall x x' p1 f1 p2 f2,
      export_to_json x search_id t1 = Ok (p1, f1) ->
      export_to_json x' search_id' t2 = Ok (p2, f2) -> f1 <> f2)
  /\ (forall rs rs' a1 f1 a2 f2,
         export_to_csv rs search_id t1 = Ok (a1, f1) ->
         export_to_csv rs' search_id' t2 = Ok (a2, f2) -> f1 <> f2)
  /\ (forall rs rs' meta meta' a1 f1 a2 f2,
         export_to_excel rs meta search_id t1 = Ok (a1, f1) ->
         export_to_excel rs' meta' search_id' t2 = Ok (a2, f2) -> f1 <> f2)
  /\ (forall str_title rs rs' meta meta' a1 f1 a2 f2,
         export_to_pdf_report str_title rs meta search_id t1 = Ok (a1, f1) ->
         export_to_pdf_report str_title rs' meta' search_id' t2 = Ok (a2, f2) ->
         f1 <> f2)
  /\ (forall x, exists payload,
         export_to_json x search_id t1
         = Ok (payload,
               filename_pattern "property_search" (search_id_text search_id) t1 ".json"))
  /\ (forall rs a f,
         export_to_csv rs search_id t1 = Ok (a, f) ->
         f = filename_pattern "property_search" (search_id_text search_id) t1 ".csv")
  /\ (forall rs meta a f,
         export_to_excel rs meta search_id t1 = Ok (a, f) ->
         f = filename_pattern "property_search" (search_id_text search_id) t1 ".xlsx")
  /\ (forall str_title rs meta a f,
         export_to_pdf_report str_title rs meta search_id t1 = Ok (a, f) ->
         f = filename_pattern "property_report" (search_id_text search_id) t1 ".pdf")
  /\ search_id_text PyNone = "export".
Proof.
  pose proof (one_second_apart t1 t2 V1 V2 Hapart) as Hne.
  assert (Hdistinct : forall stem ext,
             export_filename stem search_id t1 ext
             <> export_filename stem search_id' t2 ext).
  { intros stem ext E. apply Hne.
    now apply (export_filename_inj_ids stem ext search_id search_id'). }
  repeat split.
  - intros x x' p1 f1 p2 f2 E1 E2. rewrite export_to_json_filename in E1, E2.
    injection E1 as _ <-. injection E2 as _ <-. apply Hdistinct.
  - intros rs rs' a1 f1 a2 f2 E1 E2.
    apply export_to_csv_filename in E1, E2. subst. apply Hdistinct.
  - intros rs rs' meta meta' a1 f1 a2 f2 E1 E2.
    apply export_to_excel_filename in E1, E2. subst. apply Hdistinct.
  - intros str_title rs rs' meta meta' a1 f1 a2 f2 E1 E2.
    apply export_to_pdf_report_filename in E1, E2. subst. apply Hdistinct.
  - intros x. eexists. rewrite export_to_json_filename.
    now rewrite export_filename_pattern.
  - intros rs a f E. apply export_to_csv_filename in E.
    now rewrite export_filename_pattern in E.
  - intros rs meta a f E. apply export_to_excel_filename in E.
    now rewrite export_filename_pattern in E.
  - intros str_title rs meta a f E. apply export_to_pdf_report_filename in E.
    now rewrite export_filename_pattern in E.
Qed.

Lemma export_filenames_distinct_witness :
  valid_datetime sample_now /\ valid_datetime sample_later /\
  export_filename "property_search" PyNone sample_now ".json"
  = "property_search_export_20240307_090559.json" /\
  export_filename "property_search" (PyStr "s1") sample_later ".json"
  = "property_search_s1_20240307_090600.json" /\
  forall p1 f1 p2 f2,
    export_to_json main_street PyNone sample_now = Ok (p1, f1) ->
    export_to_json taxed_record (PyStr "s1") sample_later = Ok (p2, f2) -> f1 <> f2.
Proof.
  assert (V1 : valid_datetime sample_now) by (cbv; repeat split; discriminate).
  assert (V2 : valid_datetime sample_later) by (cbv; repeat split; discriminate).
  split; [exact V1|]. split; [exact V2|]. split; [reflexivity|].
  split; [reflexivity|].
  assert (Hapart : (1000000 <= Z.abs (timestamp_micros sample_now
                                       - timestamp_micros sample_later))%Z)
    by (cbv; intros H; discriminate H).
  exact (proj1 (export_filenames_distinct PyNone (PyStr "s1") sample_now sample_later
                  V1 V2 Hapart)
           main_street taxed_record).
Defined.

(** ** Report export: falsy values *)

Lemma dict_get_del (d : PyDictItems) (k k' : string) :
  dict_get (dict_del d k) k' = if k =? k' then None else dict_get d k'.
Proof.
  induction d as [|[k0 v0] d IH]; cbn [dict_del dict_get].
  - now destruct (k =? k').
  - destruct (String.eqb_spec k0 k) as [->|Hne].
    + rewrite IH. now destruct (k =? k').
    + cbn [dict_get]. rewrite IH.
      destruct (String.eqb_spec k0 k') as [->|_]; [|reflexivity].
      destruct (String.eqb_spec k k') as [->|_]; [contradiction | reflexivity].
Qed.

Lemma pdf_prop_data_falsy (d : PyDictItems) (key : string) (v : PyVal)
    (position : nat) (line : list PyVal) :
  In (key, (position, line)) pdf_tested_fields ->
  dict_get d key = Some v -> truthy v = false ->
  pdf_prop_data (PyDict d) = pdf_prop_data (PyDict (dict_del d key))
  /\ forall cells,
       pdf_prop_data (PyDict d) = Ok cells -> nth_error cells position = Some line.
Proof.
  intros Hin Hd Hv. unfold pdf_prop_data, yes_no. cbn [py_get bind].
  rewrite !dict_get_del.
  repeat (destruct Hin as [Hin|Hin]; [injection Hin as <- <- <-|]); try destruct Hin;
    cbn [String.eqb Ascii.eqb Bool.eqb]; rewrite Hd; cbv beta iota; rewrite Hv;
    cbn [bind truthy];
    (split; [reflexivity|]); intros cells H.
  - bind_inv H. now injection H as <-.
  - bind_inv H. now injection H as <-.
  - do 2 bind_inv H. now injection H as <-.
Qed.

Lemma mapM_enumerate_replace {B : Type} (f : Z * PyVal -> result B)
    (r r' : PyVal) (pre post : list PyVal) :
  (forall i, f (i, r) = f (i, r')) ->
  forall start,
    mapM f (enumerate start (pre ++ r :: post)%list)
    = mapM f (enumerate start (pre ++ r' :: post)%list).
Proof.
  intros Hf. induction pre as [|x pre IH]; intros start; cbn [app enumerate mapM].
  - now rewrite Hf.
  - now rewrite IH.
Qed.

(** C10: in the report export, a record whose [squareFootage] or
    [lastSalePrice] is present but falsy (the number 0, say) renders "N/A"
    in its row of the property table, and a falsy [ownerOccupied] renders
    "No": the whole report is the one produced for the same input with the
    field removed from that record. *)
Theorem pdf_falsy_field_renders_as_absent
    (str_title : string -> string) (pre post : list PyVal) (d : PyDictItems)
    (key : string) (v : PyVal) (position : nat) (line : list PyVal)
    (search_metadata search_id : PyVal) (now : datetime)
    (Hkey : In (key, (position, line)) pdf_tested_fields)
    (Hpresent : dict_get d key = Some v) (Hfalsy : truthy v = false) :
  export_to_pdf_report str_title (pre ++ PyDict d :: post)%list
    search_metadata search_id now
  = export_to_pdf_report str_title (pre ++ PyDict (dict_del d key) :: post)%list
      search_metadata search_id now
  /\ pdf_prop_data (PyDict d) = pdf_prop_data (PyDict (dict_del d key))
  /\ dict_get (dict_del d key) key = None
  /\ forall cells,
       pdf_prop_data (PyDict d) = Ok cells -> nth_error cells position = Some line.
Proof.
  destruct (pdf_prop_data_falsy d key v position line Hkey Hpresent Hfalsy)
    as [Hsame Hline].
  split; [|split; [exact Hsame|split; [|exact Hline]]].
  - unfold export_to_pdf_report.
    assert (Hlen : List.length (pre ++ PyDict d :: post)%list
                   = List.length (pre ++ PyDict (dict_del d key) :: post)%list)
      by (rewrite !length_app; reflexivity).
    assert (Hemp : is_empty (pre ++ PyDict d :: post)%list
                   = is_empty (pre ++ PyDict (dict_del d key) :: post)%list)
      by (now destruct pre).
    rewrite Hemp, Hlen.
    rewrite (mapM_enumerate_replace
               (pdf_property_section
                  (Z.of_nat (List.length (pre ++ PyDict (dict_del d key) :: post)%list)))
               (PyDict d) (PyDict (dict_del d key)) pre post); [reflexivity|].
    intros i. unfold pdf_property_section. now rewrite Hsame.
  - rewrite dict_get_del. now rewrite String.eqb_refl.
Qed.

Lemma pdf_falsy_field_renders_as_absent_witness :
  exists content filename,
    export_to_pdf_report (fun s => s)
      [PyDict [("formattedAddress", PyStr "1 Main St"); ("squareFootage", PyInt 0)]]
      PyNone PyNone sample_now
    = Ok (content, filename) /\
    export_to_pdf_report (fun s => s)
      [PyDict [("formattedAddress", PyStr "1 Main St")]] PyNone PyNone sample_now
    = Ok (content, filename) /\
    In (Table [[PyStr "Address"; PyStr "1 Main St"];
               [PyStr "Property Type"; PyStr "N/A"];
               [PyStr "Bedrooms"; PyStr "N/A"];
               [PyStr "Bathrooms"; PyStr "N/A"];
               [PyStr "Square Footage"; PyStr "N/A"];
               [PyStr "Year Built"; PyStr "N/A"];
               [PyStr "Last Sale Price"; PyStr "N/A"];
               [PyStr "Owner Occupied"; PyStr "No"]]) content.
Proof.
  pose proof (pdf_falsy_field_renders_as_absent (fun s => s) [] []
                [("formattedAddress", PyStr "1 Main St"); ("squareFootage", PyInt 0)]
                "squareFootage" (PyInt 0) 4 [PyStr "Square Footage"; PyStr "N/A"]
                PyNone PyNone sample_now
                (or_introl eq_refl) eq_refl eq_refl) as [E _].
  eexists _, _. split; [reflexivity|]. split.
  - etransitivity; [symmetry; exact E | reflexivity].
  - cbn. tauto.
Defined.

(** ** Pretty-printing: the encoder's text is the rendering of the lines *)

Section Pretty.
Variable ind : nat.

Lemma render_lines_app (a b : list Line) :
  render_lines ind (a ++ b)%list = render_lines ind a ++ render_lines ind b.
Proof.
  induction a as [|l a IH]; cbn [app render_lines]; [reflexivity|].
  now rewrite IH, !append_assoc.
Qed.

Lemma render_lines_cons (l : Line) (rest : list Line) :
  render_lines ind (l :: rest)
  = newline_indent ind (fst l) ++ snd l ++ render_lines ind rest.
Proof. reflexivity. Qed.

Lemma render_lines_suffix_last (lines : list Line) (suffix : string) :
  lines <> [] ->
  render_lines ind (suffix_last lines suffix) = render_lines ind lines ++ suffix.
Proof.
  induction lines as [|l [|l' rest] IH]; intros Hne; [congruence| |].
  - cbn [suffix_last render_lines fst snd]. now rewrite !append_nil_r, !append_assoc.
  - change (suffix_last (l :: l' :: rest) suffix)
      with (l :: suffix_last (l' :: rest) suffix).
    rewrite (render_lines_cons l (suffix_last (l' :: rest) suffix)).
    rewrite IH by discriminate.
    rewrite (render_lines_cons l (l' :: rest)). now rewrite !append_assoc.
Qed.

Lemma render_with_suffix (b : Block) (suffix : string) :
  render ind (with_suffix b suffix) = render ind b ++ suffix.
Proof.
  unfold render, with_suffix. destruct b as [first [|l rest]]; cbn [fst snd].
  - cbn [render_lines]. now rewrite !append_nil_r.
  - rewrite render_lines_suffix_last by discriminate. now rewrite append_assoc.
Qed.

Lemma render_with_prefix (prefix : string) (b : Block) :
  render ind (with_prefix prefix b) = prefix ++ render ind b.
Proof. unfold render, with_prefix. cbn [fst snd]. now rewrite append_assoc. Qed.

Lemma render_item_lines (depth : nat) (b : Block) (items : list Block) :
  render_lines ind (item_lines (S depth) (b :: items))
  = newline_indent ind (S depth)
    ++ join (item_sep ind depth) (map (render ind) (b :: items)).
Proof.
  revert b. induction items as [|b' items IH]; intros b.
  - cbn [item_lines render_lines map join fst snd]. reflexivity.
  - change (item_lines (S depth) (b :: b' :: items))
      with (((S depth, fst (with_suffix b ",")) :: snd (with_suffix b ","))
            ++ item_lines (S depth) (b' :: items))%list.
    rewrite render_lines_app, IH. cbn [render_lines fst snd].
    change (fst (with_suffix b ",") ++ render_lines ind (snd (with_suffix b ",")))
      with (render ind (with_suffix b ",")).
    rewrite render_with_suffix. cbn [map]. rewrite join_cons2.
    unfold item_sep. now rewrite !append_assoc.
Qed.

(** The encoder's output is the rendering of the pretty-printed value. *)
Lemma iterencode_pretty (v : PyVal) :
  forall depth, iterencode ind depth v = render ind (pretty depth v).
Proof.
  induction v as [| b | z | s | l IH | d IH] using PyVal_ind; intros depth.
  - reflexivity.
  - now destruct b.
  - unfold render. cbn [iterencode pretty fst snd render_lines].
    now rewrite append_nil_r.
  - unfold render. cbn [iterencode pretty fst snd render_lines].
    now rewrite append_nil_r.
  - destruct l as [|x t]; [reflexivity|].
    rewrite iterencode_list.
    change (pretty depth (PyList (x :: t)))
      with ("[", (item_lines (S depth) (map (pretty (S depth)) (x :: t))
                  ++ [(depth, "]")])%list).
    unfold render. cbn [fst snd]. rewrite render_lines_app.
    cbn [map]. rewrite render_item_lines. cbn [render_lines fst snd].
    rewrite append_nil_r, !append_assoc. do 2 f_equal.
    change (iterencode ind (S depth) x :: map (iterencode ind (S depth)) t)
      with (map (iterencode ind (S depth)) (x :: t)).
    change (pretty (S depth) x :: map (pretty (S depth)) t)
      with (map (pretty (S depth)) (x :: t)).
    rewrite map_map. f_equal. f_equal.
    apply map_ext_in. intros y Hy.
    revert y Hy. apply Forall_forall. revert IH.
    apply Forall_impl. intros y Hy. apply Hy.
  - destruct d as [|kv t]; [reflexivity|].
    rewrite iterencode_dict.
    change (pretty depth (PyDict (kv :: t)))
      with ("{", (item_lines (S depth)
                    (map (fun kv0 => with_prefix
                                       (encode_basestring_ascii (fst kv0) ++ ": ")
                                       (pretty (S depth) (snd kv0))) (kv :: t))
                  ++ [(depth, "}")])%list).
    unfold render. cbn [fst snd]. rewrite render_lines_app.
    cbn [map]. rewrite render_item_lines. cbn [render_lines fst snd].
    rewrite append_nil_r, !append_assoc. do 2 f_equal.
    change (with_prefix (encode_basestring_ascii (fst kv) ++ ": ")
              (pretty (S depth) (snd kv))
            :: map (fun kv0 => with_prefix
                                 (encode_basestring_ascii (fst kv0) ++ ": ")
                                 (pretty (S depth) (snd kv0))) t)
      with (map (fun kv0 => with_prefix
                              (encode_basestring_ascii (fst kv0) ++ ": ")
                              (pretty (S depth) (snd kv0))) (kv :: t)).
    change (encode_member ind depth kv :: map (encode_member ind depth) t)
      with (map (encode_member ind depth) (kv :: t)).
    rewrite map_map. f_equal. f_equal.
    apply map_ext_in. intros y Hy. rewrite render_with_prefix.
    unfold encode_member. rewrite append_assoc.
    assert (E : forall dpt, iterencode ind dpt (snd y) = render ind (pretty dpt (snd y)))
      by (exact (proj1 (Forall_forall _ _) IH y Hy)).
    now rewrite E.
Qed.
End Pretty.

(** *** The lines are lines *)

Lemma contains_append (c : ascii) (a b : string) :
  str_contains_char c (a ++ b) = str_contains_char c a || str_contains_char c b.
Proof.
  induction a as [|x a IH]; cbn [append str_contains_char]; [reflexivity|].
  destruct (Ascii.eqb c x); [reflexivity | exact IH].
Qed.

Lemma text_ok_append (a b : string) :
  text_ok a = true -> str_contains_char newline b = false -> text_ok (a ++ b) = true.
Proof.
  unfold text_ok. intros Ha Hb. apply andb_prop in Ha as [Hn Hc].
  rewrite contains_append, Hb, orb_false_r, Hn.
  destruct a as [|x a]; [discriminate Hc | exact Hc].
Qed.

Lemma text_ok_no_newline (t : string) :
  text_ok t = true -> str_contains_char newline t = false.
Proof.
  unfold text_ok. intros H. apply andb_prop in H as [H _].
  now destruct (str_contains_char newline t).
Qed.

Lemma json_escape_no_newline (s : string) :
  str_contains_char newline (json_escape s) = false.
Proof.
  induction s as [|c s IH]; cbn [json_escape]; [reflexivity|].
  rewrite contains_append, IH, orb_false_r.
  destruct c as [[] [] [] [] [] [] [] []]; reflexivity.
Qed.

Lemma encode_basestring_ascii_ok (s : string) :
  text_ok (encode_basestring_ascii s) = true.
Proof.
  unfold encode_basestring_ascii, text_ok. cbn [str_contains_char].
  change (Ascii.eqb newline dquote) with false. cbv beta iota.
  rewrite contains_append, json_escape_no_newline. reflexivity.
Qed.

Lemma digit_char_not_newline (d : N) :
  (d < 10)%N -> Ascii.eqb newline (digit_char d) = false.
Proof.
  intros H. apply Ascii.eqb_neq. intros E.
  apply (f_equal N_of_ascii) in E. rewrite N_of_digit_char in E by lia.
  change (N_of_ascii newline) with 10%N in E. lia.
Qed.

Lemma N_digits_no_newline (fuel : positive) :
  forall n acc,
    str_contains_char newline acc = false ->
    str_contains_char newline (N_digits fuel n acc) = false.
Proof.
  induction fuel as [f IH|f IH|]; intros n acc Hacc; cbn [N_digits]; cbv zeta;
    destruct (n <? 10)%N;
    try apply IH; cbn [str_contains_char];
    rewrite digit_char_not_newline by lia; exact Hacc.
Qed.

Lemma int_str_ok (z : Z) : text_ok (int_str z) = true.
Proof.
  unfold text_ok. apply andb_true_intro. split.
  - unfold int_str, N_str.
    destruct (z <? 0)%Z; cbn [str_contains_char];
      change (Ascii.eqb newline "-") with false; cbv beta iota;
      now rewrite N_digits_no_newline.
  - destruct (int_str_head z "") as (c & r & E & Hc).
    rewrite append_nil_r in E. rewrite E.
    destruct Hc as [Hc| ->]; [|reflexivity].
    destruct c as [[] [] [] [] [] [] [] []]; try discriminate Hc; reflexivity.
Qed.

Lemma suffix_last_ok (lines : list Line) :
  Forall (fun l => text_ok (snd l) = true) lines ->
  Forall (fun l => text_ok (snd l) = true) (suffix_last lines ",").
Proof.
  induction lines as [|l [|l' rest] IH]; intros H.
  - constructor.
  - inversion H; subst. constructor; [|constructor].
    cbn [snd]. now apply text_ok_append.
  - inversion H; subst.
    change (suffix_last (l :: l' :: rest) ",") with (l :: suffix_last (l' :: rest) ",").
    constructor; [assumption | now apply IH].
Qed.

Lemma with_suffix_ok (b : Block) : block_ok b -> block_ok (with_suffix b ",").
Proof.
  intros [Hf Hl]. unfold with_suffix, block_ok.
  destruct b as [first [|l rest]]; cbn [fst snd] in *.
  - split; [now apply text_ok_append | constructor].
  - split; [exact Hf | now apply suffix_last_ok].
Qed.

Lemma item_lines_ok (depth : nat) (items : list Block) :
  Forall block_ok items ->
  Forall (fun l => text_ok (snd l) = true) (item_lines depth items).
Proof.
  induction items as [|b [|b' rest] IH]; intros H.
  - constructor.
  - inversion H as [|? ? [Hf Hl] _]; subst. cbn [item_lines]. now constructor.
  - inversion H as [|? ? Hb Hrest]; subst.
    change (item_lines depth (b :: b' :: rest))
      with (((depth, fst (with_suffix b ",")) :: snd (with_suffix b ","))
            ++ item_lines depth (b' :: rest))%list.
    destruct (with_suffix_ok b Hb) as [Hf Hl].
    apply Forall_app. split; [now constructor | now apply IH].
Qed.

Lemma with_prefix_ok (key : string) (b : Block) :
  block_ok b -> block_ok (with_prefix (encode_basestring_ascii key ++ ": ") b).
Proof.
  intros [Hf Hl]. unfold with_prefix, block_ok. cbn [fst snd]. split; [|exact Hl].
  rewrite append_assoc. apply text_ok_append; [apply encode_basestring_ascii_ok|].
  cbn [append str_contains_char]. change (Ascii.eqb newline ":") with false.
  change (Ascii.eqb newline " ") with false. cbv beta iota.
  now apply text_ok_no_newline.
Qed.

Lemma pretty_ok (v : PyVal) : forall depth, block_ok (pretty depth v).
Proof.
  induction v as [| b | z | s | l IH | d IH] using PyVal_ind; intros depth.
  - split; [reflexivity | constructor].
  - destruct b; (split; [reflexivity | constructor]).
  - split; [apply int_str_ok | constructor].
  - split; [apply encode_basestring_ascii_ok | constructor].
  - destruct l as [|x t]; [split; [reflexivity | constructor]|].
    split; [reflexivity|]. cbn [pretty snd].
    apply Forall_app. split; [|now repeat constructor].
    apply item_lines_ok. apply Forall_map. revert IH. apply Forall_impl.
    intros y Hy. apply Hy.
  - destruct d as [|kv t]; [split; [reflexivity | constructor]|].
    split; [reflexivity|]. cbn [pretty snd].
    apply Forall_app. split; [|now repeat constructor].
    apply item_lines_ok. apply Forall_map. revert IH. apply Forall_impl.
    intros y Hy. apply with_prefix_ok, Hy.
Qed.

(** ** C5 *)


Lemma sample_record_wf : wf_val sample_record.
Proof.
  cbn. repeat split; try apply NoDup_by_nodup; reflexivity.
Defined.


(** * Further properties of the module and of the pages that call it *)

(** ** The inputs on which the exports return *)

(** X1: [export_to_csv] returns exactly on the non-empty sequences of
    mappings whose [owner] is absent, falsy or a mapping with absent, falsy
    or joinable [names], and whose [features] is absent, falsy or a mapping;
    on every other input it raises. *)
Theorem export_to_csv_returns_iff
    (rs : list PyVal) (search_id : PyVal) (now : datetime) :
  (exists df filename, export_to_csv rs search_id now = Ok (df, filename))
  <-> rs <> [] /\ forallb csv_record_ok rs = true.
Proof.
  split.
  - intros (df & filename & H).
    apply export_to_csv_ok_inv in H as (Hne & rows & Hrows & _).
    split; [exact Hne|]. apply forallb_forall. intros r Hr.
    apply normalizes_iff.
    destruct (In_nth_error _ _ Hr) as [i Hi].
    destruct (Forall2_nth_error_l _ _ _ Hrows i r Hi) as (row & _ & Hrow).
    now exists row.
  - intros [Hne Hok].
    destruct (export_to_csv_ok rs search_id now Hne) as (rows & _ & E).
    + apply Forall_forall. intros r Hr. apply normalizes_iff.
      exact (proj1 (forallb_forall _ _) Hok r Hr).
    + eexists _, _. exact E.
Qed.

Lemma pdf_prop_data_ok_iff (r : PyVal) :
  (exists cells, pdf_prop_data r = Ok cells) <-> pdf_record_ok r = true.
Proof.
  destruct r as [| b | z | s | l | d];
    try (split; [intros [cells H]; discriminate H | discriminate]).
  unfold pdf_prop_data, pdf_record_ok, commas_ok. cbn [py_get bind].
  destruct (dict_get d "squareFootage") as [sq|]; cbn [truthy bind].
  - destruct (truthy sq); cbn [negb orb bind].
    + destruct sq; cbn [format_commas formats_with_commas bind andb];
        try (split; [intros [cells H]; discriminate H | discriminate]);
        (destruct (dict_get d "lastSalePrice") as [pr|]; cbn [truthy bind];
         [ destruct (truthy pr); cbn [negb orb bind];
           [ destruct pr; cbn [format_commas formats_with_commas bind];
             try (split; [intros [cells H]; discriminate H | discriminate]);
             (split; [reflexivity | now eexists])
           | split; [reflexivity | now eexists] ]
         | split; [reflexivity | now eexists] ]).
    + destruct (dict_get d "lastSalePrice") as [pr|]; cbn [truthy bind];
        [ destruct (truthy pr); cbn [negb orb bind];
          [ destruct pr; cbn [format_commas formats_with_commas bind];
            try (split; [intros [cells H]; discriminate H | discriminate]);
            (split; [reflexivity | now eexists])
          | split; [reflexivity | now eexists] ]
        | split; [reflexivity | now eexists] ].
  - destruct (dict_get d "lastSalePrice") as [pr|]; cbn [truthy bind];
      [ destruct (truthy pr); cbn [negb orb bind];
        [ destruct pr; cbn [format_commas formats_with_commas bind];
          try (split; [intros [cells H]; discriminate H | discriminate]);
          (split; [reflexivity | now eexists])
        | split; [reflexivity | now eexists] ]
      | split; [reflexivity | now eexists] ].
Qed.

Lemma pdf_property_section_ok_iff (total : Z) (i : Z) (r : PyVal) :
  (exists section, pdf_property_section total (i, r) = Ok section)
  <-> pdf_record_ok r = true.
Proof.
  rewrite <- pdf_prop_data_ok_iff. unfold pdf_property_section. split.
  - intros [section H]. destruct (pdf_prop_data r) as [cells|e]; [|discriminate H].
    now exists cells.
  - intros [cells H]. rewrite H. cbn [bind]. now eexists.
Qed.

Lemma mapM_enumerate_ok_iff {B : Type} (f : Z * PyVal -> result B)
    (ok : PyVal -> bool) (rs : list PyVal) :
  (forall i r, (exists y, f (i, r) = Ok y) <-> ok r = true) ->
  forall start,
    (exists ys, mapM f (enumerate start rs) = Ok ys) <-> forallb ok rs = true.
Proof.
  intros Hf. induction rs as [|r rs IH]; intros start; cbn [enumerate mapM forallb].
  - split; [reflexivity | now eexists].
  - rewrite andb_true_iff, <- (Hf start r), <- (IH (start + 1)%Z). split.
    + intros [ys H]. destruct (f (start, r)) as [y|e]; [|discriminate H].
      cbn [bind] in H.
      destruct (mapM f (enumerate (start + 1) rs)) as [ys'|e]; [|discriminate H].
      split; now eexists.
    + intros [[y Hy] [ys Hys]]. rewrite Hy, Hys. cbn [bind]. now eexists.
Qed.



(** ** The JSON payload is plain ASCII *)

Lemma all_chars_append (p : ascii -> bool) (a b : string) :
  all_chars p (a ++ b) = all_chars p a && all_chars p b.
Proof.
  induction a as [|c a IH]; cbn [append all_chars]; [reflexivity|].
  now rewrite IH, andb_assoc.
Qed.

Lemma all_chars_join (p : ascii -> bool) (sep : string) (parts : list string) :
  all_chars p sep = true -> Forall (fun s => all_chars p s = true) parts ->
  all_chars p (join sep parts) = true.
Proof.
  intros Hsep H. induction H as [|s [|s' parts] Hs Hrest IH].
  - reflexivity.
  - exact Hs.
  - rewrite join_cons2, !all_chars_append, Hs, Hsep. exact IH.
Qed.

Lemma plain_ascii_digit (d : N) : (d < 10)%N -> plain_ascii (digit_char d) = true.
Proof.
  intros H. unfold plain_ascii. rewrite N_of_digit_char by exact H.
  apply orb_true_intro. right. apply andb_true_intro.
  split; apply N.leb_le; lia.
Qed.

Lemma N_digits_plain (fuel : positive) :
  forall n acc,
    all_chars plain_ascii acc = true ->
    all_chars plain_ascii (N_digits fuel n acc) = true.
Proof.
  induction fuel as [f IH|f IH|]; intros n acc Hacc; cbn [N_digits]; cbv zeta;
    destruct (n <? 10)%N;
    try apply IH; cbn [all_chars];
    rewrite plain_ascii_digit by lia; exact Hacc.
Qed.

Lemma int_str_plain (z : Z) : all_chars plain_ascii (int_str z) = true.
Proof.
  unfold int_str, N_str.
  destruct (z <? 0)%Z; cbn [all_chars]; now rewrite ?N_digits_plain.
Qed.

Lemma json_escape_plain (s : string) :
  all_chars plain_ascii (json_escape s) = true.
Proof.
  induction s as [|c s IH]; cbn [json_escape]; [reflexivity|].
  rewrite all_chars_append, IH, andb_true_r.
  destruct c as [[] [] [] [] [] [] [] []]; reflexivity.
Qed.

Lemma encode_basestring_ascii_plain (s : string) :
  all_chars plain_ascii (encode_basestring_ascii s) = true.
Proof.
  unfold encode_basestring_ascii. cbn [all_chars].
  now rewrite all_chars_append, json_escape_plain.
Qed.

Lemma newline_indent_plain (ind lvl : nat) :
  all_chars plain_ascii (newline_indent ind lvl) = true.
Proof.
  unfold newline_indent. cbn [all_chars]. generalize (ind * lvl).
  intros n. induction n as [|n IH]; [reflexivity | exact IH].
Qed.

Lemma iterencode_plain (ind : nat) (v : PyVal) :
  forall lvl, all_chars plain_ascii (iterencode ind lvl v) = true.
Proof.
  induction v as [| b | z | s | l IH | d IH] using PyVal_ind; intros lvl.
  - reflexivity.
  - now destruct b.
  - apply int_str_plain.
  - apply encode_basestring_ascii_plain.
  - destruct l as [|x t]; [reflexivity|].
    rewrite iterencode_list, !all_chars_append, !newline_indent_plain.
    rewrite all_chars_join; [reflexivity | | ].
    + unfold item_sep. cbn [append all_chars]. apply newline_indent_plain.
    + apply Forall_map. revert IH. apply Forall_impl. intros y Hy. apply Hy.
  - destruct d as [|kv t]; [reflexivity|].
    rewrite iterencode_dict, !all_chars_append, !newline_indent_plain.
    rewrite all_chars_join; [reflexivity | | ].
    + unfold item_sep. cbn [append all_chars]. apply newline_indent_plain.
    + apply Forall_map. revert IH. apply Forall_impl. intros y Hy.
      unfold encode_member.
      now rewrite !all_chars_append, encode_basestring_ascii_plain, Hy.
Qed.

(** X4: whatever characters the exported strings hold, the payload of
    [export_to_json] is plain ASCII: every character of it is a newline or a
    printable ASCII character, everything else being escaped. *)
Theorem export_to_json_payload_is_ascii
    (x search_id : PyVal) (now : datetime) :
  exists payload filename,
    export_to_json x search_id now = Ok (payload, filename) /\
    all_chars plain_ascii payload = true.
Proof.
  eexists _, _. split; [reflexivity|]. apply iterencode_plain.
Qed.

(** ** Cells of the tabular export *)

Lemma dict_get_None_iff (row : Row) (k : string) :
  dict_get row k = None <-> ~ In k (map fst row).
Proof.
  induction row as [|[k' v] row IH]; cbn [dict_get map fst In].
  - tauto.
  - destruct (String.eqb_spec k' k) as [->|Hne].
    + split; [discriminate | tauto].
    + rewrite IH. tauto.
Qed.

Lemma cell_in_Missing (column : list (option PyVal)) (value : option PyVal) :
  cell_in column value = Missing <-> value = None.
Proof.
  destruct value as [[| b | n | s | l | d]|]; cbn [cell_in];
    try (split; intros H; discriminate H); [|tauto].
  destruct (converts_to_float column); split; intros H; discriminate H.
Qed.

Lemma held_None_iff (o : option PyVal) :
  held o = None <-> o = None \/ o = Some PyNone.
Proof.
  destruct o as [[| b | n | s | l | d]|]; cbn [held];
    try (split; [intros H; discriminate H | intros [H|H]; discriminate H]);
    tauto.
Qed.

(** X5: in the tabular export of records whose integers fit in 64 bits, a
    cell is missing, and blank in the text written, exactly when its column
    is one of the six feature columns and its record carries no non-empty
    [features], or the field of the normalized record is [None]. *)
Theorem csv_blank_cells
    (rs : list PyVal) (search_id : PyVal) (now : datetime)
    (df : DataFrame) (filename : string)
    (Hok : export_to_csv rs search_id now = Ok (df, filename))
    (Hfit : forallb ints_fit rs = true) :
  forall i r cells j c,
    nth_error rs i = Some r ->
    nth_error (cells_of df) i = Some cells ->
    nth_error (columns df) j = Some c ->
    exists cell,
      nth_error cells j = Some cell /\
      (cell = Missing
       <-> (In c csv_feature_columns /\ has_features r = false)
           \/ exists row, csv_row r = Ok row /\ dict_get row c = Some PyNone).
Proof.
  apply export_to_csv_ok_inv in Hok as (Hne & rows & Hrows & ->).
  pose proof (csv_columns rs rows Hne Hrows) as Hcols.
  intros i r cells j c Hi Hcells Hc.
  destruct (Forall2_nth_error_l _ _ _ Hrows i r Hi) as (row & Hrow & Er).
  rewrite cells_of_DataFrame_of in Hcells.
  cbn [DataFrame_of columns] in Hcells, Hc.
  unfold Row, PyDictItems in *.
  rewrite nth_error_map, Hrow in Hcells. injection Hcells as <-.
  eexists. split.
  - unfold row_cells. now rewrite nth_error_map, Hc.
  - rewrite cell_in_Missing, held_None_iff.
    assert (Habsent : dict_get row c = None
                      <-> In c csv_feature_columns /\ has_features r = false).
    { rewrite dict_get_None_iff, (csv_row_keys r row Er).
      rewrite Hcols in Hc. apply nth_error_In in Hc.
      assert (Hdisjoint : In c csv_base_columns -> ~ In c csv_feature_columns).
      { intros Hb Hf. revert Hb. cbn in Hf.
        repeat (destruct Hf as [<-|Hf];
                [cbn; intros Hb;
                 repeat (destruct Hb as [Hb|Hb]; [discriminate Hb|]); exact Hb|]).
        destruct Hf. }
      unfold csv_keys in Hc |- *.
      destruct (has_features r), (existsb has_features rs);
        rewrite in_app_iff in Hc |- *; cbn [In] in Hc |- *;
        (split; [tauto | intros [Hf H]; try discriminate H; tauto]). }
    rewrite Habsent. split.
    + intros [H|H]; [now left | right; now exists row].
    + intros [H|(row' & Er' & H)]; [now left | right].
      rewrite Er in Er'. now injection Er' as ->.
Qed.

Lemma csv_blank_cells_witness :
  exists df filename cells cells',
    export_to_csv [PyDict [("city", PyNone)]; garage_record] PyNone sample_now
    = Ok (df, filename) /\
    nth_error (cells_of df) 0 = Some cells /\
    nth_error cells 23 = Some Missing /\
    nth_error cells 1 = Some Missing /\
    nth_error (cells_of df) 1 = Some cells' /\
    nth_error cells' 1 = Some (Kept NA).
Proof.
  assert (E : exists df,
             export_to_csv [PyDict [("city", PyNone)]; garage_record] PyNone sample_now
             = Ok (df, "property_search_export_20240307_090559.csv")).
  { eexists. reflexivity. }
  destruct E as (df & E).
  destruct (nth_error (cells_of df) 0) as [cells|] eqn:Hcells;
    [|injection E as <-; discriminate Hcells].
  destruct (csv_blank_cells _ _ _ _ _ E eq_refl
              0%nat (PyDict [("city", PyNone)]) cells 23%nat "Garage Spaces"
              eq_refl Hcells) as (cell & Hcell & Hiff).
  { injection E as <-. reflexivity. }
  destruct (csv_blank_cells _ _ _ _ _ E eq_refl
              0%nat (PyDict [("city", PyNone)]) cells 1%nat "City"
              eq_refl Hcells) as (cell1 & Hcell1 & Hiff1).
  { injection E as <-. reflexivity. }
  exists df. eexists _, cells, _. split; [exact E|]. split; [exact Hcells|].
  split.
  { rewrite Hcell. f_equal. apply Hiff. left. split; [cbn; tauto | reflexivity]. }
  split.
  { rewrite Hcell1. f_equal. apply Hiff1. right. eexists. split; reflexivity. }
  injection E as <-. split; reflexivity.
Defined.

Lemma join_items_strs (l : list string) :
  forall i, join_items i (map PyStr l) = Ok l.
Proof.
  induction l as [|s l IH]; intros i; cbn [map join_items]; [reflexivity|].
  now rewrite IH.
Qed.

Ltac read_owner_cell Hrow :=
  destruct (truthy (default_to (PyBool false) (dict_get _ "features")));
  invert_ok; reflexivity.



(** ** The [Search Info] sheet and the order of the sheets *)

Lemma search_info_frame (items : PyDictItems) :
  items <> [] ->
  DataFrame_of (map metadata_row items) = frame ["Field"; "Value"] (map metadata_cells items).
Proof.
  intros Hne.
  rewrite <- (DataFrame_of_uniform ["Field"; "Value"] (map metadata_cells items)).
  - now rewrite map_map.
  - now apply NoDup_by_nodup.
  - now destruct items.
  - apply Forall_forall. intros c Hin. now apply in_map_iff in Hin as (q & <- & _).
Qed.

Lemma excel_workbook_search_info (rs : list PyVal) (search_metadata : PyVal) :
  get_sheet (excel_workbook rs search_metadata) "Search Info"
  = (if truthy search_metadata
     then Some (DataFrame_of (map metadata_row (items_of search_metadata)))
     else None)
  /\ has_sheet (excel_workbook rs search_metadata) "Search Info" = truthy search_metadata.
Proof.
  unfold excel_workbook, sheet_if.
  destruct (is_empty _), (is_empty _), (truthy search_metadata); split; reflexivity.
Qed.

Lemma truthy_metadata_items (search_metadata : PyVal) :
  excel_metadata_ok search_metadata = true -> truthy search_metadata = true ->
  exists items, search_metadata = PyDict items /\ items <> [].
Proof.
  unfold excel_metadata_ok. intros Hok Ht. rewrite Ht in Hok.
  destruct search_metadata as [| | | | |items]; try discriminate Hok.
  exists items. split; [reflexivity|]. now destruct items.
Qed.

(** X7: a workbook that [export_to_excel] returns holds the [Search Info]
    sheet exactly when the metadata is truthy; the metadata is then a
    non-empty mapping and the sheet has the two columns Field and Value and
    one row per entry, in the mapping's order: the key and [str] of the
    value. *)
Theorem excel_search_info_sheet
    (rs : list PyVal) (search_metadata search_id : PyVal) (now : datetime)
    (wb : Workbook) (filename : string)
    (Hok : export_to_excel rs search_metadata search_id now = Ok (wb, filename)) :
  has_sheet wb "Search Info" = truthy search_metadata /\
  (truthy search_metadata = true ->
   exists items df,
     search_metadata = PyDict items /\ items <> [] /\
     get_sheet wb "Search Info" = Some df /\
     columns df = ["Field"; "Value"] /\
     data df = map (fun item => [Some (PyStr (fst item));
                                 Some (PyStr (py_str (snd item)))]) items).
Proof.
  apply export_to_excel_ok_inv in Hok as (_ & _ & Hmeta & -> & _).
  destruct (excel_workbook_search_info rs search_metadata) as [Hget Hhas].
  split; [exact Hhas|]. intros Ht.
  destruct (truthy_metadata_items _ Hmeta Ht) as (items & -> & Hne).
  exists items, (frame ["Field"; "Value"] (map metadata_cells items)).
  split; [reflexivity|]. split; [exact Hne|].
  rewrite Hget, Ht. cbn [items_of]. rewrite (search_info_frame items Hne).
  split; [reflexivity|]. split; [reflexivity|].
  cbn [frame data]. now rewrite map_map.
Qed.

Lemma excel_search_info_sheet_witness :
  exists wb filename df,
    export_to_excel [main_street] sample_metadata PyNone sample_now = Ok (wb, filename) /\
    get_sheet wb "Search Info" = Some df /\
    data df = [[Some (PyStr "export_type"); Some (PyStr "bulk_download")];
               [Some (PyStr "total_searches"); Some (PyStr "3")]].
Proof.
  eexists _, _, _. split; [reflexivity|].
  destruct (proj2 (excel_search_info_sheet [main_street] sample_metadata PyNone
                     sample_now _ _ eq_refl) eq_refl)
    as (items & df & Hitems & _ & Hget & _ & Hdata).
  injection Hitems as <-. injection Hget as <-. split; reflexivity.
Defined.

(** X8: the sheets of a workbook that [export_to_excel] returns are, in this
    order, Properties, Tax Assessments, Property Taxes and Search Info, each
    at most once and Properties always. *)
Theorem workbook_sheet_order
    (rs : list PyVal) (search_metadata search_id : PyVal) (now : datetime)
    (wb : Workbook) (filename : string)
    (Hok : export_to_excel rs search_metadata search_id now = Ok (wb, filename)) :
  map fst wb = filter (has_sheet wb) sheet_order /\
  NoDup (map fst wb) /\
  hd_error (map fst wb) = Some "Properties".
Proof.
  apply export_to_excel_ok_inv in Hok as (_ & _ & _ & -> & _).
  unfold excel_workbook, sheet_if.
  destruct (is_empty _), (is_empty _), (truthy search_metadata);
    (split; [reflexivity|]); (split; [|reflexivity]);
    now apply NoDup_by_nodup.
Qed.

Lemma workbook_sheet_order_witness :
  exists wb filename,
    export_to_excel [taxed_record] sample_metadata PyNone sample_now = Ok (wb, filename) /\
    map fst wb = ["Properties"; "Tax Assessments"; "Search Info"].
Proof.
  eexists _, _. split; [reflexivity|].
  rewrite (proj1 (workbook_sheet_order [taxed_record] sample_metadata PyNone
                    sample_now _ _ eq_refl)).
  reflexivity.
Defined.

(** ** The pages' helpers and the summary *)

Lemma get_export_summary_nested (d pd : PyDictItems) (now now_handler : datetime) :
  dict_get d "property_data" = Some (PyDict pd) ->
  get_export_summary (PyDict d) now now_handler
  = summary_of (strftime now iso_format)
      (results_count (dict_get pd "results"))
      (default_to NA (dict_get pd "address"))
      (default_to NA (dict_get pd "search_timestamp")).
Proof.
  intros Hpd. unfold get_export_summary, summary_body.
  rewrite Hpd. cbn [py_contains py_getitem bind]. unfold dict_has.
  destruct (dict_get pd "address") as [a|];
    destruct (dict_get pd "search_timestamp") as [t|];
    destruct (dict_get pd "results") as [[| | | | l |]|]; reflexivity.
Qed.

Lemma find_results_direct (d : PyDictItems) (v : PyVal) :
  dict_get d "results" = Some v -> find_results (PyDict d) = Ok (Some v).
Proof.
  intros H. unfold find_results, dict_has. rewrite H.
  cbn [py_getitem bind]. now rewrite H.
Qed.

Lemma find_results_nested (d inner : PyDictItems) (v : PyVal) :
  dict_get d "results" = None ->
  dict_get d "property_data" = Some (PyDict inner) ->
  dict_get inner "results" = Some v ->
  find_results (PyDict d) = Ok (Some v).
Proof.
  intros Hnone Hinner H. unfold find_results, dict_has.
  rewrite Hnone, Hinner. cbn [py_getitem py_contains bind]. rewrite Hinner.
  cbn [py_getitem py_contains bind]. unfold dict_has. rewrite H.
  reflexivity.
Qed.

(** X9: on the downloads page, for a stored search whose [property_data] is
    a mapping that holds the list of results, the records exported are that
    list and the workbook built with the search's summary as metadata holds
    a [Search Info] sheet of four rows (Export Date, Total Properties,
    Search Address, Search Date) whose Total Properties is the number of
    rows of the [Properties] sheet. *)
Theorem downloads_workbook_summary
    (selected_search pd : PyDictItems) (rs : list PyVal) (search_id : PyVal)
    (now now_handler t : datetime) (wb : Workbook) (filename : string)
    (Hpd : dict_get selected_search "property_data" = Some (PyDict pd))
    (Hrs : dict_get pd "results" = Some (PyList rs))
    (Hok : export_to_excel rs
             (PyDict (get_export_summary (PyDict selected_search) now now_handler))
             search_id t = Ok (wb, filename)) :
  get_property_results (page_property_data selected_search) = PyList rs /\
  exists properties info,
    get_sheet wb "Properties" = Some properties /\
    List.length (data properties) = List.length rs /\
    get_sheet wb "Search Info" = Some info /\
    columns info = ["Field"; "Value"] /\
    data info
    = map (map Some)
        [[PyStr "Export Date"; PyStr (strftime now iso_format)];
         [PyStr "Total Properties";
          PyStr (int_str (Z.of_nat (List.length (data properties))))];
         [PyStr "Search Address"; PyStr (py_str (default_to NA (dict_get pd "address")))];
         [PyStr "Search Date";
          PyStr (py_str (default_to NA (dict_get pd "search_timestamp")))]].
Proof.
  split.
  - unfold page_property_data, get_property_results. rewrite Hpd. cbn [default_to].
    now rewrite (find_results_direct pd _ Hrs).
  - apply export_to_excel_ok_inv in Hok as (_ & _ & _ & -> & _).
    rewrite (get_export_summary_nested _ _ now now_handler Hpd), Hrs.
    destruct (excel_workbook_sheets rs
                (PyDict (summary_of (strftime now iso_format)
                           (results_count (Some (PyList rs)))
                           (default_to NA (dict_get pd "address"))
                           (default_to NA (dict_get pd "search_timestamp")))))
      as (Hprops & _).
    destruct (excel_workbook_search_info rs
                (PyDict (summary_of (strftime now iso_format)
                           (results_count (Some (PyList rs)))
                           (default_to NA (dict_get pd "address"))
                           (default_to NA (dict_get pd "search_timestamp")))))
      as (Hinfo & _).
    eexists _, _. split; [exact Hprops|].
    cbn [frame data]. rewrite !length_map. split; [reflexivity|].
    split; [exact Hinfo|]. split; reflexivity.
Qed.

Lemma downloads_workbook_summary_witness :
  exists wb filename info,
    export_to_excel [main_street; taxed_record]
      (PyDict (get_export_summary (PyDict saved_search) sample_now sample_now))
      (PyStr "s1") sample_later = Ok (wb, filename) /\
    get_sheet wb "Search Info" = Some info /\
    nth_error (data info) 1
    = Some [Some (PyStr "Total Properties"); Some (PyStr "2")].
Proof.
  destruct (proj2 (downloads_workbook_summary saved_search _ [main_street; taxed_record]
                     (PyStr "s1") sample_now sample_now sample_later _ _
                     eq_refl eq_refl eq_refl))
    as (properties & info & Hprops & Hlen & Hinfo & _ & Hdata).
  eexists _, _, info. split; [reflexivity|].
  split; [exact Hinfo|]. rewrite Hdata, Hlen. reflexivity.
Defined.

(** X10: the count the saved-searches page shows ([get_property_count]) is
    the length of the results the downloads page exports
    ([get_property_results]) whenever those have a length; when they have
    none the count is 0. *)
Theorem property_count_matches_results (search_data : PyVal) :
  (forall n, py_len (get_property_results search_data) = Ok n ->
             get_property_count search_data = n)
  /\ (forall e, py_len (get_property_results search_data) = Raise e ->
                get_property_count search_data = 0%Z).
Proof.
  unfold get_property_results, get_property_count.
  destruct (find_results search_data) as [[results|]|e0]; cbn [bind].
  - split.
    + intros n Hn. now rewrite Hn.
    + intros e He. now rewrite He.
  - split; [intros n Hn; now injection Hn | discriminate].
  - split; [intros n Hn; now injection Hn | discriminate].
Qed.

(** X11: for a stored search whose [property_data] is a mapping, the address
    and the count the pages show agree with the summary when the mapping
    itself holds [address] and the list of [results].  Results found one
    level further down ([property_data.property_data.results]) are exported
    and counted by the pages while the summary reports 0 properties; without
    an [address] the summary says "N/A". *)
Theorem page_preview_and_summary
    (selected_search pd : PyDictItems) (now now_handler : datetime)
    (Hpd : dict_get selected_search "property_data" = Some (PyDict pd)) :
  let summary := get_export_summary (PyDict selected_search) now now_handler in
  (forall rs,
      dict_get pd "results" = Some (PyList rs) ->
      get_property_results (PyDict pd) = PyList rs /\
      get_property_count (PyDict pd) = Z.of_nat (List.length rs) /\
      dict_get summary "Total Properties" = Some (PyInt (Z.of_nat (List.length rs))))
  /\ (forall address,
         dict_get pd "address" = Some address ->
         get_search_address (PyDict pd) = address /\
         dict_get summary "Search Address" = Some address)
  /\ (forall inner rs,
         dict_get pd "results" = None ->
         dict_get pd "property_data" = Some (PyDict inner) ->
         dict_get inner "results" = Some (PyList rs) ->
         get_property_results (PyDict pd) = PyList rs /\
         get_property_count (PyDict pd) = Z.of_nat (List.length rs) /\
         dict_get summary "Total Properties" = Some (PyInt 0))
  /\ (dict_get pd "address" = None ->
      dict_get summary "Search Address" = Some NA).
Proof.
  intros summary. subst summary.
  rewrite (get_export_summary_nested _ _ now now_handler Hpd).
  split; [|split; [|split]].
  - intros rs Hrs. unfold get_property_results, get_property_count.
    rewrite (find_results_direct pd _ Hrs), Hrs. repeat split.
  - intros address Ha. unfold get_search_address, get_search_address_body, dict_has.
    rewrite Ha. cbn [py_getitem]. rewrite Ha. repeat split.
  - intros inner rs Hnone Hinner Hrs.
    unfold get_property_results, get_property_count.
    rewrite (find_results_nested pd inner _ Hnone Hinner Hrs), Hnone. repeat split.
  - intros Ha. now rewrite Ha.
Qed.

Lemma page_preview_and_summary_witness :
  get_search_address (page_property_data saved_search) = PyStr "1 Main St" /\
  dict_get (get_export_summary (PyDict saved_search) sample_now sample_now)
    "Search Address" = Some (PyStr "1 Main St").
Proof.
  exact (proj1 (proj2 (page_preview_and_summary saved_search _ sample_now sample_now
                         eq_refl))
           (PyStr "1 Main St") eq_refl).
Defined.

(** X12: [safe_get] returns the value stored under the key, or the default;
    it returns the default for every [data] that is not a mapping, and it
    never returns [None] or the empty string unless the default is one of
    the two. *)
Theorem safe_get_never_blank (data : PyVal) (key : string) (default : PyVal) :
  (safe_get data key default = default
   \/ dict_get (items_of data) key = Some (safe_get data key default))
  /\ (is_dict data = false -> safe_get data key default = default)
  /\ (is_blank (safe_get data key default) = true -> is_blank default = true).
Proof.
  unfold safe_get.
  destruct data as [| | | | |d]; cbn [py_get items_of is_dict];
    try (split; [now left | split; [reflexivity | tauto]]).
  destruct (dict_get d key) as [v|].
  - destruct (is_blank v) eqn:Hv.
    + split; [now left | split; [discriminate | tauto]].
    + split; [now right | split; [discriminate | congruence]].
  - destruct (is_blank default) eqn:Hd.
    + split; [now left | split; [discriminate | tauto]].
    + split; [now left | split; [discriminate | congruence]].
Qed.

(** ** The layout of the report *)

Lemma prefix_empty (s : string) : String.prefix "" s = true.
Proof. now destruct s. Qed.

Lemma not_heading_found (s : string) :
  is_section_heading (Paragraph ("Properties Found: " ++ s) CustomHeading) = false.
Proof. reflexivity. Qed.

Lemma last_cons_nonempty {A : Type} (x : A) (l : list A) (d : A) :
  l <> [] -> last (x :: l) d = last l d.
Proof. destruct l; [congruence | reflexivity]. Qed.

Lemma pdf_sections_layout (total : Z) (rs : list PyVal) :
  forall k sections,
    (1 <= k)%Z -> (k + Z.of_nat (List.length rs) = total + 1)%Z ->
    mapM (pdf_property_section total) (enumerate k rs) = Ok sections ->
    List.length (filter is_table (concat sections)) = List.length rs
    /\ Z.of_nat (List.length (filter is_page_gap (concat sections)))
       = Z.max 0 ((total - 1) / 2 - (k - 1) / 2)
    /\ filter is_section_heading (concat sections)
       = map (fun entry => section_heading (fst entry)) (enumerate k rs)
    /\ (rs <> [] -> forall d, last (concat sections) d = Spacer 1 15).
Proof.
  induction rs as [|r rs IH]; intros k sections Hk Hlen H; cbn [enumerate mapM] in H.
  - injection H as <-. cbn [List.length Z.of_nat] in Hlen.
    cbn [concat filter List.length enumerate map Z.of_nat].
    repeat split; [lia | congruence].
  - destruct (pdf_property_section total (k, r)) as [section|e] eqn:Es;
      cbn [bind] in H; [|discriminate H].
    destruct (mapM (pdf_property_section total) (enumerate (k + 1) rs))
      as [rest|e] eqn:Er; cbn [bind] in H; [|discriminate H].
    injection H as <-. cbn [List.length] in Hlen.
    destruct (IH (k + 1)%Z rest ltac:(lia) ltac:(lia) Er) as (Ht & Hg & Hh & Hl).
    unfold pdf_property_section in Es.
    destruct (pdf_prop_data r) as [cells|e]; cbn [bind] in Es; [|discriminate Es].
    injection Es as <-.
    cbn [concat enumerate map fst List.length].
    rewrite !filter_app, !length_app, Ht, Hh, Nat2Z.inj_add, Hg.
    destruct (Z.eqb_spec (k mod 2) 0) as [Heven|Hodd];
      destruct (Z.ltb_spec k total) as [Hlt|Hge]; cbn [andb app];
      (split; [reflexivity|]);
      (split; [cbn [filter is_page_gap Z.eqb Pos.eqb andb List.length]; lia|]);
      (split; [cbn; rewrite prefix_empty; reflexivity|]);
      intros _ d;
      (destruct rs as [|r' rs'];
       [ cbn [enumerate mapM] in Er; injection Er as <-;
         cbn [List.length Z.of_nat Pos.of_succ_nat] in Hlen;
         try reflexivity; exfalso; lia
       | specialize (Hl ltac:(discriminate) d);
         cbn [enumerate mapM] in Er;
         destruct (pdf_property_section total ((k + 1)%Z, r')) as [s'|e] eqn:Es';
         cbn [bind] in Er; [|discriminate Er];
         destruct (mapM (pdf_property_section total) (enumerate (k + 1 + 1) rs'))
           as [rest'|e]; cbn [bind] in Er; [|discriminate Er];
         injection Er as <-; unfold pdf_property_section in Es';
         destruct (pdf_prop_data r') as [c'|e]; cbn [bind] in Es'; [|discriminate Es'];
         injection Es' as <-;
         destruct (((k + 1) mod 2 =? 0)%Z && (k + 1 <? total)%Z);
         cbn [concat app] in Hl |- *; exact Hl ]).
Qed.

Lemma export_to_pdf_report_ok_inv (str_title : string -> string) (rs : list PyVal)
    (search_metadata search_id : PyVal) (now : datetime)
    (content : list Flowable) (filename : string) :
  export_to_pdf_report str_title rs search_metadata search_id now
  = Ok (content, filename) ->
  rs <> [] /\
  exists sections,
    mapM (pdf_property_section (Z.of_nat (List.length rs))) (enumerate 1 rs)
    = Ok sections /\
    content
    = (report_title :: pdf_info_block str_title search_metadata
       ++ Paragraph ("Properties Found: " ++ int_str (Z.of_nat (List.length rs)))
            CustomHeading
       :: concat sections)%list.
Proof.
  intros H. unfold export_to_pdf_report in H. apply reraise_ok_inv in H.
  destruct rs as [|r0 rs0] eqn:Ers; [discriminate H|]. rewrite <- Ers in *.
  replace (is_empty rs) with false in H by (now rewrite Ers).
  split; [now rewrite Ers|]. unfold pdf_info_block.
  destruct (truthy search_metadata).
  - destruct search_metadata as [| | | | |items]; try discriminate H.
    cbn [py_items bind items_of] in H |- *.
    destruct (mapM _ (enumerate 1 rs)) as [sections|e]; cbn [bind] in H;
      [|discriminate H].
    injection H as <- _. exists sections. split; [reflexivity|].
    destruct (is_empty (pdf_metadata_rows str_title items)); cbn [app];
      rewrite <- ?app_assoc; reflexivity.
  - cbn [bind] in H.
    destruct (mapM _ (enumerate 1 rs)) as [sections|e]; cbn [bind] in H;
      [|discriminate H].
    injection H as <- _. exists sections. split; reflexivity.
Qed.



(** ** Numbers in the report *)

Lemma is_digit_not_comma (c : ascii) : is_digit c = true -> Ascii.eqb c "," = false.
Proof.
  intros H. destruct (Ascii.eqb_spec c ","%char) as [->|]; [discriminate H | reflexivity].
Qed.

Lemma N_digits_digits (fuel : positive) :
  forall n acc,
    all_chars is_digit acc = true -> all_chars is_digit (N_digits fuel n acc) = true.
Proof.
  induction fuel as [f IH|f IH|]; intros n acc Hacc; cbn [N_digits]; cbv zeta;
    destruct (n <? 10)%N;
    try apply IH; cbn [all_chars];
    rewrite is_digit_digit_char by lia; exact Hacc.
Qed.

Lemma N_str_digits (n : N) : all_chars is_digit (N_str n) = true.
Proof. now apply N_digits_digits. Qed.

Lemma N_str_not_empty (n : N) : N_str n <> "".
Proof.
  destruct (N_str_head n "") as (d & r & _ & H). rewrite append_nil_r in H.
  rewrite H. discriminate.
Qed.

Lemma group_thousands_step (c : ascii) (r : string) :
  group_thousands (String c r)
  = String c (if (0 <? String.length r)%nat && (String.length r mod 3 =? 0)%nat
              then String "," (group_thousands r) else group_thousands r).
Proof.
  cbn [group_thousands]. cbv zeta.
  now destruct ((0 <? String.length r)%nat && (String.length r mod 3 =? 0)%nat).
Qed.

Lemma remove_commas_group_thousands (s : string) :
  all_chars is_digit s = true -> remove_char "," (group_thousands s) = s.
Proof.
  induction s as [|c r IH]; [reflexivity|].
  cbn [all_chars]. intros H. apply andb_prop in H as [Hc Hr].
  rewrite group_thousands_step. cbn [remove_char].
  rewrite (is_digit_not_comma c Hc).
  destruct ((0 <? String.length r)%nat && (String.length r mod 3 =? 0)%nat);
    cbn [remove_char Ascii.eqb Bool.eqb]; now rewrite IH.
Qed.

Lemma split_group_thousands (s : string) :
  all_chars is_digit s = true -> s <> "" ->
  exists g gs,
    split_on "," (group_thousands s) = g :: gs /\
    String.length g = S ((String.length s - 1) mod 3) /\
    Forall (fun g' => String.length g' = 3%nat) gs.
Proof.
  induction s as [|c r IH]; [congruence|].
  cbn [all_chars]. intros H _. apply andb_prop in H as [Hc Hr].
  rewrite group_thousands_step. cbn [split_on String.length].
  rewrite (is_digit_not_comma c Hc).
  destruct r as [|c' r'].
  - exists (String c ""), []. cbn. repeat split. constructor.
  - destruct (IH Hr ltac:(discriminate)) as (g & gs & Hsplit & Hg & Hgs).
    set (r := String c' r') in *.
    assert (Hpos : (0 < String.length r)%nat) by (cbn; lia).
    destruct (Nat.ltb_spec 0 (String.length r)) as [_|Hle]; [|lia].
    destruct (Nat.eqb_spec (String.length r mod 3) 0) as [Hmod|Hmod]; cbn [andb].
    + cbn [split_on Ascii.eqb Bool.eqb]. rewrite Hsplit.
      exists (String c ""), (g :: gs).
      split; [reflexivity|]. split.
      * cbn [String.length]. clear - Hmod Hpos. lia.
      * constructor; [|exact Hgs]. rewrite Hg. clear - Hmod Hpos. lia.
    + rewrite Hsplit. exists (String c g), gs.
      split; [reflexivity|]. split; [|exact Hgs].
      cbn [String.length]. rewrite Hg. clear - Hmod Hpos. lia.
Qed.

Lemma pdf_prop_data_number_cells (d : PyDictItems) (cells : list (list PyVal)) :
  pdf_prop_data (PyDict d) = Ok cells ->
  (forall n, dict_get d "squareFootage" = Some (PyInt n) -> n <> 0%Z ->
             nth_error cells 4 = Some [PyStr "Square Footage"; PyStr (int_commas n)])
  /\ (forall n, dict_get d "lastSalePrice" = Some (PyInt n) -> n <> 0%Z ->
                nth_error cells 6
                = Some [PyStr "Last Sale Price"; PyStr ("$" ++ int_commas n)]).
Proof.
  intros H. unfold pdf_prop_data in H. cbn [py_get bind] in H. split.
  - intros n Hsq Hn. rewrite Hsq in H. cbn [truthy] in H.
    destruct (Z.eqb_spec n 0) as [|_]; [contradiction|].
    cbn [negb format_commas bind] in H. bind_inv H. now injection H as <-.
  - intros n Hpr Hn. rewrite Hpr in H. cbn [truthy] in H.
    destruct (Z.eqb_spec n 0) as [|_]; [contradiction|].
    cbn [negb format_commas bind] in H. bind_inv H. now injection H as <-.
Qed.

(** X14: in the table of a property, a non-zero integer [squareFootage]
    is printed with its decimal digits grouped by commas, and a non-zero
    integer [lastSalePrice] likewise after a dollar sign: taking the commas
    out gives back [str] of the number, and for a positive number the first
    group has one to three digits and every further group exactly three. *)
Theorem pdf_number_cells
    (d : PyDictItems) (cells : list (list PyVal))
    (Hok : pdf_prop_data (PyDict d) = Ok cells) :
  (forall n,
      dict_get d "squareFootage" = Some (PyInt n) -> n <> 0%Z ->
      exists text,
        nth_error cells 4 = Some [PyStr "Square Footage"; PyStr text] /\
        remove_char "," text = int_str n /\
        ((0 < n)%Z ->
         exists g gs,
           split_on "," text = g :: gs /\
           (1 <= String.length g <= 3)%nat /\
           Forall (fun g' => String.length g' = 3%nat) gs))
  /\ (forall n,
         dict_get d "lastSalePrice" = Some (PyInt n) -> n <> 0%Z ->
         exists text,
           nth_error cells 6 = Some [PyStr "Last Sale Price"; PyStr ("$" ++ text)] /\
           remove_char "," text = int_str n /\
           ((0 < n)%Z ->
            exists g gs,
              split_on "," text = g :: gs /\
              (1 <= String.length g <= 3)%nat /\
              Forall (fun g' => String.length g' = 3%nat) gs)).
Proof.
  assert (Hcommas : forall n,
             remove_char "," (int_commas n) = int_str n /\
             ((0 < n)%Z ->
              exists g gs,
                split_on "," (int_commas n) = g :: gs /\
                (1 <= String.length g <= 3)%nat /\
                Forall (fun g' => String.length g' = 3%nat) gs)).
  { intros n. unfold int_commas, int_str. cbv zeta. split.
    - destruct (n <? 0)%Z; cbn [remove_char Ascii.eqb Bool.eqb];
        now rewrite remove_commas_group_thousands by apply N_str_digits.
    - intros Hn. destruct (Z.ltb_spec n 0) as [|_]; [lia|].
      destruct (split_group_thousands (N_str (Z.abs_N n)) (N_str_digits _)
                  (N_str_not_empty _)) as (g & gs & Hsplit & Hg & Hgs).
      exists g, gs. split; [exact Hsplit|]. split; [|exact Hgs].
      rewrite Hg. clear. lia. }
  destruct (pdf_prop_data_number_cells d cells Hok) as [Hsq Hpr].
  split; intros n Hn Hnz; exists (int_commas n);
    (split; [auto | apply Hcommas]).
Qed.

Lemma pdf_number_cells_witness :
  exists cells,
    pdf_prop_data (PyDict priced_record) = Ok cells /\
    nth_error cells 4 = Some [PyStr "Square Footage"; PyStr "1,850"] /\
    nth_error cells 6 = Some [PyStr "Last Sale Price"; PyStr "$1,234,567"] /\
    exists text,
      nth_error cells 6 = Some [PyStr "Last Sale Price"; PyStr ("$" ++ text)] /\
      remove_char "," text = "1234567".
Proof.
  eexists. split; [reflexivity|]. split; [reflexivity|]. split; [reflexivity|].
  destruct (proj2 (pdf_number_cells priced_record _ eq_refl) 1234567%Z eq_refl
              ltac:(discriminate))
    as (text & Hcell & Hremove & _).
  exists text. split; [exact Hcell | exact Hremove].
Defined.

(** ** Filenames of the four formats *)

Lemma str_last_append (a b : string) : b <> "" -> str_last (a ++ b) = str_last b.
Proof.
  intros Hb. induction a as [|c a IH]; [reflexivity|].
  cbn [append str_last]. rewrite IH.
  destruct (a ++ b) eqn:E; [|reflexivity].
  destruct a; [cbn in E; congruence | discriminate E].
Qed.

Lemma export_filename_last (stem ext : string) (search_id : PyVal) (now : datetime) :
  ext <> "" -> str_last (export_filename stem search_id now ext) = str_last ext.
Proof.
  intros Hext. unfold export_filename. cbv zeta.
  rewrite !str_last_append; try reflexivity; try exact Hext.
  all: intros E; apply (f_equal String.length) in E; rewrite ?length_append in E;
    cbn [String.length] in E; try lia.
  all: destruct ext; [congruence | cbn [String.length] in E; lia].
Qed.

(** X15: whatever the identifiers and the clock readings, the filenames of
    exports in different formats differ: a name ends in [.json], [.csv],
    [.xlsx] or [.pdf] according to its format, so the four downloads offered
    for one search never overwrite one another. *)
Theorem filenames_differ_by_format
    (str_title : string -> string) (x : PyVal) (rs2 rs3 rs4 : list PyVal)
    (meta3 meta4 id1 id2 id3 id4 : PyVal) (t1 t2 t3 t4 : datetime)
    (payload : string) (df : DataFrame) (wb : Workbook) (content : list Flowable)
    (f1 f2 f3 f4 : string)
    (Hjson : export_to_json x id1 t1 = Ok (payload, f1))
    (Hcsv : export_to_csv rs2 id2 t2 = Ok (df, f2))
    (Hexcel : export_to_excel rs3 meta3 id3 t3 = Ok (wb, f3))
    (Hpdf : export_to_pdf_report str_title rs4 meta4 id4 t4 = Ok (content, f4)) :
  NoDup [f1; f2; f3; f4] /\
  str_last f1 = Some "n"%char /\ str_last f2 = Some "v"%char /\
  str_last f3 = Some "x"%char /\ str_last f4 = Some "f"%char.
Proof.
  rewrite export_to_json_filename in Hjson. injection Hjson as _ <-.
  apply export_to_csv_filename in Hcsv. apply export_to_excel_filename in Hexcel.
  apply export_to_pdf_report_filename in Hpdf. subst f2 f3 f4.
  assert (H1 := export_filename_last "property_search" ".json" id1 t1 ltac:(discriminate)).
  assert (H2 := export_filename_last "property_search" ".csv" id2 t2 ltac:(discriminate)).
  assert (H3 := export_filename_last "property_search" ".xlsx" id3 t3 ltac:(discriminate)).
  assert (H4 := export_filename_last "property_report" ".pdf" id4 t4 ltac:(discriminate)).
  cbn [str_last] in H1, H2, H3, H4.
  split; [|now repeat split].
  repeat constructor; cbn [In]; intros H;
    repeat (destruct H as [H|H]; [rewrite H in *; congruence|]); exact H.
Qed.

Lemma filenames_differ_by_format_witness :
  exists payload df wb content f1 f2 f3 f4,
    export_to_json main_street (PyStr "s1") sample_now = Ok (payload, f1) /\
    export_to_csv [main_street] (PyStr "s1") sample_now = Ok (df, f2) /\
    export_to_excel [main_street] PyNone (PyStr "s1") sample_now = Ok (wb, f3) /\
    export_to_pdf_report (fun s => s) [main_street] PyNone (PyStr "s1") sample_now
    = Ok (content, f4) /\
    NoDup [f1; f2; f3; f4].
Proof.
  eexists _, _, _, _, _, _, _, _.
  split; [reflexivity|]. split; [reflexivity|]. split; [reflexivity|].
  split; [reflexivity|].
  exact (proj1 (filenames_differ_by_format (fun s => s) main_street
                  [main_street] [main_street] [main_street] PyNone PyNone
                  (PyStr "s1") (PyStr "s1") (PyStr "s1") (PyStr "s1")
                  sample_now sample_now sample_now sample_now
                  _ _ _ _ _ _ _ _ eq_refl eq_refl eq_refl eq_refl)).
Defined.

(** ** The fields the exports read *)

Lemma mapM_ext_Forall2 {A B : Type} (f f' : A -> result B) (R : A -> A -> Prop)
    (xs xs' : list A) :
  (forall x x', R x x' -> f x = f' x') -> Forall2 R xs xs' -> mapM f xs = mapM f' xs'.
Proof.
  intros Hf H. induction H as [|x x' xs xs' Hx _ IH]; cbn [mapM]; [reflexivity|].
  now rewrite (Hf x x' Hx), IH.
Qed.

Lemma enumerate_Forall2 {A : Type} (R : A -> A -> Prop) (xs xs' : list A) :
  Forall2 R xs xs' ->
  forall start,
    Forall2 (fun e e' => fst e = fst e' /\ R (snd e) (snd e'))
      (enumerate start xs) (enumerate start xs').
Proof.
  intros H. induction H as [|x x' xs xs' Hx _ IH]; intros start; cbn [enumerate];
    constructor; [now split | apply IH].
Qed.

Ltac key_in := apply (proj1 (existsb_eqb_In _ _)); reflexivity.

Ltac same_keys H d :=
  repeat match goal with
    | |- context [dict_get d ?k] => rewrite (H k) by key_in
    end.

Lemma csv_row_same (r r' : PyVal) :
  same_fields csv_source_keys r r' -> csv_row r = csv_row r'.
Proof.
  destruct r as [| | | | |d], r' as [| | | | |d']; cbn [same_fields];
    try congruence; try discriminate.
  intros H. unfold csv_row. cbn [py_get]. rewrite !py_in_and_getitem_dict.
  same_keys H d. reflexivity.
Qed.

Lemma excel_row_same (r r' : PyVal) :
  same_fields excel_source_keys r r' -> excel_row r = excel_row r'.
Proof.
  destruct r as [| | | | |d], r' as [| | | | |d']; cbn [same_fields];
    try congruence; try discriminate.
  intros H. unfold excel_row. cbn [py_get]. same_keys H d. reflexivity.
Qed.

Lemma year_rows_same (key : string)
    (mk : Z -> PyVal -> string * PyVal -> result Row) (i : Z) (r r' : PyVal) :
  In key excel_source_keys ->
  (forall d d' item,
      dict_get d "formattedAddress" = dict_get d' "formattedAddress" ->
      mk i (PyDict d) item = mk i (PyDict d') item) ->
  same_fields excel_source_keys r r' ->
  year_rows key mk (i, r) = year_rows key mk (i, r').
Proof.
  intros Hkey Hmk.
  destruct r as [| | | | |d], r' as [| | | | |d']; cbn [same_fields];
    try congruence; try discriminate.
  intros H. unfold year_rows. rewrite !py_in_and_getitem_dict, (H key Hkey).
  cbn [bind]. destruct (truthy _); [|reflexivity].
  destruct (py_items _) as [items|e]; cbn [bind]; [|reflexivity].
  apply (mapM_ext_Forall2 _ _ eq).
  - intros item ? <-. apply Hmk. apply H. key_in.
  - clear. induction items; constructor; auto.
Qed.

Lemma year_sheet_rows_same (key : string)
    (mk : Z -> PyVal -> string * PyVal -> result Row) (rs rs' : list PyVal) :
  In key excel_source_keys ->
  (forall i d d' item,
      dict_get d "formattedAddress" = dict_get d' "formattedAddress" ->
      mk i (PyDict d) item = mk i (PyDict d') item) ->
  Forall2 (same_fields excel_source_keys) rs rs' ->
  year_sheet_rows key mk rs = year_sheet_rows key mk rs'.
Proof.
  intros Hkey Hmk H. unfold year_sheet_rows. f_equal.
  eapply mapM_ext_Forall2; [|exact (enumerate_Forall2 _ _ _ H 0%Z)]; cbv beta.
  intros [i r] [i' r'] [Hi Hr]. cbn [fst snd] in Hi, Hr. subst i'.
  apply year_rows_same; [exact Hkey | apply Hmk | exact Hr].
Qed.

Lemma pdf_prop_data_same (r r' : PyVal) :
  same_fields pdf_source_keys r r' -> pdf_prop_data r = pdf_prop_data r'.
Proof.
  destruct r as [| | | | |d], r' as [| | | | |d']; cbn [same_fields];
    try congruence; try discriminate.
  intros H. unfold pdf_prop_data. cbn [py_get]. same_keys H d. reflexivity.
Qed.

Lemma is_empty_Forall2 {A : Type} (R : A -> A -> Prop) (xs xs' : list A) :
  Forall2 R xs xs' -> is_empty xs = is_empty xs'.
Proof. now intros [|]. Qed.

Lemma export_to_csv_same (rs rs' : list PyVal) (search_id : PyVal) (now : datetime) :
  Forall2 (same_fields csv_source_keys) rs rs' ->
  export_to_csv rs search_id now = export_to_csv rs' search_id now.
Proof.
  intros H. unfold export_to_csv.
  rewrite (is_empty_Forall2 _ _ _ H), (mapM_ext_Forall2 _ _ _ _ _ csv_row_same H).
  reflexivity.
Qed.

Lemma export_to_excel_same (rs rs' : list PyVal) (search_metadata search_id : PyVal)
    (now : datetime) :
  Forall2 (same_fields excel_source_keys) rs rs' ->
  export_to_excel rs search_metadata search_id now
  = export_to_excel rs' search_metadata search_id now.
Proof.
  intros H. unfold export_to_excel.
  rewrite (is_empty_Forall2 _ _ _ H), (mapM_ext_Forall2 _ _ _ _ _ excel_row_same H).
  rewrite (year_sheet_rows_same "taxAssessments" tax_assessment_row rs rs'
             ltac:(key_in)); [|clear; intros i d d' [year data] E|exact H].
  - rewrite (year_sheet_rows_same "propertyTaxes" property_tax_row rs rs'
               ltac:(key_in)); [reflexivity|clear; intros i d d' [year data] E|exact H].
    unfold property_tax_row. cbn [py_get]. now rewrite E.
  - unfold tax_assessment_row. cbn [py_get]. now rewrite E.
Qed.

Lemma dict_get_set_other (d : PyDictItems) (k k' : string) (v : PyVal) :
  k <> k' -> dict_get (dict_set d k v) k' = dict_get d k'.
Proof.
  intros Hne. induction d as [|[k0 v0] d IH]; cbn [dict_set dict_get].
  - destruct (String.eqb_spec k k'); [contradiction | reflexivity].
  - destruct (String.eqb_spec k0 k) as [->|_]; cbn [dict_get].
    + destruct (String.eqb_spec k k'); [contradiction | reflexivity].
    + now rewrite IH.
Qed.

Lemma annotate_result_same (keys : list string) (a b c : PyVal) (d : PyDictItems) :
  ~ In "search_id" keys -> ~ In "search_date" keys -> ~ In "search_address" keys ->
  same_fields keys (PyDict (annotate_result a b c d)) (PyDict d).
Proof.
  intros Ha Hb Hc k Hk. unfold annotate_result.
  rewrite !dict_get_set_other; [reflexivity| | |]; intros <-; contradiction.
Qed.

Ltac not_key := intros H; apply existsb_eqb_In in H; discriminate H.

(** X16: the exports read a fixed set of record fields and nothing else:
    two sequences of records that agree, record by record, on those fields
    give the same outcome (the same artifact and filename, or the same
    error) in the tabular, workbook and report exports. *)
Theorem exports_read_only_their_fields
    (str_title : string -> string) (rs rs' : list PyVal)
    (search_metadata search_id : PyVal) (now : datetime) :
  (Forall2 (same_fields csv_source_keys) rs rs' ->
   export_to_csv rs search_id now = export_to_csv rs' search_id now)
  /\ (Forall2 (same_fields excel_source_keys) rs rs' ->
      export_to_excel rs search_metadata search_id now
      = export_to_excel rs' search_metadata search_id now)
  /\ (Forall2 (same_fields pdf_source_keys) rs rs' ->
      export_to_pdf_report str_title rs search_metadata search_id now
      = export_to_pdf_report str_title rs' search_metadata search_id now).
Proof.
  split; [apply export_to_csv_same|]. split; [apply export_to_excel_same|].
  intros H. unfold export_to_pdf_report.
  rewrite (is_empty_Forall2 _ _ _ H), (Forall2_length H).
  destruct (is_empty rs'); [reflexivity|].
  assert (Hs : mapM (pdf_property_section (Z.of_nat (List.length rs'))) (enumerate 1 rs)
               = mapM (pdf_property_section (Z.of_nat (List.length rs')))
                   (enumerate 1 rs')).
  { eapply mapM_ext_Forall2; [|exact (enumerate_Forall2 _ _ _ H 1%Z)]; cbv beta.
    intros [i r] [i' r'] [Hi Hr]. cbn [fst snd] in Hi, Hr. subst i'.
    unfold pdf_property_section. now rewrite (pdf_prop_data_same r r' Hr). }
  now rewrite Hs.
Qed.

(** X17: the search id, date and address that the bulk download writes
    into every result before combining them are dropped by the exports it
    then calls: the combined CSV and the combined workbook are the ones of
    the results as stored. *)
Theorem bulk_annotations_are_dropped
    (entries : list (PyVal * PyVal * PyVal * PyDictItems))
    (search_metadata search_id : PyVal) (now : datetime) :
  let stored := map (fun e => PyDict (snd e)) entries in
  let annotated :=
    map (fun e => let '(id, date, address, result) := e in
                  PyDict (annotate_result id date address result)) entries in
  export_to_csv annotated search_id now = export_to_csv stored search_id now /\
  export_to_excel annotated search_metadata search_id now
  = export_to_excel stored search_metadata search_id now.
Proof.
  cbv zeta. split.
  - apply export_to_csv_same. induction entries as [|[[[a b] c] d] entries IH];
      cbn [map snd]; constructor; [|exact IH].
    apply annotate_result_same; not_key.
  - apply export_to_excel_same. induction entries as [|[[[a b] c] d] entries IH];
      cbn [map snd]; constructor; [|exact IH].
    apply annotate_result_same; not_key.
Qed.

(** ** Filenames sort by time *)

Lemma compare_append_same (p a b : string) :
  String.compare (p ++ a) (p ++ b) = String.compare a b.
Proof.
  induction p as [|c p IH]; [reflexivity|].
  cbn [append String.compare]. unfold Ascii.compare. now rewrite N.compare_refl.
Qed.

Lemma compare_lt_append (x y a b : string) :
  String.length x = String.length y ->
  String.compare x y = Lt -> String.compare (x ++ a) (y ++ b) = Lt.
Proof.
  revert y. induction x as [|c x IH]; intros [|c' y] Hlen H;
    try discriminate Hlen; try discriminate H.
  cbn [append String.compare] in H |- *.
  destruct (Ascii.compare c c'); try discriminate H; [|reflexivity].
  apply IH; [now injection Hlen | exact H].
Qed.

Lemma zfill_lt (w : nat) :
  forall n m, (n < m)%N -> (m < 10 ^ N.of_nat w)%N ->
              String.compare (zfill w n) (zfill w m) = Lt.
Proof.
  induction w as [|w IH]; intros n m Hlt Hm.
  - cbn in Hm. lia.
  - rewrite Nat2N.inj_succ, N.pow_succ_r' in Hm. cbn [zfill].
    destruct (N.eq_dec (n / 10) (m / 10)) as [E|Hne].
    + rewrite E, compare_append_same. cbn [String.compare]. unfold Ascii.compare.
      rewrite !N_of_digit_char by lia.
      assert (Hd : (48 + n mod 10 < 48 + m mod 10)%N) by lia.
      apply N.compare_lt_iff in Hd. now rewrite Hd.
    + apply compare_lt_append; [now rewrite !zfill_length|].
      apply IH; lia.
Qed.

Lemma zfill_field_lt (w : nat) (n m : N) (a b : string) :
  (n < m)%N -> (m < 10 ^ N.of_nat w)%N ->
  String.compare (zfill w n ++ a) (zfill w m ++ b) = Lt.
Proof.
  intros Hlt Hm. apply compare_lt_append; [now rewrite !zfill_length|].
  now apply zfill_lt.
Qed.

Lemma strftime_compact_lt (t1 t2 : datetime) (a b : string) :
  valid_datetime t2 -> earlier_second t1 t2 ->
  String.compare (strftime t1 compact_format ++ a) (strftime t2 compact_format ++ b)
  = Lt.
Proof.
  intros V2 H. rewrite !strftime_compact, !append_assoc.
  unfold valid_datetime in V2. unfold earlier_second in H.
  destruct H as [H|[-> H]]; [apply zfill_field_lt; [exact H | cbn; lia]|].
  rewrite compare_append_same.
  destruct H as [H|[-> H]]; [apply zfill_field_lt; [exact H | cbn; lia]|].
  rewrite compare_append_same.
  destruct H as [H|[-> H]]; [apply zfill_field_lt; [exact H | cbn; lia]|].
  rewrite compare_append_same. rewrite (compare_append_same "_").
  destruct H as [H|[-> H]]; [apply zfill_field_lt; [exact H | cbn; lia]|].
  rewrite compare_append_same.
  destruct H as [H|[-> H]]; [apply zfill_field_lt; [exact H | cbn; lia]|].
  rewrite compare_append_same.
  apply zfill_field_lt; [exact H | cbn; lia].
Qed.

Lemma export_filename_lt (stem ext : string) (search_id : PyVal) (t1 t2 : datetime) :
  valid_datetime t2 -> earlier_second t1 t2 ->
  String.compare (export_filename stem search_id t1 ext)
    (export_filename stem search_id t2 ext) = Lt.
Proof.
  intros V2 H. unfold export_filename. cbv zeta.
  rewrite !compare_append_same. now apply strftime_compact_lt.
Qed.

(** X18: filenames sort by time: for one search identifier and one format,
    and clock readings whose years have four digits, an export made at an
    earlier date and time of day (to the second) gets a name that precedes,
    in the order of character codes, the name of a later export. *)
Theorem export_filenames_sort_by_time
    (search_id : PyVal) (t1 t2 : datetime)
    (V1 : valid_datetime t1) (V2 : valid_datetime t2)
    (Hearlier : earlier_second t1 t2) :
  (forall x p1 f1 p2 f2,
      export_to_json x search_id t1 = Ok (p1, f1) ->
      export_to_json x search_id t2 = Ok (p2, f2) -> String.compare f1 f2 = Lt)
  /\ (forall rs a1 f1 a2 f2,
         export_to_csv rs search_id t1 = Ok (a1, f1) ->
         export_to_csv rs search_id t2 = Ok (a2, f2) -> String.compare f1 f2 = Lt)
  /\ (forall rs meta a1 f1 a2 f2,
         export_to_excel rs meta search_id t1 = Ok (a1, f1) ->
         export_to_excel rs meta search_id t2 = Ok (a2, f2) ->
         String.compare f1 f2 = Lt)
  /\ (forall str_title rs meta a1 f1 a2 f2,
         export_to_pdf_report str_title rs meta search_id t1 = Ok (a1, f1) ->
         export_to_pdf_report str_title rs meta search_id t2 = Ok (a2, f2) ->
         String.compare f1 f2 = Lt).
Proof.
  repeat split.
  - intros x p1 f1 p2 f2 E1 E2. rewrite export_to_json_filename in E1, E2.
    injection E1 as _ <-. injection E2 as _ <-. now apply export_filename_lt.
  - intros rs a1 f1 a2 f2 E1 E2.
    apply export_to_csv_filename in E1, E2. subst. now apply export_filename_lt.
  - intros rs meta a1 f1 a2 f2 E1 E2.
    apply export_to_excel_filename in E1, E2. subst. now apply export_filename_lt.
  - intros str_title rs meta a1 f1 a2 f2 E1 E2.
    apply export_to_pdf_report_filename in E1, E2. subst. now apply export_filename_lt.
Qed.

Lemma export_filenames_sort_by_time_witness :
  valid_datetime sample_now /\ valid_datetime sample_later /\
  earlier_second sample_now sample_later /\
  String.compare "property_search_s1_20240307_090559.csv"
    "property_search_s1_20240307_090600.csv" = Lt.
Proof.
  assert (V1 : valid_datetime sample_now) by (cbv; repeat split; discriminate).
  assert (V2 : valid_datetime sample_later) by (cbv; repeat split; discriminate).
  assert (H : earlier_second sample_now sample_later).
  { unfold earlier_second. cbn. right. split; [reflexivity|]. right.
    split; [reflexivity|]. right. split; [reflexivity|]. right.
    split; [reflexivity|]. left. reflexivity. }
  split; [exact V1|]. split; [exact V2|]. split; [exact H|].
  exact (proj1 (proj2 (export_filenames_sort_by_time (PyStr "s1") sample_now
                         sample_later V1 V2 H))
           [main_street] _ _ _ _ eq_refl eq_refl).
Defined.

(** ** Searches as stored and as read *)

(** X19: a search written by [save_property_search] of
    utils/search_database.py is read back consistently by the export side:
    for the stored row, the summary reports the searched address, the ISO
    timestamp of the search and the number of results, and the pages'
    helpers return the same address, results and count.  The history tab of
    the property-search page, which looks for [formattedAddress] in
    [property_data], shows "Unknown Address" for every such row. *)
Theorem saved_search_reads_back
    (row pd : PyDictItems) (address search_params : PyVal) (rs : list PyVal)
    (saved now now_handler : datetime)
    (Hrow : dict_get row "property_data" = Some (PyDict pd))
    (Hpd : stored_by_save pd address (PyList rs) search_params saved) :
  get_export_summary (PyDict row) now now_handler
  = summary_of (strftime now iso_format) (Z.of_nat (List.length rs)) address
      (PyStr (isoformat saved))
  /\ get_search_address (page_property_data row) = address
  /\ get_property_results (page_property_data row) = PyList rs
  /\ get_property_count (page_property_data row) = Z.of_nat (List.length rs)
  /\ safe_get (PyDict pd) "formattedAddress" (PyStr "Unknown Address")
     = PyStr "Unknown Address".
Proof.
  assert (Ha : dict_get pd "address" = Some address) by (rewrite Hpd; reflexivity).
  assert (Hr : dict_get pd "results" = Some (PyList rs)) by (rewrite Hpd; reflexivity).
  assert (Ht : dict_get pd "search_timestamp" = Some (PyStr (isoformat saved)))
    by (rewrite Hpd; reflexivity).
  assert (Hf : dict_get pd "formattedAddress" = None) by (rewrite Hpd; reflexivity).
  unfold page_property_data. rewrite Hrow. cbn [default_to].
  split; [|split; [|split; [|split]]].
  - rewrite (get_export_summary_nested _ _ now now_handler Hrow), Ha, Hr, Ht.
    reflexivity.
  - unfold get_search_address, get_search_address_body, dict_has.
    rewrite Ha. cbn [py_getitem]. now rewrite Ha.
  - unfold get_property_results. now rewrite (find_results_direct pd _ Hr).
  - unfold get_property_count. now rewrite (find_results_direct pd _ Hr).
  - unfold safe_get. cbn [py_get]. now rewrite Hf.
Qed.

Lemma saved_search_reads_back_witness :
  dict_get
    (get_export_summary
       (PyDict (save_property_search_data (PyInt 7) (PyStr "1 Main St")
                  (PyList [main_street; taxed_record]) PyNone sample_now))
       sample_later sample_later)
    "Search Date" = Some (PyStr "2024-03-07T09:05:59.120000").
Proof.
  rewrite (proj1 (saved_search_reads_back
                    (save_property_search_data (PyInt 7) (PyStr "1 Main St")
                       (PyList [main_street; taxed_record]) PyNone sample_now)
                    _ (PyStr "1 Main St") PyNone [main_street; taxed_record]
                    sample_now sample_later sample_later eq_refl
                    (fun k => eq_refl))).
  reflexivity.
Defined.

(** X20: a search written by the property-search page stores the single
    property itself as [property_data].  When that property has no [results]
    and no [property_data] entry of its own, the downloads page finds nothing
    to export for it, the saved-searches page counts 0 properties and the
    summary reports 0; and unless the property has an [address] entry, both
    pages show "Unknown Address" for it, whatever its [formattedAddress]. *)
Theorem page_saved_search_has_no_results
    (user_id : PyVal) (prop : PyDictItems) (utcnow now now_handler : datetime)
    (Hresults : dict_get prop "results" = None)
    (Hnested : dict_get prop "property_data" = None) :
  let row := page_search_row user_id (PyDict prop) utcnow in
  get_property_results (page_property_data row) = PyList []
  /\ get_property_count (page_property_data row) = 0%Z
  /\ dict_get (get_export_summary (PyDict row) now now_handler) "Total Properties"
     = Some (PyInt 0)
  /\ (dict_get prop "address" = None ->
      get_search_address (page_property_data row) = PyStr "Unknown Address").
Proof.
  cbv zeta.
  change (page_property_data (page_search_row user_id (PyDict prop) utcnow))
    with (PyDict prop).
  rewrite (get_export_summary_nested (page_search_row user_id (PyDict prop) utcnow)
             prop now now_handler eq_refl), Hresults.
  unfold get_property_results, get_property_count, find_results,
    get_search_address, get_search_address_body, dict_has.
  rewrite Hresults, Hnested. repeat split. intros Haddress. now rewrite Haddress.
Qed.

Lemma page_saved_search_has_no_results_witness :
  get_property_results
    (page_property_data (page_search_row (PyStr "u1") unit_record sample_now))
  = PyList [].
Proof.
  exact (proj1 (page_saved_search_has_no_results (PyStr "u1")
                  [("id", PyStr "p1"); ("formattedAddress", PyStr "1 Main St")]
                  sample_now sample_now sample_now eq_refl eq_refl)).
Defined.

(** ** The first property of a response *)

Section FirstProperty.
Variable json_loads_text : string -> result PyVal.

(** X21: [process_property_data] yields the same property for the three
    shapes of a response: the list of properties, a mapping that wraps the
    list under [properties] (or, failing that, under [data]), and the bare
    property, recognised by one of the keys [formattedAddress],
    [propertyType], [bedrooms], [id].  [properties] takes precedence over
    [data], and both over the keys of a bare property.  A mapping with none
    of the six keys, an empty list and a value that is neither text, list
    nor mapping give [None]. *)
Theorem process_property_data_shapes (p : PyVal) (rest : list PyVal) :
  process_property_data json_loads_text (PyList (p :: rest)) = p
  /\ (forall d,
         dict_get d "properties" = Some (PyList (p :: rest)) ->
         process_property_data json_loads_text (PyDict d) = p)
  /\ (forall d,
         dict_get d "properties" = None ->
         dict_get d "data" = Some (PyList (p :: rest)) ->
         process_property_data json_loads_text (PyDict d) = p)
  /\ (forall d,
         dict_get d "properties" = None -> dict_get d "data" = None ->
         process_property_data json_loads_text (PyDict d)
         = if looks_like_property d then PyDict d else PyNone)
  /\ process_property_data json_loads_text (PyList []) = PyNone
  /\ (forall v,
         is_str v = false -> is_dict v = false ->
         (forall l, v <> PyList l) ->
         process_property_data json_loads_text v = PyNone).
Proof.
  split; [reflexivity|]. split; [|split; [|split; [|split]]].
  - intros d Hd. unfold process_property_data, process_property_data_body,
      first_property, select_properties, dict_has.
    rewrite Hd. cbn [py_getitem]. rewrite Hd. reflexivity.
  - intros d Hp Hd. unfold process_property_data, process_property_data_body,
      first_property, select_properties, dict_has.
    rewrite Hp, Hd. cbn [py_getitem]. rewrite Hd. reflexivity.
  - intros d Hp Hd. unfold process_property_data, process_property_data_body,
      first_property, select_properties, dict_has at 1 2.
    rewrite Hp, Hd. fold (looks_like_property d).
    now destruct (looks_like_property d).
  - reflexivity.
  - intros v Hs Hd Hl. destruct v; try reflexivity; try discriminate.
    now destruct (Hl l).
Qed.
End FirstProperty.

(** ** The CSV and the [Properties] sheet *)

Lemma csv_row_shared_cells (d : PyDictItems) (row : Row) :
  csv_row (PyDict d) = Ok row ->
  map (dict_get row) excel_columns = map Some (excel_cells (PyDict d)).
Proof.
  intros H. unfold csv_row in H. cbn [py_get bind] in H.
  rewrite !py_in_and_getitem_dict in H. cbn [bind] in H.
  destruct (truthy (default_to (PyBool false) (dict_get d "owner")));
    destruct (truthy (default_to (PyBool false) (dict_get d "features")));
    invert_ok; reflexivity.
Qed.

Lemma csv_row_shared_field (r : PyVal) (row : Row) (c : string) :
  csv_row r = Ok row -> In c excel_columns ->
  dict_get row c = dict_get (combine excel_columns (excel_cells r)) c.
Proof.
  intros Er Hc. destruct r as [| | | | |d]; try discriminate Er.
  pose proof (csv_row_shared_cells d row Er) as Hshared.
  rewrite <- (dict_get_combine excel_columns (excel_cells (PyDict d))) in Hshared;
    [ | now apply NoDup_by_nodup | reflexivity ].
  exact (ext_in_map Hshared c Hc).
Qed.

Lemma csv_shared_column (rs : list PyVal) (rows : list Row) (c : string) :
  Forall2 (fun r row => csv_row r = Ok row) rs rows -> In c excel_columns ->
  column_of rows c = column_of (excel_rows rs) c.
Proof.
  intros Hrows Hc. unfold column_of, excel_rows.
  induction Hrows as [|r row rs rows Er _ IH]; cbn [map]; [reflexivity|].
  now rewrite IH, (csv_row_shared_field r row c Er Hc).
Qed.

(** X22: the tabular export and the workbook agree on the columns they
    share: when both return for the same records, whose integers fit in 64
    bits, every cell of the [Properties] sheet is the cell that the CSV has
    in the same row under the same column label: missing in both, the same
    float in both, or the same value in both. *)
Theorem csv_and_workbook_agree
    (rs : list PyVal) (search_metadata id1 id2 : PyVal) (t1 t2 : datetime)
    (df : DataFrame) (wb : Workbook) (f1 f2 : string)
    (Hcsv : export_to_csv rs id1 t1 = Ok (df, f1))
    (Hexcel : export_to_excel rs search_metadata id2 t2 = Ok (wb, f2))
    (Hfit : forallb ints_fit rs = true) :
  exists properties,
    get_sheet wb "Properties" = Some properties /\
    forall i r,
      nth_error rs i = Some r ->
      exists csv_cells sheet_cells,
        nth_error (cells_of df) i = Some csv_cells /\
        nth_error (cells_of properties) i = Some sheet_cells /\
        forall c j j',
          nth_error (columns df) j = Some c ->
          nth_error (columns properties) j' = Some c ->
          exists cell,
            nth_error csv_cells j = Some cell /\
            nth_error sheet_cells j' = Some cell.
Proof.
  apply export_to_csv_ok_inv in Hcsv as (Hne & rows & Hrows & ->).
  apply export_to_excel_ok_inv in Hexcel as (_ & _ & _ & -> & _).
  destruct (excel_workbook_sheets rs search_metadata) as (Hprops & _).
  eexists. split; [exact Hprops|].
  intros i r Hi.
  destruct (Forall2_nth_error_l _ _ _ Hrows i r Hi) as (row & Hrow & Er).
  rewrite cells_of_DataFrame_of.
  rewrite cells_of_frame; [ | now apply NoDup_by_nodup | reflexivity ].
  fold (excel_rows rs).
  eexists _, _.
  unfold Row, PyDictItems in *.
  split; [now rewrite nth_error_map, Hrow|].
  split; [unfold excel_rows at 2; now rewrite !nth_error_map, Hi|].
  intros c j j' Hj Hj'. cbn [frame columns] in Hj'.
  pose proof (nth_error_In _ _ Hj') as Hc.
  eexists. unfold row_cells.
  split; [now rewrite nth_error_map, Hj|].
  rewrite nth_error_map, Hj'. cbn [option_map].
  now rewrite (csv_shared_column rs rows c Hrows Hc),
    (csv_row_shared_field r row c Er Hc).
Qed.

Lemma csv_and_workbook_agree_witness :
  exists df wb f1 f2 properties csv_cells sheet_cells,
    export_to_csv sparse_records PyNone sample_now = Ok (df, f1) /\
    export_to_excel sparse_records PyNone PyNone sample_now = Ok (wb, f2) /\
    get_sheet wb "Properties" = Some properties /\
    nth_error (cells_of df) 0 = Some csv_cells /\
    nth_error (cells_of properties) 0 = Some sheet_cells /\
    nth_error (columns df) 14 = Some "County" /\
    nth_error (columns properties) 13 = Some "County" /\
    nth_error csv_cells 14 = nth_error sheet_cells 13 /\
    nth_error csv_cells 5 = Some (AsFloat64 3) /\
    nth_error sheet_cells 5 = Some (AsFloat64 3).
Proof.
  assert (Ecsv : exists df,
             export_to_csv sparse_records PyNone sample_now
             = Ok (df, "property_search_export_20240307_090559.csv"))
    by (eexists; reflexivity).
  destruct Ecsv as (df & Ecsv).
  assert (Exl : export_to_excel sparse_records PyNone PyNone sample_now
                = Ok (excel_workbook sparse_records PyNone,
                      "property_search_export_20240307_090559.xlsx"))
    by reflexivity.
  destruct (csv_and_workbook_agree _ _ _ _ _ _ _ _ _ _ Ecsv Exl eq_refl)
    as (properties & Hprops & Hcells).
  destruct (Hcells 0%nat _ eq_refl)
    as (csv_cells & sheet_cells & Hcsv & Hsheet & Hsame).
  assert (Hcols : nth_error (columns df) 14 = Some "County"
                  /\ nth_error (columns df) 5 = Some "Bedrooms"
                  /\ nth_error (cells_of df) 0
                     = Some (row_cells
                               [combine csv_base_columns
                                  [NA; PyNone; NA; NA; NA; PyInt 3; NA; NA; NA; NA; NA;
                                   NA; PyStr "No"; NA; NA; NA; NA; NA];
                                combine csv_base_columns
                                  [NA; NA; NA; NA; NA; PyNone; NA; NA; NA; NA; NA;
                                   NA; PyStr "No"; NA; NA; NA; NA; NA]]
                               csv_base_columns
                               (combine csv_base_columns
                                  [NA; PyNone; NA; NA; NA; PyInt 3; NA; NA; NA; NA; NA;
                                   NA; PyStr "No"; NA; NA; NA; NA; NA]))).
  { injection Ecsv as <-. repeat split; reflexivity. }
  destruct Hcols as (Hcounty & Hbedrooms & Hrow0).
  assert (Hcolsx : nth_error (columns properties) 13 = Some "County"
                   /\ nth_error (columns properties) 5 = Some "Bedrooms").
  { cbv in Hprops. injection Hprops as <-. split; reflexivity. }
  destruct Hcolsx as (Hcountyx & Hbedroomsx).
  destruct (Hsame "County" 14%nat 13%nat Hcounty Hcountyx) as (v & Hv & Hv').
  destruct (Hsame "Bedrooms" 5%nat 5%nat Hbedrooms Hbedroomsx) as (b & Hb & Hb').
  exists df. eexists _, _, _, properties, csv_cells, sheet_cells.
  split; [exact Ecsv|]. split; [exact Exl|]. split; [exact Hprops|].
  split; [exact Hcsv|]. split; [exact Hsheet|]. split; [exact Hcounty|].
  split; [exact Hcountyx|]. split; [now rewrite Hv, Hv'|].
  assert (Eb : nth_error csv_cells 5 = Some (AsFloat64 3)).
  { rewrite Hrow0 in Hcsv. injection Hcsv as <-. reflexivity. }
  split; [exact Eb|]. rewrite Hb', <- Hb. exact Eb.
Defined.

(** ** Search statistics *)

Lemma key_eqb_sym (a b : PyVal) : key_eqb a b = key_eqb b a.
Proof.
  destruct a, b; cbn [key_eqb]; try reflexivity.
  - now destruct b, b0.
  - apply Z.eqb_sym.
  - apply Z.eqb_sym.
  - apply Z.eqb_sym.
  - apply String.eqb_sym.
Qed.

Lemma count_key_total (counts : Counts) (k : PyVal) :
  total_count (count_key counts k) = (total_count counts + 1)%Z.
Proof.
  induction counts as [|[k' n] rest IH]; cbn [count_key total_count fold_right snd];
    [lia|].
  destruct (key_eqb k' k); cbn [total_count fold_right snd];
    [|fold (total_count (count_key rest k)); fold (total_count rest); rewrite IH];
    try fold (total_count rest); lia.
Qed.

Lemma count_key_keys (R : PyVal -> Prop) (counts : Counts) (k : PyVal) :
  Forall (fun item => R (fst item)) counts -> R k ->
  Forall (fun item => R (fst item)) (count_key counts k).
Proof.
  intros H Hk. induction H as [|[k' n] rest Hx Hrest IH]; cbn [count_key].
  - now repeat constructor.
  - destruct (key_eqb k' k); constructor; assumption.
Qed.

Lemma count_key_counted (counts : Counts) (k : PyVal) :
  Forall counted counts -> truthy k = true -> Forall counted (count_key counts k).
Proof.
  intros H Hk. induction H as [|[k' n] rest [Hx Hn] Hrest IH]; cbn [count_key].
  - repeat constructor; [exact Hk | cbn; lia].
  - cbn [fst snd] in Hx, Hn.
    destruct (key_eqb k' k); constructor; try assumption; split; cbn [fst snd];
      try assumption; lia.
Qed.

Lemma count_key_distinct (counts : Counts) (k : PyVal) :
  distinct_keys counts -> distinct_keys (count_key counts k).
Proof.
  induction counts as [|[k' n] rest IH]; cbn [count_key distinct_keys].
  - intros _. now repeat constructor.
  - intros [Hhead Hrest]. destruct (key_eqb k' k) eqn:E; cbn [distinct_keys fst].
    + now split.
    + split; [|now apply IH].
      now apply (count_key_keys (fun k0 => key_eqb k' k0 = false)).
Qed.

Lemma count_property_types_spec (searches : list PyVal) :
  forall counts counts',
    count_property_types counts searches = Ok counts' ->
    Forall counted counts -> distinct_keys counts ->
    Forall counted counts' /\ distinct_keys counts'
    /\ (total_count counts' <= total_count counts + Z.of_nat (List.length searches))%Z.
Proof.
  induction searches as [|s rest IH]; intros counts counts' H Hc Hd;
    cbn [count_property_types] in H.
  - injection H as <-. cbn [List.length]. repeat split; try assumption. lia.
  - destruct (count_property_type counts s) as [counts1|e] eqn:E; cbn [bind] in H;
      [|discriminate H].
    assert (H1 : Forall counted counts1 /\ distinct_keys counts1
                 /\ (total_count counts1 <= total_count counts + 1)%Z).
    { unfold count_property_type in E.
      destruct (py_getitem s "property_data") as [pd|e]; cbn [bind] in E;
        [|discriminate E].
      destruct (py_get pd "propertyType" PyNone) as [prop_type|e]; cbn [bind] in E;
        [|discriminate E].
      destruct (truthy prop_type) eqn:Ht.
      - destruct (hashable prop_type); [|discriminate E]. injection E as <-.
        split; [now apply count_key_counted|]. split; [now apply count_key_distinct|].
        rewrite count_key_total. lia.
      - injection E as <-. repeat split; try assumption. lia. }
    destruct H1 as (Hc1 & Hd1 & Ht1).
    destruct (IH counts1 counts' H Hc1 Hd1) as (Hc' & Hd' & Ht').
    repeat split; try assumption. cbn [List.length]. lia.
Qed.

Lemma insert_by_count_Forall (P : PyVal * Z -> Prop) (x : PyVal * Z) (l : Counts) :
  Forall P (insert_by_count x l) <-> P x /\ Forall P l.
Proof.
  induction l as [|y rest IH]; cbn [insert_by_count].
  - split; [intros H; inversion H; now split | intros [Hx _]; now constructor].
  - destruct (snd x <? snd y)%Z.
    + split.
      * intros H. inversion H as [|? ? Hy Hrest]; subst. apply IH in Hrest as [Hx Hr].
        split; [exact Hx | now constructor].
      * intros [Hx H]. inversion H as [|? ? Hy Hrest]; subst.
        constructor; [exact Hy | apply IH; now split].
    + split.
      * intros H. inversion H; now split.
      * intros [Hx H]. now constructor.
Qed.

Lemma sorted_by_count_Forall (P : PyVal * Z -> Prop) (l : Counts) :
  Forall P (sorted_by_count l) <-> Forall P l.
Proof.
  induction l as [|x rest IH]; cbn [sorted_by_count fold_right]; [reflexivity|].
  fold (sorted_by_count rest). rewrite insert_by_count_Forall, IH.
  split; [intros [Hx H]; now constructor | intros H; inversion H; now split].
Qed.

Lemma insert_by_count_total (x : PyVal * Z) (l : Counts) :
  total_count (insert_by_count x l) = (snd x + total_count l)%Z.
Proof.
  induction l as [|y rest IH]; cbn [insert_by_count]; [reflexivity|].
  destruct (snd x <? snd y)%Z; [|reflexivity].
  cbn [total_count fold_right]. fold (total_count (insert_by_count x rest)).
  fold (total_count rest). rewrite IH. lia.
Qed.

Lemma sorted_by_count_total (l : Counts) :
  total_count (sorted_by_count l) = total_count l.
Proof.
  induction l as [|x rest IH]; cbn [sorted_by_count fold_right]; [reflexivity|].
  fold (sorted_by_count rest). rewrite insert_by_count_total, IH. reflexivity.
Qed.

Lemma insert_by_count_distinct (x : PyVal * Z) (l : Counts) :
  Forall (fun y => key_eqb (fst x) (fst y) = false) l -> distinct_keys l ->
  distinct_keys (insert_by_count x l).
Proof.
  induction l as [|y rest IH]; intros Hx Hd; cbn [insert_by_count].
  - now split.
  - destruct (snd x <? snd y)%Z; [|now split].
    destruct Hd as [Hy Hd]. inversion Hx as [|? ? Hxy Hxrest]; subst.
    cbn [distinct_keys]. split; [|now apply IH].
    apply insert_by_count_Forall. split; [|exact Hy].
    now rewrite key_eqb_sym.
Qed.

Lemma sorted_by_count_distinct (l : Counts) :
  distinct_keys l -> distinct_keys (sorted_by_count l).
Proof.
  induction l as [|x rest IH]; cbn [sorted_by_count fold_right distinct_keys];
    [trivial|].
  intros [Hx Hd]. fold (sorted_by_count rest).
  apply insert_by_count_distinct; [|now apply IH].
  now apply sorted_by_count_Forall.
Qed.

Lemma insert_by_count_sorted (x : PyVal * Z) (l : Counts) :
  StronglySorted (fun a b => (snd b <= snd a)%Z) l ->
  StronglySorted (fun a b => (snd b <= snd a)%Z) (insert_by_count x l).
Proof.
  induction 1 as [|y rest Hsorted IH Hy]; cbn [insert_by_count].
  - repeat constructor.
  - destruct (Z.ltb_spec (snd x) (snd y)) as [Hlt|Hge].
    + constructor; [exact IH|]. apply insert_by_count_Forall. split; [lia | exact Hy].
    + constructor; [now constructor|]. constructor; [exact Hge|].
      revert Hy. apply Forall_impl. intros z Hz. lia.
Qed.

Lemma sorted_by_count_sorted (l : Counts) :
  StronglySorted (fun a b => (snd b <= snd a)%Z) (sorted_by_count l).
Proof.
  induction l as [|x rest IH]; cbn [sorted_by_count fold_right]; [constructor|].
  now apply insert_by_count_sorted.
Qed.

Lemma firstn_Forall {A : Type} (P : A -> Prop) (n : nat) (l : list A) :
  Forall P l -> Forall P (firstn n l).
Proof.
  intros H. revert n. induction H as [|x l Hx _ IH]; intros [|n]; cbn [firstn];
    constructor; [exact Hx | apply IH].
Qed.

Lemma firstn_sorted {A : Type} (R : A -> A -> Prop) (n : nat) (l : list A) :
  StronglySorted R l -> StronglySorted R (firstn n l).
Proof.
  intros H. revert n. induction H as [|x l _ IH Hx]; intros [|n]; cbn [firstn];
    constructor; [apply IH | now apply firstn_Forall].
Qed.

Lemma firstn_distinct (n : nat) (l : Counts) :
  distinct_keys l -> distinct_keys (firstn n l).
Proof.
  revert n. induction l as [|x l IH]; intros [|n]; cbn [firstn distinct_keys];
    try trivial.
  intros [Hx Hd]. split; [now apply firstn_Forall | now apply IH].
Qed.

Lemma firstn_total (n : nat) (l : Counts) :
  Forall counted l -> (total_count (firstn n l) <= total_count l)%Z.
Proof.
  intros H. revert n.
  induction H as [|x l [_ Hx] Hl IH]; intros [|n]; cbn [firstn total_count fold_right];
    try lia.
  - fold (total_count l).
    assert (0 <= total_count l)%Z; [|lia].
    clear - Hl. induction Hl as [|y l [_ Hy] _ IH]; cbn [total_count fold_right];
      [lia | fold (total_count l); lia].
  - fold (total_count (firstn n l)). fold (total_count l). specialize (IH n). lia.
Qed.

Lemma enumerate_length {A : Type} (xs : list A) :
  forall start, List.length (enumerate start xs) = List.length xs.
Proof.
  induction xs as [|x xs IH]; intros start; cbn [enumerate List.length];
    [reflexivity | now rewrite IH].
Qed.

Section SearchStatisticsFacts.
Variable recent : Z -> PyVal -> result bool.

Lemma count_recent_bound (searches : list PyVal) (n : Z) :
  count_recent recent searches = Ok n ->
  (0 <= n <= Z.of_nat (List.length searches))%Z.
Proof.
  unfold count_recent. intros H.
  destruct (mapM _ (enumerate 0 searches)) as [flags|e] eqn:E; cbn [bind] in H;
    [|discriminate H].
  injection H as <-. apply mapM_ok_Forall2 in E. apply Forall2_length_eq in E.
  rewrite enumerate_length in E.
  rewrite <- E. pose proof (filter_length_le (fun flag : bool => flag) flags). lia.
Qed.

(** X23: when [get_search_statistics] of the property-search page returns
    statistics (anything but the empty dictionary), the total is the number
    of searches, the recent count lies between 0 and the total, and the top
    property types are at most five entries, in order of non-increasing
    count, each a truthy property type counted at least once, no type twice
    ([True] and [1] being one type), whose counts add up to no more than the
    number of searches. *)
Theorem search_statistics_top_types
    (searches : list PyVal)
    (Hok : get_search_statistics recent searches <> []) :
  exists recent_searches top,
    get_search_statistics recent searches
    = [("total_searches", PyInt (Z.of_nat (List.length searches)));
       ("recent_searches", PyInt recent_searches);
       ("top_property_types", PyList (map property_type_entry top))] /\
    (0 <= recent_searches <= Z.of_nat (List.length searches))%Z /\
    (List.length top <= 5)%nat /\
    StronglySorted (fun a b => (snd b <= snd a)%Z) top /\
    Forall counted top /\
    distinct_keys top /\
    (total_count top <= Z.of_nat (List.length searches))%Z.
Proof.
  unfold get_search_statistics, search_statistics_body in *. cbv zeta in *.
  destruct (count_recent recent searches) as [n|e] eqn:En; cbn [bind] in *;
    [|congruence].
  destruct (count_property_types [] searches) as [counts|e] eqn:Ec; cbn [bind] in *;
    [|congruence].
  destruct (count_property_types_spec searches [] counts Ec) as (Hc & Hd & Ht);
    [constructor | exact I |].
  cbn [total_count fold_right] in Ht.
  exists n, (firstn 5 (sorted_by_count counts)).
  split; [reflexivity|]. split; [now apply count_recent_bound|].
  split; [apply firstn_le_length|].
  split; [apply firstn_sorted, sorted_by_count_sorted|].
  split; [now apply firstn_Forall, sorted_by_count_Forall|].
  split; [now apply firstn_distinct, sorted_by_count_distinct|].
  pose proof (firstn_total 5 (sorted_by_count counts)
                (proj2 (sorted_by_count_Forall counted counts) Hc)) as Hle.
  rewrite sorted_by_count_total in Hle. lia.
Qed.
End SearchStatisticsFacts.

Lemma search_statistics_top_types_witness :
  dict_get
    (get_search_statistics (fun _ _ => Ok true)
       [typed_search "Condo"; typed_search "Single Family"; typed_search "Condo"])
    "top_property_types"
  = Some (PyList [property_type_entry (PyStr "Condo", 2%Z);
                  property_type_entry (PyStr "Single Family", 1%Z)]) /\
  exists top,
    dict_get
      (get_search_statistics (fun _ _ => Ok true)
         [typed_search "Condo"; typed_search "Single Family"; typed_search "Condo"])
      "top_property_types"
    = Some (PyList (map property_type_entry top)) /\
    StronglySorted (fun a b => (snd b <= snd a)%Z) top /\
    (List.length top <= 5)%nat.
Proof.
  split; [reflexivity|].
  destruct (search_statistics_top_types (fun _ _ => Ok true)
              [typed_search "Condo"; typed_search "Single Family"; typed_search "Condo"]
              ltac:(discriminate))
    as (n & top & E & _ & Hlen & Hsorted & _).
  exists top. rewrite E. split; [reflexivity|]. split; assumption.
Defined.
